(** * Spreadsheet-to-JSON extractors: a shallow embedding

    The two pipelines of the repository are embedded here:
    [convert_india_spices_to_json.py] (metadata, geography hierarchy,
    segment hierarchy, data records, assembler) and
    [generate_distributors_json.py] (tiered column mappings, row
    extraction, document generation).

    Conventions.
    - A sheet read by the spreadsheet library is a grid of typed cells.
    - Python [dict]s are insertion-ordered association lists ([PyDict]).
    - Python exceptions are values of type [exn]; a function that may
      raise returns [py A].
    - Python floats are kept behind the interface [PyFloat]; integers
      are [Z], indices are [nat].  [Binary64] implements the interface
      with IEEE doubles, [Exact] with rationals. *)

From Stdlib Require Import ZArith QArith Qabs Qround Lqa Ascii String List.
From Stdlib Require PrimFloat FloatOps SpecFloat.
From stdpp Require Import base decidable option list strings gmap sorting.

Local Open Scope string_scope.
Local Open Scope Z_scope.
Local Open Scope list_scope.

(** ** Python string methods *)

Module PyStr.

(** [str.isspace] on one ASCII character: TAB..CR, FS..US, SPACE. *)
Definition is_space (c : ascii) : bool :=
  let n := nat_of_ascii c in
  ((9 <=? n)%nat && (n <=? 13)%nat) || ((28 <=? n)%nat && (n <=? 32)%nat).

Fixpoint lstrip_ws (s : string) : string :=
  match s with
  | String c s' => if is_space c then lstrip_ws s' else s
  | EmptyString => EmptyString
  end.

Definition rstrip_ws (s : string) : string :=
  String.rev (lstrip_ws (String.rev s)).

(** [s.strip()] *)
Definition strip (s : string) : string := rstrip_ws (lstrip_ws s).

(** [s.lstrip(c)] for a one-character argument. *)
Fixpoint lstrip_char (c : ascii) (s : string) : string :=
  match s with
  | String c' s' => if Ascii.eqb c c' then lstrip_char c s' else s
  | EmptyString => EmptyString
  end.

(** [s.count(c)] for a one-character argument. *)
Fixpoint count_char (c : ascii) (s : string) : nat :=
  match s with
  | String c' s' => (if Ascii.eqb c c' then 1 else 0) + count_char c s'
  | EmptyString => 0
  end%nat.

(** [s.startswith(p)] *)
Definition startswith (p s : string) : bool := String.prefix p s.

(** [p in s] on strings *)
Fixpoint contains (p s : string) : bool :=
  String.prefix p s ||
  match s with
  | String _ s' => contains p s'
  | EmptyString => false
  end.

Definition lower_char (c : ascii) : ascii :=
  let n := nat_of_ascii c in
  if ((65 <=? n)%nat && (n <=? 90)%nat) then ascii_of_nat (n + 32) else c.

(** [s.lower()] (ASCII letters) *)
Fixpoint lower (s : string) : string :=
  match s with
  | String c s' => String (lower_char c) (lower s')
  | EmptyString => EmptyString
  end.

(** [s.replace(a, b)] for one-character [a] and [b]. *)
Fixpoint replace_char (a b : ascii) (s : string) : string :=
  match s with
  | String c s' => String (if Ascii.eqb a c then b else c) (replace_char a b s')
  | EmptyString => EmptyString
  end.

Definition is_digit (c : ascii) : bool :=
  let n := nat_of_ascii c in (48 <=? n)%nat && (n <=? 57)%nat.

Fixpoint all_digits (s : string) : bool :=
  match s with
  | String c s' => is_digit c && all_digits s'
  | EmptyString => true
  end.

(** [s.isdigit()]: every character a digit and at least one character. *)
Definition isdigit (s : string) : bool :=
  match s with
  | EmptyString => false
  | _ => all_digits s
  end.

(** Truth value of a string: non-empty. *)
Definition truthy (s : string) : bool :=
  match s with EmptyString => false | _ => true end.

Definition digit_val (c : ascii) : Z := Z.of_nat (nat_of_ascii c) - 48.

(** Digits of an integer literal, with single underscores allowed
    between digits; [acc] is the value read so far, [after_digit]
    tells whether the previous character was a digit. *)
Fixpoint int_digits (s : string) (acc : Z) (after_digit : bool) : option Z :=
  match s with
  | EmptyString => if after_digit then Some acc else None
  | String c s' =>
      if is_digit c then int_digits s' (10 * acc + digit_val c) true
      else if Ascii.eqb c "_" && after_digit then
        match s' with
        | String c' _ => if is_digit c' then int_digits s' acc false else None
        | EmptyString => None
        end
      else None
  end.

(** [int(s)] in base 10: surrounding whitespace, an optional sign,
    digits.  [None] stands for [ValueError]. *)
Definition int_of_str (s : string) : option Z :=
  match strip s with
  | String "-" s' => Z.opp <$> int_digits s' 0 false
  | String "+" s' => int_digits s' 0 false
  | s' => int_digits s' 0 false
  end.

Definition digit_char (d : Z) : ascii := ascii_of_nat (Z.to_nat d + 48).

Fixpoint str_of_pos_fuel (fuel : nat) (z : Z) (acc : string) : string :=
  match fuel with
  | O => acc
  | S fuel' =>
      let acc' := String (digit_char (z mod 10)) acc in
      if z <? 10 then acc' else str_of_pos_fuel fuel' (z / 10) acc'
  end.

(** [str(z)] for an integer. *)
Definition str_of_int (z : Z) : string :=
  if z <? 0 then String "-" (str_of_pos_fuel (S (Z.to_nat (Z.log2 (- z)))) (- z) "")
  else str_of_pos_fuel (S (Z.to_nat (Z.log2 z))) z "".

End PyStr.

(** ** Insertion-ordered dictionaries *)

Module PyDict.
Section dict.
Context {K V : Type} `{EqDecision K}.

(** [d.get(k)] *)
Fixpoint get (d : list (K * V)) (k : K) : option V :=
  match d with
  | [] => None
  | (k', v) :: d' => if decide (k = k') then Some v else get d' k
  end.

(** [d[k] = v]: overwrite in place, or append a new entry. *)
Fixpoint set (d : list (K * V)) (k : K) (v : V) : list (K * V) :=
  match d with
  | [] => [(k, v)]
  | (k', v') :: d' =>
      if decide (k = k') then (k', v) :: d' else (k', v') :: set d' k v
  end.

(** [d.update(u)] *)
Definition update (d u : list (K * V)) : list (K * V) :=
  fold_left (fun acc kv => set acc kv.1 kv.2) u d.

(** [d.setdefault(k, v)] *)
Definition setdefault (d : list (K * V)) (k : K) (v : V) : list (K * V) :=
  match get d k with
  | Some _ => d
  | None => set d k v
  end.

(** [k in d] *)
Definition mem (d : list (K * V)) (k : K) : bool :=
  match get d k with Some _ => true | None => false end.

(** [d.keys()] *)
Definition keys (d : list (K * V)) : list K := d.*1.
End dict.
End PyDict.

(** ** Exceptions and the workbook reader *)

Inductive exn :=
  | ValueError | TypeError | IndexError | KeyError
  | OverflowError | ZeroDivisionError.

(** A computation that returns or raises. *)
Inductive py (A : Type) :=
  | Raise (e : exn)
  | Return (a : A).
Arguments Raise {A} e.
Arguments Return {A} a.

Global Instance py_ret : MRet py := fun A a => Return a.
Global Instance py_bind : MBind py := fun A B f m =>
  match m with
  | Raise e => Raise e
  | Return a => f a
  end.

(** [try: body / except Exception: handler] *)
Definition try_except {A} (body : py A) (handler : exn -> py A) : py A :=
  match body with
  | Raise e => handler e
  | Return a => Return a
  end.

(** [for x in xs: acc = body(acc, x)], stopping at the first exception. *)
Fixpoint for_each {A S} (xs : list A) (body : S -> A -> py S) (acc : S) : py S :=
  match xs with
  | [] => Return acc
  | x :: xs' => acc' ← body acc x; for_each xs' body acc'
  end.

(** [range(a, b)] *)
Definition range (a b : nat) : list nat := seq a (b - a).

(** [enumerate(xs)] *)
Definition enumerate {A} (xs : list A) : list (nat * A) :=
  combine (seq 0 (length xs)) xs.

(** The operations of Python's [float] used by the pipelines.  The
    arithmetic is IEEE double arithmetic in the source; nothing below
    depends on more than the two laws listed last. *)
Class PyFloat (F : Type) := {
  fzero : F;                       (* 0.0 *)
  fone : F;                        (* 1.0 *)
  fof_Z : Z -> F;                  (* float(n) for an int n *)
  fadd : F -> F -> F;
  fsub : F -> F -> F;
  fmul : F -> F -> F;
  fdiv : F -> F -> F;              (* x / y, for y non-zero *)
  fpow : F -> F -> F;              (* x ** y *)
  fround : F -> Z -> F;            (* round(x, ndigits) *)
  fgtb : F -> F -> bool;           (* x > y *)
  feqb : F -> F -> bool;           (* x == y *)
  ftrunc : F -> py Z;              (* int(x) *)
  fof_str : string -> option F;    (* float(s); None is ValueError *)
  frepr : F -> string;             (* str(x) *)
  fround_zero : forall n, fround fzero n = fzero;
  feqb_zero : feqb fzero fzero = true
}.

Section cells.
Context {F : Type} `{PyFloat F}.

(** A scalar held by a spreadsheet cell as the reader delivers it.
    [CEmpty] is the missing value (NaN/NaT); [COther] is any other
    scalar (a date, a time), carried by its [str()]. *)
Inductive cell :=
  | CEmpty
  | CText (s : string)
  | CInt (z : Z)
  | CFloat (f : F)
  | CBool (b : bool)
  | COther (text : string).

(** [pd.notna(x)] on a cell, and on a possibly-[None] value. *)
Definition notna (c : cell) : bool :=
  match c with CEmpty => false | _ => true end.
Definition notna_opt (v : option cell) : bool :=
  match v with Some c => notna c | None => false end.
Definition isna (c : cell) : bool := negb (notna c).

(** [str(x)] *)
Definition py_str (c : cell) : string :=
  match c with
  | CEmpty => "nan"
  | CText s => s
  | CInt z => PyStr.str_of_int z
  | CFloat f => frepr f
  | CBool b => if b then "True" else "False"
  | COther s => s
  end.

(** [bool(x)]: NaN is truthy, [None] is not. *)
Definition truthy (c : cell) : bool :=
  match c with
  | CEmpty => true
  | CText s => PyStr.truthy s
  | CInt z => negb (z =? 0)
  | CFloat f => negb (feqb f fzero)
  | CBool b => b
  | COther _ => true
  end.
Definition truthy_opt (v : option cell) : bool :=
  match v with Some c => truthy c | None => false end.

(** [a or b] *)
Definition py_or (a b : option cell) : option cell :=
  if truthy_opt a then a else b.

(** [float(x)]; every call is behind a [pd.notna] test, so the
    [CEmpty] case is never reached. *)
Definition py_float (c : cell) : py F :=
  match c with
  | CEmpty => Raise TypeError
  | CText s => match fof_str s with Some f => Return f | None => Raise ValueError end
  | CInt z => Return (fof_Z z)
  | CFloat f => Return f
  | CBool b => Return (if b then fone else fzero)
  | COther _ => Raise TypeError
  end.

(** [int(x)]; a missing value is a NaN, which [int] rejects. *)
Definition py_int (c : cell) : py Z :=
  match c with
  | CEmpty => Raise ValueError
  | CText s => match PyStr.int_of_str s with Some z => Return z | None => Raise ValueError end
  | CInt z => Return z
  | CFloat f => ftrunc f
  | CBool b => Return (if b then 1 else 0)
  | COther _ => Raise TypeError
  end.

(** A sheet read with [header=None]: a list of rows. *)
Definition grid := list (list cell).

(** [row.iloc[i]] *)
Definition iloc (row : list cell) (i : nat) : py cell :=
  match row !! i with Some c => Return c | None => Raise IndexError end.

(** [df.iloc[r]] *)
Definition iloc_row (df : grid) (r : nat) : py (list cell) :=
  match df !! r with Some row => Return row | None => Raise IndexError end.

(** [df.iloc[r, c]] *)
Definition iloc2 (df : grid) (r c : nat) : py cell :=
  row ← iloc_row df r; iloc row c.

(** A sheet read with [header=0]: column labels and data rows. *)
Record frame := { columns : list cell; data : list (list cell) }.

(** Label equality as dictionary lookup sees it ([==] on scalars). *)
Definition label_is_str (s : string) (l : cell) : bool :=
  match l with CText s' => bool_decide (s = s') | _ => false end.
Definition label_is_int (z : Z) (l : cell) : bool :=
  match l with
  | CInt z' => z =? z'
  | CFloat f => feqb f (fof_Z z)
  | CBool b => z =? (if b then 1 else 0)
  | _ => false
  end.

Fixpoint row_lookup (p : cell -> bool) (cols row : list cell) : option cell :=
  match cols, row with
  | l :: cols', c :: row' => if p l then Some c else row_lookup p cols' row'
  | _, _ => None
  end.

(** [row.get(key)] for a string key and for an integer key. *)
Definition row_get_str (cols row : list cell) (key : string) : option cell :=
  row_lookup (label_is_str key) cols row.
Definition row_get_int (cols row : list cell) (key : Z) : option cell :=
  row_lookup (label_is_int key) cols row.

(** The workbook as the reader presents it: a sheet by name, read
    without or with a header row. *)
Record workbook := {
  sheet_grid : string -> option grid;
  sheet_frame : string -> option frame
}.

(** [pd.read_excel(path, sheet_name=..., header=None)] and [header=0];
    an absent sheet raises [ValueError]. *)
Definition read_excel_grid (wb : workbook) (sheet_name : string) : py grid :=
  match sheet_grid wb sheet_name with Some g => Return g | None => Raise ValueError end.
Definition read_excel_frame (wb : workbook) (sheet_name : string) : py frame :=
  match sheet_frame wb sheet_name with Some g => Return g | None => Raise ValueError end.
End cells.

Arguments cell F : clear implicits.
Arguments grid F : clear implicits.
Arguments frame F : clear implicits.
Arguments workbook F : clear implicits.

(** ** Distributor pipeline: column mappings *)

(** Base mapping for Module 1 - Standard *)
Definition base_mapping : list (nat * string) :=
  [ (0, "s_no"); (1, "company_name"); (2, "year_established");
    (3, "headquarters_emirate"); (4, "cities_regions_covered");
    (5, "ownership_type"); (6, "business_type"); (7, "no_of_employees");
    (8, "key_contact_person"); (9, "designation_role");
    (10, "email_address"); (11, "phone_whatsapp");
    (12, "linkedin_profile"); (13, "website_url") ]%nat.

(** Extended mapping for Module 2 - Advance *)
Definition advance_mapping : list (nat * string) :=
  PyDict.update base_mapping
    [ (8, "turnover_scale"); (9, "key_contact_person");
      (10, "designation_role"); (11, "email_address");
      (12, "phone_whatsapp"); (13, "linkedin_profile");
      (14, "website_url"); (15, "core_product_categories");
      (16, "specialty_focus"); (17, "price_segment") ]%nat.

(** Extended mapping for Module 3 - Premium *)
Definition premium_mapping : list (nat * string) :=
  PyDict.update advance_mapping
    [ (18, "key_brands_represented"); (19, "exclusive_partnerships");
      (20, "duration_partnerships"); (21, "retail_chains");
      (22, "pharmacies"); (23, "spas_salons_clinics");
      (24, "ecommerce_platforms"); (25, "channel_strength");
      (26, "distribution_type"); (27, "emirates_served");
      (28, "regional_extensions"); (29, "warehouse_logistics");
      (30, "delivery_storage"); (31, "competitive_benchmarking");
      (32, "additional_comments") ]%nat.

Definition get_module_field_mapping (module_name : string) : list (nat * string) :=
  if PyStr.contains "Standard" module_name then base_mapping
  else if PyStr.contains "Advance" module_name then advance_mapping
  else if PyStr.contains "Premium" module_name then premium_mapping
  else base_mapping.

Definition modules : list string :=
  [ "Module 1 - Standard"; "Module 2 - Advance"; "Module 3 - Premium" ].

(** ** Spices pipeline: segment hierarchy *)

Section segments.
Context {F : Type} `{PyFloat F}.

Record segment_info := {
  seg_type : string;                         (* 'hierarchical' or 'flat' *)
  seg_items : gset string;                   (* list(set(items)) *)
  seg_hierarchy : list (string * list string)
}.

(** The upward scan [for prev_idx in range(row_idx - 1, -1, -1)],
    leaving at the first cell with fewer markers than [level]. *)
Fixpoint find_parent (df : grid F) (col_idx level row_idx : nat) : py (option string) :=
  match row_idx with
  | O => Return None
  | S prev_idx =>
      prev_value ← iloc2 df prev_idx col_idx;
      if notna prev_value then
        let prev_item := PyStr.strip (py_str prev_value) in
        let prev_level := PyStr.count_char ">" prev_item in
        if (prev_level <? level)%nat
        then Return (Some (PyStr.strip (PyStr.lstrip_char ">" prev_item)))
        else find_parent df col_idx level prev_idx
      else find_parent df col_idx level prev_idx
  end.

(** [hierarchy[parent].append(clean_item)], creating the list if absent. *)
Definition hierarchy_append (hierarchy : list (string * list string))
    (parent clean_item : string) : list (string * list string) :=
  match PyDict.get hierarchy parent with
  | None => PyDict.set hierarchy parent [clean_item]
  | Some children => PyDict.set hierarchy parent (children ++ [clean_item])
  end.

(** Body of the loop over [row_idx] for one segment-type column;
    the state is [(items, hierarchy)]. *)
Definition segment_row (df : grid F) (col_idx : nat)
    (st : list string * list (string * list string)) (row_idx : nat)
    : py (list string * list (string * list string)) :=
  let '(items, hierarchy) := st in
  cell_value ← iloc2 df row_idx col_idx;
  if notna cell_value then
    let item := PyStr.strip (py_str cell_value) in
    if PyStr.truthy item && negb (PyStr.startswith "Segmentation" item) then
      let clean_item := PyStr.strip (PyStr.lstrip_char ">" item) in
      if PyStr.truthy clean_item then
        let items := items ++ [clean_item] in
        let level := PyStr.count_char ">" item in
        if (0 <? level)%nat then
          parent ← find_parent df col_idx level row_idx;
          match parent with
          | Some p =>
              if PyStr.truthy p
              then Return (items, hierarchy_append hierarchy p clean_item)
              else Return (items, hierarchy)
          | None => Return (items, hierarchy)
          end
        else Return (items, hierarchy)
      else Return (items, hierarchy)
    else Return (items, hierarchy)
  else Return (items, hierarchy).

(** One segment-type column: the items, the hierarchy and the record
    stored under the segment type's name. *)
Definition segment_column (df : grid F) (col_idx : nat) : py segment_info :=
  '(items, hierarchy) ← for_each (range 1 (length df)) (segment_row df col_idx) ([], []);
  let is_hierarchical := (0 <? length hierarchy)%nat in
  Return {| seg_type := if is_hierarchical then "hierarchical" else "flat";
            seg_items := list_to_set items;
            seg_hierarchy := hierarchy |}.

(** [df.iloc[0, 1:]] *)
Definition first_row_tail (df : grid F) : list (cell F) :=
  match df with
  | row :: _ => drop 1 row
  | [] => []
  end.

Definition extract_segment_hierarchy (wb : workbook F) : py (list (string * segment_info)) :=
  df ← read_excel_grid wb "Segmentation";
  if (0 <? length df)%nat then
    let segment_types :=
      map (fun x => PyStr.strip (py_str x)) (filter (fun x => notna x = true) (first_row_tail df)) in
    for_each (enumerate segment_types)
      (fun segments '(seg_type_idx, seg_type) =>
         if negb (PyStr.truthy seg_type) || bool_decide (seg_type = "Segmentation")
         then Return segments
         else
           let col_idx := (seg_type_idx + 1)%nat in
           info ← segment_column df col_idx;
           Return (PyDict.set segments seg_type info))
      []
  else Return [].
End segments.

(** ** Spices pipeline: metadata *)

(** Values stored in the metadata mapping. *)
Inductive meta_value :=
  | MStr (s : string)
  | MBool (b : bool)
  | MInt (z : Z)
  | MYears (ys : list Z).

Section metadata.
Context {F : Type} `{PyFloat F}.

(** The chain of substring rules applied to one (key, value) pair. *)
Definition metadata_rule (metadata : list (string * meta_value))
    (key : string) (value : cell F) : list (string * meta_value) :=
  let text := PyStr.strip (py_str value) in
  if PyStr.contains "Report Title" key then PyDict.set metadata "market_name" (MStr text)
  else if PyStr.contains "Market Type" key then PyDict.set metadata "market_type" (MStr text)
  else if PyStr.contains "Industry Type" key then PyDict.set metadata "industry" (MStr text)
  else if PyStr.contains "Value Currency" key then PyDict.set metadata "currency" (MStr text)
  else if PyStr.contains "Value Unit" key then PyDict.set metadata "value_unit" (MStr text)
  else if PyStr.contains "Volume Unit" key then PyDict.set metadata "volume_unit" (MStr text)
  else if PyStr.contains "Value" key && negb (PyStr.contains "Currency" key)
    then PyDict.set metadata "has_value" (MBool (bool_decide (PyStr.lower text = "yes")))
  else if PyStr.contains "Volume" key && negb (PyStr.contains "Unit" key)
    then PyDict.set metadata "has_volume" (MBool (bool_decide (PyStr.lower text = "yes")))
  else metadata.

(** Body of [for idx, row in df.iterrows()]. *)
Definition metadata_row (metadata : list (string * meta_value)) (row : list (cell F))
    : py (list (string * meta_value)) :=
  c0 ← iloc row 0;
  let key := if notna c0 then Some (PyStr.strip (py_str c0)) else None in
  value ← (if (1 <? length row)%nat then
             c1 ← iloc row 1;
             Return (if notna c1 then Some c1 else None)
           else Return None);
  match key, value with
  | Some k, Some v =>
      if PyStr.truthy k && truthy v then Return (metadata_rule metadata k v)
      else Return metadata
  | _, _ => Return metadata
  end.

Definition metadata_defaults (metadata : list (string * meta_value))
    : list (string * meta_value) :=
  let metadata := PyDict.setdefault metadata "market_name" (MStr "India Spices Market") in
  let metadata := PyDict.setdefault metadata "market_type" (MStr "Country") in
  let metadata := PyDict.setdefault metadata "industry" (MStr "CMFE") in
  let metadata := PyDict.setdefault metadata "currency" (MStr "INR") in
  let metadata := PyDict.setdefault metadata "value_unit" (MStr "Cr.") in
  let metadata := PyDict.setdefault metadata "volume_unit" (MStr "Kilo Tons") in
  let metadata := PyDict.setdefault metadata "has_value" (MBool true) in
  PyDict.setdefault metadata "has_volume" (MBool true).

Definition extract_metadata (wb : workbook F) : py (list (string * meta_value)) :=
  df ← read_excel_grid wb "Parameters";
  metadata ← for_each df metadata_row [];
  Return (metadata_defaults metadata).
End metadata.

(** ** Spices pipeline: geography hierarchy *)

Record geography_hierarchy := {
  geo_global : list string;
  geo_regions : list string;
  geo_countries : list (string * list string);
  geo_all_geographies : list string
}.

Section geography.
Context {F : Type} `{PyFloat F}.

(** Body of the loop over [col_idx] for one data row; the state is
    [(countries, all_geographies)]. *)
Definition geography_cell (first_row row : list (cell F)) (regions : list string)
    (st : list (string * list string) * gset string) (col_idx : nat)
    : py (list (string * list string) * gset string) :=
  let '(countries, all_geographies) := st in
  val ← iloc row col_idx;
  if notna val then
    let val_str := PyStr.strip (py_str val) in
    if PyStr.truthy val_str && negb (bool_decide (val_str = "")) then
      if (col_idx <? length first_row)%nat then
        hdr ← iloc first_row col_idx;
        let region := if notna hdr then Some (PyStr.strip (py_str hdr)) else None in
        match region with
        | Some region =>
            if PyStr.truthy region && bool_decide (region ∈ regions) then
              (* countries is a defaultdict(list) *)
              let countries := PyDict.setdefault countries region [] in
              let members := default [] (PyDict.get countries region) in
              let countries :=
                if bool_decide (val_str ∈ members) then countries
                else PyDict.set countries region (members ++ [val_str]) in
              Return (countries, {[ val_str ]} ∪ all_geographies)
            else Return (countries, all_geographies)
        | None => Return (countries, all_geographies)
        end
      else Return (countries, all_geographies)
    else Return (countries, all_geographies)
  else Return (countries, all_geographies).

Definition extract_geography_hierarchy (wb : workbook F) : py geography_hierarchy :=
  df ← read_excel_grid wb "Region";
  let global_geo := ["India"] in
  let first_row := default [] (head df) in
  let regions :=
    if (0 <? length df)%nat then
      filter (fun s => s ≠ "India")
        (map (fun x => PyStr.strip (py_str x)) (filter (fun x => notna x = true) (drop 1 first_row)))
    else [] in
  let all_geographies : gset string := list_to_set regions ∪ list_to_set global_geo in
  '(countries, all_geographies) ←
    for_each (range 1 (length df))
      (fun st idx =>
         row ← iloc_row df idx;
         for_each (range 1 (length row)) (geography_cell first_row row regions) st)
      ([], all_geographies);
  Return {| geo_global := global_geo;
            geo_regions := regions;
            geo_countries := countries;
            geo_all_geographies := merge_sort String.le (elements all_geographies) |}.
End geography.

(** [geography_level] and [parent_geography] of a record. *)
Fixpoint scan_countries (geography : string) (items : list (string * list string))
    : option string :=
  match items with
  | [] => None
  | (region, countries_list) :: items' =>
      if bool_decide (geography ∈ countries_list) then Some region
      else scan_countries geography items'
  end.

Definition resolve_geography (geographies : option geography_hierarchy)
    (geography : string) : string * option string :=
  match geographies with
  | Some g =>
      if bool_decide (geography ∈ geo_global g) then ("global", None)
      else if bool_decide (geography ∈ geo_regions g) then ("region", head (geo_global g))
      else match scan_countries geography (geo_countries g) with
           | Some region => ("country", Some region)
           | None => ("country", None)
           end
  | None => ("country", None)
  end.

(** ** Spices pipeline: data records *)

Record data_record (F : Type) := {
  geography : string;
  geography_level : string;
  parent_geography : option string;
  segment_type : string;
  segment : option string;
  segment_level : string;
  segment_hierarchy : string * string * string * string;   (* level_1 .. level_4 *)
  time_series : list (Z * F);
  cagr : F;
  market_share : F
}.
Arguments geography {F} _.
Arguments geography_level {F} _.
Arguments parent_geography {F} _.
Arguments segment_type {F} _.
Arguments segment {F} _.
Arguments segment_level {F} _.
Arguments segment_hierarchy {F} _.
Arguments time_series {F} _.
Arguments cagr {F} _.
Arguments market_share {F} _.

(** [min(l)] and [max(l)]; an empty argument raises [ValueError]. *)
Definition py_min (l : list Z) : py Z :=
  match l with
  | [] => Raise ValueError
  | x :: l' => Return (fold_left Z.min l' x)
  end.
Definition py_max (l : list Z) : py Z :=
  match l with
  | [] => Raise ValueError
  | x :: l' => Return (fold_left Z.max l' x)
  end.

(** Truth value of an optional string, [a or b], and [a or '']. *)
Definition str_truthy (o : option string) : bool :=
  match o with Some s => PyStr.truthy s | None => false end.
Definition str_or (a b : option string) : option string :=
  if str_truthy a then a else b.
Definition str_or_empty (a : option string) : string :=
  if str_truthy a then default "" a else "".

Section data_records.
Context {F : Type} `{PyFloat F}.

(** [int(col)] inside [try/except: pass], keeping years in 2000..2100. *)
Definition year_of_column (col : cell F) : list Z :=
  match py_int col with
  | Return year => if (2000 <=? year) && (year <=? 2100) then [year] else []
  | Raise _ => []
  end.

Definition year_columns_of (cols : list (cell F)) : list Z :=
  merge_sort Z.le (concat (map year_of_column cols)).

(** [str(row[name]).strip() if pd.notna(row.get(name)) else None] *)
Definition text_field (cols row : list (cell F)) (name : string) : option string :=
  match row_get_str cols row name with
  | Some c => if notna c then Some (PyStr.strip (py_str c)) else None
  | None => None
  end.

(** One entry of the time series: the cell under the year's column,
    parsed as a float, 0.0 when missing or unparsable. *)
Definition time_series_entry (cols row : list (cell F)) (year : Z) : py F :=
  let year_str := PyStr.str_of_int year in
  let value := py_or (row_get_str cols row year_str) (row_get_int cols row year) in
  if notna_opt value then
    try_except
      (match value with Some c => py_float c | None => Raise TypeError end)
      (fun _ => Return fzero)
  else Return fzero.

Definition extract_time_series (cols row : list (cell F)) (year_columns : list Z)
    : py (list (Z * F)) :=
  for_each year_columns
    (fun ts year => v ← time_series_entry cols row year; Return (PyDict.set ts year v))
    [].

(** CAGR from the first to the last year, before rounding. *)
Definition compute_cagr (year_columns : list Z) (ts : list (Z * F)) : py F :=
  if (2 <=? length year_columns)%nat && (0 <? length ts)%nat then
    first_year ← py_min year_columns;
    last_year ← py_max year_columns;
    let first_value := default fzero (PyDict.get ts first_year) in
    let last_value := default fzero (PyDict.get ts last_year) in
    if fgtb first_value fzero && fgtb last_value fzero then
      let years := last_year - first_year in
      if 0 <? years then
        Return (fmul (fsub (fpow (fdiv last_value first_value)
                                 (fdiv fone (fof_Z years))) fone) (fof_Z 100))
      else Return fzero
    else Return fzero
  else Return fzero.

(** Body of [for idx, row in df.iterrows()]; [None] is [continue]. *)
Definition data_row (geographies : option geography_hierarchy)
    (cols : list (cell F)) (year_columns : list Z) (row : list (cell F))
    : py (option (data_record F)) :=
  let geo := text_field cols row "Geography" in
  if negb (str_truthy geo) then Return None else
  let geo := default "" geo in
  let seg_type := text_field cols row "1st level Segment" in
  let level_2 := text_field cols row "2nd level Segment" in
  let level_3 := text_field cols row "3rd level Segment" in
  let level_4 := text_field cols row "4th level Segment" in
  let seg := str_or (str_or (str_or level_4 level_3) level_2) seg_type in
  let seg_level := if str_truthy (str_or level_3 level_4) then "parent" else "leaf" in
  ts ← extract_time_series cols row year_columns;
  c ← compute_cagr year_columns ts;
  let '(level, parent) := resolve_geography geographies geo in
  Return (Some {| geography := geo;
                  geography_level := level;
                  parent_geography := parent;
                  segment_type := str_or_empty seg_type;
                  segment := seg;
                  segment_level := seg_level;
                  segment_hierarchy :=
                    (str_or_empty seg_type, str_or_empty level_2,
                     str_or_empty level_3, str_or_empty level_4);
                  time_series := ts;
                  cagr := fround c 2;
                  market_share := fzero |}).

(** [sum(r['time_series'].get(year, 0) for r in records)] *)
Definition year_total (records : list (data_record F)) (year : Z) : F :=
  fold_left (fun acc r => fadd acc (default fzero (PyDict.get (time_series r) year)))
    records fzero.

Definition set_market_share (r : data_record F) (share : F) : data_record F :=
  {| geography := geography r; geography_level := geography_level r;
     parent_geography := parent_geography r; segment_type := segment_type r;
     segment := segment r; segment_level := segment_level r;
     segment_hierarchy := segment_hierarchy r; time_series := time_series r;
     cagr := cagr r; market_share := share |}.

(** [metadata.get('base_year', 2024)]; a non-integer entry equals no
    year column. *)
Definition metadata_base_year (metadata : list (string * meta_value)) : option Z :=
  match PyDict.get metadata "base_year" with
  | None => Some 2024
  | Some (MInt z) => Some z
  | Some _ => None
  end.

(** The second pass of [extract_data_records]: shares as fractions. *)
Definition assign_market_share (metadata : list (string * meta_value))
    (year_columns : list Z) (records : list (data_record F)) : list (data_record F) :=
  match metadata_base_year metadata with
  | Some base_year =>
      if bool_decide (base_year ∈ year_columns) then
        let total := year_total records base_year in
        if fgtb total fzero then
          map (fun r =>
                 let year_value := default fzero (PyDict.get (time_series r) base_year) in
                 set_market_share r (fdiv year_value total))
              records
        else records
      else records
  | None => records
  end.

Definition extract_data_records (wb : workbook F) (sheet_name : string)
    (metadata : list (string * meta_value)) (geographies : option geography_hierarchy)
    : py (list (data_record F)) :=
  df ← read_excel_frame wb sheet_name;
  let year_columns := year_columns_of (columns df) in
  records ← for_each (data df)
    (fun records row =>
       r ← data_row geographies (columns df) year_columns row;
       Return (match r with Some r => records ++ [r] | None => records end))
    [];
  Return (assign_market_share metadata year_columns records).

(** The standalone routine: shares as percentages. *)
Definition calculate_market_share (records : list (data_record F)) (year : Z)
    : list (data_record F) :=
  let total := year_total records year in
  if fgtb total fzero then
    map (fun r =>
           let year_value := default fzero (PyDict.get (time_series r) year) in
           set_market_share r (fmul (fdiv year_value total) (fof_Z 100)))
        records
  else records.
End data_records.

(** ** Spices pipeline: assembler *)

Record year_summary := {
  years : list Z;
  start_year : Z;
  base_year : Z;
  forecast_year : Z;
  historical_years : list Z;
  forecast_years : list Z
}.

(** [min(l) if l else d], [max(l) if l else d] and [max(l, default=d)]. *)
Definition min_or (l : list Z) (d : Z) : Z :=
  match l with [] => d | x :: l' => fold_left Z.min l' x end.
Definition max_or (l : list Z) (d : Z) : Z :=
  match l with [] => d | x :: l' => fold_left Z.max l' x end.

Definition summarize_years (ys : list Z) : year_summary :=
  let start := min_or ys 2020 in
  let base :=
    if bool_decide (2024 ∈ ys) then 2024
    else max_or (filter (fun y => y <= 2024) ys) start in
  {| years := ys;
     start_year := start;
     base_year := base;
     forecast_year := max_or ys 2032;
     historical_years := filter (fun y => y <= base) ys;
     forecast_years := filter (fun y => y > base) ys |}.

Section assembler.
Context {F : Type} `{PyFloat F}.

(** [all_years.update(record['time_series'].keys())] over the value
    records, then [sorted(all_years)]. *)
Definition collect_years (value_records : list (data_record F)) : list Z :=
  let all_years : gset Z :=
    fold_left (fun acc r => acc ∪ list_to_set (PyDict.keys (time_series r)))
      value_records ∅ in
  merge_sort Z.le (elements all_years).

Record document := {
  doc_metadata : list (string * meta_value);
  doc_geographies : geography_hierarchy;
  doc_segments : list (string * segment_info);
  doc_value : list (data_record F);
  doc_volume : list (data_record F)
}.

Definition assemble (metadata : list (string * meta_value))
    (geographies : geography_hierarchy) (segments : list (string * segment_info))
    (value_records volume_records : list (data_record F)) : document :=
  let s := summarize_years (collect_years value_records) in
  {| doc_metadata :=
       PyDict.update metadata
         [ ("years", MYears (years s)); ("start_year", MInt (start_year s));
           ("base_year", MInt (base_year s)); ("forecast_year", MInt (forecast_year s));
           ("historical_years", MYears (historical_years s));
           ("forecast_years", MYears (forecast_years s)) ];
     doc_geographies := geographies;
     doc_segments := segments;
     doc_value := value_records;
     doc_volume := volume_records |}.
End assembler.
Arguments document F : clear implicits.

(** ** Distributor pipeline: rows and sections *)

(** Values of a distributor record. *)
Inductive dvalue :=
  | DNone
  | DStr (s : string)
  | DInt (z : Z).

Definition dvalue_truthy (v : option dvalue) : bool :=
  match v with
  | Some (DStr s) => PyStr.truthy s
  | Some (DInt z) => negb (z =? 0)
  | _ => false
  end.

Definition get_module_sections (module_name : string) : list (string * list string) :=
  let sections :=
    [ ("company_information",
        [ "company_name"; "year_established"; "headquarters_emirate";
          "cities_regions_covered"; "ownership_type"; "business_type";
          "no_of_employees" ]);
      ("contact_details",
        [ "key_contact_person"; "designation_role"; "email_address";
          "phone_whatsapp"; "linkedin_profile"; "website_url" ]) ] in
  let sections :=
    if PyStr.contains "Advance" module_name || PyStr.contains "Premium" module_name then
      let info := default [] (PyDict.get sections "company_information") in
      let sections := PyDict.set sections "company_information" (info ++ ["turnover_scale"]) in
      PyDict.set sections "product_portfolio"
        [ "core_product_categories"; "specialty_focus"; "price_segment" ]
    else sections in
  if PyStr.contains "Premium" module_name then
    let sections := PyDict.set sections "brands_distributed"
      [ "key_brands_represented"; "exclusive_partnerships"; "duration_partnerships" ] in
    let sections := PyDict.set sections "distribution_channels"
      [ "retail_chains"; "pharmacies"; "spas_salons_clinics";
        "ecommerce_platforms"; "channel_strength"; "distribution_type" ] in
    let sections := PyDict.set sections "regional_operational_coverage"
      [ "emirates_served"; "regional_extensions"; "warehouse_logistics";
        "delivery_storage" ] in
    PyDict.set sections "cmi_insights"
      [ "competitive_benchmarking"; "additional_comments" ]
  else sections.

Section distributors.
Context {F : Type} `{PyFloat F}.

(** Body of [for col_idx, field_name in field_mapping.items()]. *)
Definition distributor_field (row : list (cell F))
    (distributor : list (string * dvalue)) (entry : nat * string)
    : list (string * dvalue) :=
  let '(col_idx, field_name) := entry in
  if (0 <? col_idx)%nat then
    let value := if (col_idx <? length row)%nat then row !! col_idx else None in
    match value with
    | Some c =>
        if notna c && negb (bool_decide (PyStr.strip (py_str c) = ""))
        then PyDict.set distributor field_name (DStr (PyStr.strip (py_str c)))
        else PyDict.set distributor field_name DNone
    | None => PyDict.set distributor field_name DNone
    end
  else distributor.

(** Body of [for idx in range(data_start_idx, len(df))]. *)
Definition distributor_row (df : grid F) (sheet_name : string)
    (field_mapping : list (nat * string))
    (distributors : list (list (string * dvalue))) (idx : nat)
    : py (list (list (string * dvalue))) :=
  row ← iloc_row df idx;
  c0 ← iloc row 0;
  if isna c0 || bool_decide (PyStr.strip (py_str c0) = "") then Return distributors
  else
    id_number ← (if notna c0 then py_int c0 else Return (Z.of_nat idx));
    let id := PyStr.replace_char " " "_" (PyStr.lower sheet_name)
                +:+ "_" +:+ PyStr.str_of_int id_number in
    s_no ← (if notna c0 && PyStr.isdigit (py_str c0)
            then z ← py_int c0; Return (DInt z)
            else Return DNone);
    let distributor := [ ("id", DStr id); ("module", DStr sheet_name); ("s_no", s_no) ] in
    let distributor := fold_left (distributor_field row) field_mapping distributor in
    if dvalue_truthy (PyDict.get distributor "company_name")
    then Return (distributors ++ [distributor])
    else Return distributors.

Definition extract_distributors_from_sheet (wb : workbook F) (sheet_name : string)
    : py (list (list (string * dvalue))) :=
  df ← read_excel_grid wb sheet_name;
  let header_row_idx := 4%nat in
  let data_start_idx := 5%nat in
  headers ← iloc_row df header_row_idx;
  let field_mapping := get_module_field_mapping sheet_name in
  for_each (range data_start_idx (length df))
    (distributor_row df sheet_name field_mapping) [].
End distributors.

(** ** Console, output files and the two entry points *)

Inductive event :=
  | Info (msg : string)
  | Error (msg : string) (e : exn).

Record distributors_document := {
  dd_modules : list string;
  dd_data : list (string * list (list (string * dvalue)));
  dd_sections : list (string * list (string * list string))
}.

Section entry_points.
Context {F : Type} `{PyFloat F}.

Inductive file_content :=
  | SpicesJson (d : document F)
  | DistributorsJson (d : distributors_document).

(** What a run can change: the console and the files on disk. *)
Record world := {
  stdout : list event;
  files : list (string * file_content)
}.

(** A step that reads and changes the world and returns or raises. *)
Definition io (A : Type) : Type := world -> py A * world.

Definition io_ret {A} (a : A) : io A := fun w => (Return a, w).
Definition io_bind {A B} (m : io A) (k : A -> io B) : io B := fun w =>
  match m w with
  | (Return a, w') => k a w'
  | (Raise e, w') => (Raise e, w')
  end.
Definition io_lift {A} (m : py A) : io A := fun w => (m, w).
Definition io_try {A} (body : io A) (handler : exn -> io A) : io A := fun w =>
  match body w with
  | (Return a, w') => (Return a, w')
  | (Raise e, w') => handler e w'
  end.
Definition print (e : event) : io unit := fun w =>
  (Return tt, {| stdout := stdout w ++ [e]; files := files w |}).
(** [with open(path, 'w') as f: json.dump(content, f)] *)
Definition write_json (path : string) (content : file_content) : io unit := fun w =>
  (Return tt, {| stdout := stdout w; files := PyDict.set (files w) path content |}).

Fixpoint io_for_each {A S} (xs : list A) (body : S -> A -> io S) (acc : S) : io S :=
  match xs with
  | [] => io_ret acc
  | x :: xs' => io_bind (body acc x) (io_for_each xs' body)
  end.
End entry_points.
Arguments file_content F : clear implicits.
Arguments world F : clear implicits.
Arguments io F A : clear implicits.

Notation "'let*' x ':=' m 'in' k" := (io_bind m (fun x => k))
  (at level 10, x pattern, m at level 100, k at level 200).
Notation "m ';;;' k" := (io_bind m (fun _ => k))
  (at level 100, k at level 200, right associativity).

Section pipelines.
Context {F : Type} `{PyFloat F}.

Definition convert_india_spices_to_json (wb : workbook F) (output_path : string)
    : io F (document F) :=
  print (Info "CONVERTING INDIA SPICES EXCEL TO JSON") ;;;
  print (Info "[1/5] Extracting metadata...") ;;;
  let* metadata := io_lift (extract_metadata wb) in
  print (Info "[2/5] Extracting geography hierarchy...") ;;;
  let* geographies := io_lift (extract_geography_hierarchy wb) in
  print (Info "[3/5] Extracting segment hierarchy...") ;;;
  let* segments := io_lift (extract_segment_hierarchy wb) in
  print (Info "[4/6] Extracting value data...") ;;;
  let* value_records :=
    io_lift (extract_data_records wb "Master Sheet-Value" metadata (Some geographies)) in
  print (Info "[5/6] Extracting volume data...") ;;;
  let* volume_records :=
    io_lift (extract_data_records wb "Master Sheet-Volume" metadata (Some geographies)) in
  let result := assemble metadata geographies segments value_records volume_records in
  print (Info "[Saving] Writing to output...") ;;;
  write_json output_path (SpicesJson result) ;;;
  print (Info "[SUCCESS] Successfully converted") ;;;
  io_ret result.

(** The script body of the spices converter; [None] is an input path
    that does not exist. *)
Definition spices_main (input : option (workbook F)) : io F unit :=
  let output_path := "data/india-spices-comparison-data.json" in
  match input with
  | Some wb =>
      io_try (convert_india_spices_to_json wb output_path ;;; io_ret tt)
             (fun e => print (Error "ERROR: Error converting file" e))
  | None => print (Info "ERROR: File not found: new_final.xlsx")
  end.

Definition generate_distributors_json (wb : workbook F) (output_path : string)
    : io F distributors_document :=
  print (Info "=== GENERATING DISTRIBUTORS INTELLIGENCE JSON ===") ;;;
  let result := {| dd_modules := modules; dd_data := []; dd_sections := [] |} in
  let* result :=
    io_for_each modules
      (fun result module =>
         print (Info ("[" +:+ module +:+ "] Extracting data...")) ;;;
         io_try
           (let* distributors := io_lift (extract_distributors_from_sheet wb module) in
            let result := {| dd_modules := dd_modules result;
                             dd_data := PyDict.set (dd_data result) module distributors;
                             dd_sections := PyDict.set (dd_sections result) module
                                              (get_module_sections module) |} in
            print (Info "  [OK] Extracted distributors") ;;;
            io_ret result)
           (fun e =>
              print (Error ("  [ERROR] Error extracting " +:+ module) e) ;;;
              io_ret {| dd_modules := dd_modules result;
                        dd_data := PyDict.set (dd_data result) module [];
                        dd_sections := PyDict.set (dd_sections result) module [] |}))
      result in
  print (Info "[SAVE] Writing to output...") ;;;
  write_json output_path (DistributorsJson result) ;;;
  print (Info "[SUCCESS] Successfully generated JSON") ;;;
  io_ret result.

(** The script body of the distributor generator. *)
Definition distributors_main (wb : workbook F) : io F distributors_document :=
  generate_distributors_json wb "data/distributors-intelligence.json".
End pipelines.

(** ** Exact arithmetic as an instance of the float interface

    Rationals with exact [+ - * /] and comparisons.  This is the
    arithmetic that floating-point results approximate: statements
    that hold "up to floating tolerance" are stated on it.  [x ** y],
    [float(s)] and [str(x)] are left to the caller. *)

Module Exact.

(** Round to the nearest integer, ties to even. *)
Definition round_half_even (q : Q) : Z :=
  let lo := Qfloor q in
  match Qcompare (q - inject_Z lo) (1 # 2) with
  | Lt => lo
  | Gt => lo + 1
  | Eq => if Z.even lo then lo else lo + 1
  end.

(** [round(q, n)] *)
Definition round_ndigits (q : Q) (n : Z) : Q :=
  if 0 <=? n then
    Qred (inject_Z (round_half_even (q * inject_Z (10 ^ n))) / inject_Z (10 ^ n))
  else
    Qred (inject_Z (round_half_even (q / inject_Z (10 ^ (- n)))) * inject_Z (10 ^ (- n))).

Definition gtb (x y : Q) : bool :=
  match Qcompare y x with Lt => true | _ => false end.

(** [int(q)]: truncation towards zero. *)
Definition trunc (q : Q) : py Z := Return (Z.quot (Qnum q) (Zpos (Qden q))).

Lemma round_ndigits_zero n : round_ndigits 0 n = 0%Q.
Proof.
  unfold round_ndigits.
  assert (Hz : forall s : Q, round_half_even (0 * s) = 0).
  { intros [a b]. reflexivity. }
  assert (Hd : forall s : Q, round_half_even (0 / s) = 0).
  { intros [[|a|a] b]; reflexivity. }
  destruct (0 <=? n).
  - rewrite Hz. transitivity (Qred 0); [|reflexivity].
    apply Qred_complete. unfold Qdiv. apply Qmult_0_l.
  - rewrite Hd. transitivity (Qred 0); [|reflexivity].
    apply Qred_complete. apply Qmult_0_l.
Qed.

Definition float (pow : Q -> Q -> Q) (of_str : string -> option Q)
    (repr : Q -> string) : PyFloat Q :=
  {| fzero := 0%Q;
     fone := 1%Q;
     fof_Z := inject_Z;
     fadd := Qplus;
     fsub := Qminus;
     fmul := Qmult;
     fdiv := Qdiv;
     fpow := pow;
     fround := round_ndigits;
     fgtb := gtb;
     feqb := Qeq_bool;
     ftrunc := trunc;
     fof_str := of_str;
     frepr := repr;
     fround_zero := round_ndigits_zero;
     feqb_zero := eq_refl |}.

(** A plain decimal literal: sign, digits, optional fraction. *)
Fixpoint frac_digits (s : string) (num den : Z) : option (Z * Z) :=
  match s with
  | EmptyString => Some (num, den)
  | String c s' =>
      if PyStr.is_digit c
      then frac_digits s' (10 * num + PyStr.digit_val c) (10 * den)
      else None
  end.

Fixpoint split_dot (s : string) (acc : string) : string * option string :=
  match s with
  | EmptyString => (String.rev acc, None)
  | String c s' =>
      if Ascii.eqb c "." then (String.rev acc, Some s')
      else split_dot s' (String c acc)
  end.

Definition unsigned_of_str (s : string) : option Q :=
  match split_dot s "" with
  | (whole, None) =>
      if PyStr.isdigit whole then inject_Z <$> PyStr.int_digits whole 0 false else None
  | (whole, Some frac) =>
      if PyStr.all_digits whole && PyStr.all_digits frac
         && (PyStr.truthy whole || PyStr.truthy frac)
      then match frac_digits (whole +:+ frac) 0 1, frac_digits frac 0 1 with
           | Some (num, _), Some (_, den) => Some (Qred (Qmake num (Z.to_pos den)))
           | _, _ => None
           end
      else None
  end.

Definition dec_of_str (s : string) : option Q :=
  match PyStr.strip s with
  | String "-" s' => Qopp <$> unsigned_of_str s'
  | String "+" s' => unsigned_of_str s'
  | s' => unsigned_of_str s'
  end.

(** Decimal expansion of the fractional part, at most [fuel] digits. *)
Fixpoint frac_str (fuel : nat) (num den : Z) : string :=
  match fuel with
  | O => ""
  | S fuel' =>
      if num =? 0 then ""
      else String (PyStr.digit_char (10 * num / den))
                  (frac_str fuel' ((10 * num) mod den) den)
  end.

Definition dec_repr (q : Q) : string :=
  let n := Z.abs (Qnum q) in
  let d := Zpos (Qden q) in
  let frac := frac_str 17 (n mod d) d in
  (if Qnum q <? 0 then "-" else "") +:+ PyStr.str_of_int (n / d) +:+ "." +:+
  (if PyStr.truthy frac then frac else "0").

(** [x ** y] at [y = 1]. *)
Definition pow_unit (x y : Q) : Q := x.

(** The instance used to run the model on sample sheets; its power
    function is only right for spans of one year. *)
Definition sample : PyFloat Q := float pow_unit dec_of_str dec_repr.

End Exact.

(** ** IEEE doubles

    The floats Python computes with: binary64, round to nearest, ties
    to even, with infinities and NaN. *)

Module Binary64.
Import PrimFloat FloatOps SpecFloat.

(** The rational a finite double stands for; an infinity and NaN
    stand for none. *)
Definition to_Q (x : float) : option Q :=
  match Prim2SF x with
  | S754_zero _ => Some 0%Q
  | S754_finite s m e =>
      let z := if s then Z.neg m else Z.pos m in
      Some (if 0 <=? e then inject_Z (z * 2 ^ e) else Qmake z (Z.to_pos (2 ^ (- e))))
  | S754_infinity _ | S754_nan => None
  end.

(** The number a double stands for, with 0 for an infinity and for
    NaN.  The accuracy conditions of [shares_accurate] ask for a total
    above zero and for quotients close to the exact ones, so they
    hold for no record set whose total or shares are not finite. *)
Definition val (x : float) : Q := default 0%Q (to_Q x).

(** The double nearest to a rational (an infinity beyond the range). *)
Definition of_Q (q : Q) : float :=
  match Qnum q with
  | Z0 => zero
  | Zpos p => SF2Prim (SFdiv prec emax (S754_finite false p 0) (S754_finite false (Qden q) 0))
  | Zneg p => SF2Prim (SFdiv prec emax (S754_finite true p 0) (S754_finite false (Qden q) 0))
  end.

(** [float(n)] for an int; beyond the range Python raises
    [OverflowError], here the result is an infinity. *)
Definition of_Z (z : Z) : float := of_Q (inject_Z z).

(** [int(x)]: truncation towards zero; [OverflowError] for an
    infinity, [ValueError] for NaN. *)
Definition trunc (x : float) : py Z :=
  match Prim2SF x with
  | S754_zero _ => Return 0
  | S754_finite s m e =>
      let z := if s then Z.neg m else Z.pos m in
      Return (if 0 <=? e then z * 2 ^ e else Z.quot z (2 ^ (- e)))
  | S754_infinity _ => Raise OverflowError
  | S754_nan => Raise ValueError
  end.

(** [round(x, n)]: the decimal with [n] digits nearest to the exact
    value of [x], ties to even, then the double nearest to it; an
    infinity and NaN are returned as they are. *)
Definition round_ndigits (x : float) (n : Z) : float :=
  match to_Q x with
  | Some q => of_Q (Exact.round_ndigits q n)
  | None => x
  end.

Lemma round_double_zero n : round_ndigits zero n = zero.
Proof.
  unfold round_ndigits. change (to_Q zero) with (Some 0%Q). cbv beta iota.
  by rewrite Exact.round_ndigits_zero.
Qed.

Definition ieee (pow : float -> float -> float) (of_str : string -> option float)
    (repr : float -> string) : PyFloat float :=
  {| fzero := zero;
     fone := one;
     fof_Z := of_Z;
     fadd := add;
     fsub := sub;
     fmul := mul;
     fdiv := div;
     fpow := pow;
     fround := round_ndigits;
     fgtb := fun x y => ltb y x;
     feqb := eqb;
     ftrunc := trunc;
     fof_str := of_str;
     frepr := repr;
     fround_zero := round_double_zero;
     feqb_zero := eq_refl |}.

(** [x ** y] at [y = 1.0]. *)
Definition pow_unit (x y : float) : float := x.

(** [float(s)] for a plain decimal literal. *)
Definition dec_of_str (s : string) : option float := of_Q <$> Exact.dec_of_str s.

(** [str(x)] for a double with a short decimal expansion. *)
Definition dec_repr (x : float) : string := Exact.dec_repr (val x).

(** The instance used to run the model on doubles; its power function
    is only right for spans of one year, its parser and printer only
    for plain decimals. *)
Definition sample : PyFloat float := ieee pow_unit dec_of_str dec_repr.

End Binary64.

(** ** Statements taken from the specification *)

(** The column mappings of the three distributor modules. *)
Definition standard_columns : list (nat * string) :=
  get_module_field_mapping "Module 1 - Standard".
Definition advance_columns : list (nat * string) :=
  get_module_field_mapping "Module 2 - Advance".
Definition premium_columns : list (nat * string) :=
  get_module_field_mapping "Module 3 - Premium".

(** Geography resolution as the specification orders its cases: the
    global name; else a region; else the first region whose country
    list holds the geography; else unresolved. *)
Inductive geography_cases (global_name : string) (regions : list string)
    (countries : list (string * list string)) (geo : string)
    : string -> option string -> Prop :=
  | case_global :
      geo = global_name ->
      geography_cases global_name regions countries geo "global" None
  | case_region :
      geo <> global_name -> geo ∈ regions ->
      geography_cases global_name regions countries geo "region" (Some global_name)
  | case_country region countries_list before after :
      geo <> global_name -> geo ∉ regions ->
      countries = before ++ (region, countries_list) :: after ->
      geo ∈ countries_list ->
      Forall (fun entry => geo ∉ entry.2) before ->
      geography_cases global_name regions countries geo "country" (Some region)
  | case_unresolved :
      geo <> global_name -> geo ∉ regions ->
      Forall (fun entry => geo ∉ entry.2) countries ->
      geography_cases global_name regions countries geo "country" None.


Section spec_formulas.
Context {F : Type} `{PyFloat F}.


(** The cell the time series reads for a year: the column labelled by
    the year as text, else the column labelled by the year as number. *)
Definition year_cell (cols row : list (cell F)) (year : Z) : option (cell F) :=
  py_or (row_get_str cols row (PyStr.str_of_int year)) (row_get_int cols row year).

(** The float a year's cell stands for: its parsed value, and 0.0 for
    a missing, empty or unparsable cell. *)
Definition year_value (cols row : list (cell F)) (year : Z) : F :=
  match year_cell cols row year with
  | Some c =>
      if notna c then
        match py_float c with
        | Return f => f
        | Raise _ => fzero
        end
      else fzero
  | None => fzero
  end.
(** A falsy scalar in a cell: the number 0, the number 0.0, [False]. *)
Inductive falsy_scalar : cell F -> Prop :=
  | falsy_int : falsy_scalar (CInt 0)
  | falsy_float : falsy_scalar (CFloat fzero)
  | falsy_bool : falsy_scalar (CBool false).
End spec_formulas.


(** Rounding: what a float computation is compared with.  [val] gives
    the number a float stands for, [u] the relative error of one
    operation (2^-53 for doubles rounded to nearest). *)
Section spec_rounding.
Context {F : Type} `{PyFloat F}.
Variables (val : F -> Q) (u : Q).






(** The sum of the numbers the market shares stand for. *)
Definition exact_share_sum (records : list (data_record F)) : Q :=
  fold_right Qplus 0%Q (map (fun r => val (market_share r)) records).

End spec_rounding.

Section spec_runs.
Context {F : Type} `{PyFloat F}.

(** The five extraction steps of the spices pipeline, one after the
    other: the document when each of them completes, the first
    exception otherwise. *)
Definition spices_extraction (wb : workbook F) : py (document F) :=
  metadata ← extract_metadata wb;
  geographies ← extract_geography_hierarchy wb;
  segments ← extract_segment_hierarchy wb;
  value_records ← extract_data_records wb "Master Sheet-Value" metadata (Some geographies);
  volume_records ← extract_data_records wb "Master Sheet-Volume" metadata (Some geographies);
  Return (assemble metadata geographies segments value_records volume_records).

(** What the distributor document holds for a module: the extracted
    rows, or nothing when the extraction raised. *)
Definition module_data (wb : workbook F) (module : string) : list (list (string * dvalue)) :=
  match extract_distributors_from_sheet wb module with
  | Return distributors => distributors
  | Raise _ => []
  end.
Definition module_sections (wb : workbook F) (module : string)
    : list (string * list string) :=
  match extract_distributors_from_sheet wb module with
  | Return _ => get_module_sections module
  | Raise _ => []
  end.

(** All-or-nothing for the distributor pipeline, as C8 states it: a
    run in which some module's extraction raises writes no file. *)
Definition distributors_all_or_nothing : Prop :=
  forall (wb : workbook F) (w : world F) (module : string) (e : exn),
    module ∈ modules ->
    extract_distributors_from_sheet wb module = Raise e ->
    files (distributors_main wb w).2 = files w.
End spec_runs.

(** ** Sample sheets

    A small workbook on which the model is run: three geographies, one
    segment column, the years 2023 and 2024. *)

#[local] Existing Instance Exact.sample.

Definition sample_geographies : geography_hierarchy :=
  {| geo_global := ["India"];
     geo_regions := ["North India"; "South India"];
     geo_countries := [("North India", ["Punjab"])];
     geo_all_geographies := ["India"; "North India"; "Punjab"; "South India"] |}.

Definition sample_master : frame Q :=
  {| columns := [ CText "Geography"; CText "1st level Segment"; CInt 2023; CInt 2024 ];
     data :=
       [ [ CText "India"; CText "By Type"; CInt 120; CInt 150 ];
         [ CText "North India"; CText "By Type"; CFloat (96 # 2); CText "60" ];
         [ CText "Punjab"; CText "By Type"; CText "n/a"; CInt 30 ];
         [ CText "Atlantis"; CText "By Type"; CEmpty; CEmpty ] ] |}.

Definition sample_workbook : workbook Q :=
  {| sheet_grid := fun name =>
       if String.eqb name "Parameters" then
         Some [ [CText "Report Title"; CText "India Spices Market"];
                [CText "Value Unit"; CInt 0] ]
       else if String.eqb name "Region" then
         Some [ [CText "India"; CText "North India"; CText "South India"];
                [CEmpty; CText "Punjab"; CEmpty] ]
       else if String.eqb name "Segmentation" then
         Some [ [CText "Segmentation"; CText "By Type"];
                [CEmpty; CText "A"]; [CEmpty; CText ">B"];
                [CEmpty; CText ">>C"]; [CEmpty; CText ">D"] ]
       else None;
     sheet_frame := fun name =>
       if String.eqb name "Master Sheet-Value" then Some sample_master
       else if String.eqb name "Master Sheet-Volume" then Some sample_master
       else None |}.

Definition sample_records : list (data_record Q) :=
  Eval vm_compute in
    match @extract_data_records Q Exact.sample sample_workbook "Master Sheet-Value" []
            (Some sample_geographies) with
    | Return records => records
    | Raise _ => []
    end.

(** The third record of [sample_records]. *)
Definition sample_punjab : data_record Q :=
  {| geography := "Punjab";
     geography_level := "country";
     parent_geography := Some "North India";
     segment_type := "By Type";
     segment := Some "By Type";
     segment_level := "leaf";
     segment_hierarchy := ("By Type", "", "", "");
     time_series := [(2023, 0%Q); (2024, 30%Q)];
     cagr := 0%Q;
     market_share := (30 # 240)%Q |}.

(** The first record of [sample_records]. *)
Definition sample_india : data_record Q :=
  {| geography := "India";
     geography_level := "global";
     parent_geography := None;
     segment_type := "By Type";
     segment := Some "By Type";
     segment_level := "leaf";
     segment_hierarchy := ("By Type", "", "", "");
     time_series := [(2023, 120%Q); (2024, 150%Q)];
     cagr := 25%Q;
     market_share := (150 # 240)%Q |}.

(** Master Sheets of doubles, one year column each: the values 1, 2
    and 3; two values of 2^1023, whose sum is beyond the range of a
    double; and values of both signs that cancel. *)
Definition master_of (rows : list (string * cell PrimFloat.float))
    : workbook PrimFloat.float :=
  {| sheet_grid := fun _ => None;
     sheet_frame := fun name =>
       if String.eqb name "Master Sheet-Value"
       then Some {| columns := [ CText "Geography"; CInt 2024 ];
                    data := map (fun row => [ CText row.1; row.2 ]) rows |}
       else None |}.

Definition sample_overflow : workbook PrimFloat.float :=
  master_of [ ("Punjab", CFloat (Binary64.of_Z (2 ^ 1023)));
              ("Kerala", CFloat (Binary64.of_Z (2 ^ 1023))) ].
Definition sample_cancellation : workbook PrimFloat.float :=
  master_of [ ("India", CFloat (Binary64.of_Z (10 ^ 16)));
              ("Punjab", CFloat (Binary64.of_Z (-9999999999999998)));
              ("Kerala", CFloat (Binary64.of_Q (1 # 2))) ].

(** The records [extract_data_records] makes of a Master Sheet of
    doubles. *)
Definition records_of (wb : workbook PrimFloat.float) : list (data_record PrimFloat.float) :=
  match @extract_data_records PrimFloat.float Binary64.sample wb "Master Sheet-Value" []
          None with
  | Return records => records
  | Raise _ => []
  end.

Definition overflow_records : list (data_record PrimFloat.float) :=
  Eval vm_compute in records_of sample_overflow.
Definition cancellation_records : list (data_record PrimFloat.float) :=
  Eval vm_compute in records_of sample_cancellation.


(** A distributor workbook: the Standard sheet has a row numbered
    "A12", the Advance sheet is well formed, the Premium sheet is
    absent. *)
Definition sample_header : grid Q :=
  [ [CText "Distributors Intelligence Database"]; []; [];
    [CText "S.No."; CText "COMPANY INFORMATION"];
    [CText "S.No."; CText "Company Name"] ].

Definition sample_distributors : workbook Q :=
  {| sheet_grid := fun name =>
       if String.eqb name "Module 1 - Standard" then
         Some (sample_header ++ [ [CText "A12"; CText "Acme Trading"] ])
       else if String.eqb name "Module 2 - Advance" then
         Some (sample_header ++ [ [CInt 1; CText "Gulf Beauty"] ])
       else None;
     sheet_frame := fun _ => None |}.

Definition empty_world : world Q := {| stdout := []; files := [] |}.

(** The eight fields of the metadata mapping. *)
Definition canonical_keys : list string :=
  [ "market_name"; "market_type"; "industry"; "currency"; "value_unit";
    "volume_unit"; "has_value"; "has_volume" ].

(** The fields holding a flag; the other six hold text. *)
Definition flag_keys : list string := [ "has_value"; "has_volume" ].

Definition metadata_value_ok (key : string) (v : meta_value) : Prop :=
  key ∈ canonical_keys /\
  if bool_decide (key ∈ flag_keys)
  then exists b, v = MBool b
  else exists s, v = MStr s.

(** A metadata mapping with canonical fields of the right kind only. *)
Definition metadata_ok (metadata : list (string * meta_value)) : Prop :=
  forall key v, PyDict.get metadata key = Some v -> metadata_value_ok key v.

(** What the geography loops keep true of [(countries, all_geographies)]:
    every key of [countries] is a non-empty region name with a
    non-empty, duplicate-free list, and [all_geographies] holds India,
    the regions and the listed names, nothing else. *)
Definition geography_state_ok (regions : list string)
    (st : list (string * list string) * gset string) : Prop :=
  (forall r l, PyDict.get st.1 r = Some l ->
               r ∈ regions /\ r <> "" /\ l <> [] /\ NoDup l) /\
  (forall x, x ∈ st.2 <->
             x = "India" \/ x ∈ regions \/
             exists r l, PyDict.get st.1 r = Some l /\ x ∈ l).

(** What the segment loop keeps true of [(items, hierarchy)]: no item
    is empty, and every parent of the hierarchy is non-empty and has
    a non-empty list of children, each of them an item. *)
Definition segment_state_ok (st : list string * list (string * list string)) : Prop :=
  ("" ∉ st.1) /\
  (forall p cs, PyDict.get st.2 p = Some cs ->
                p <> "" /\ cs <> [] /\ forall c, c ∈ cs -> c ∈ st.1).

Definition segment_info_ok (info : segment_info) : Prop :=
  (seg_type info = "hierarchical" <-> seg_hierarchy info <> []) /\
  (seg_type info = "flat" <-> seg_hierarchy info = []) /\
  ("" ∉ seg_items info) /\
  (forall p cs, PyDict.get (seg_hierarchy info) p = Some cs ->
                p <> "" /\ cs <> [] /\ forall c, c ∈ cs -> c ∈ seg_items info).

(** A sheet all of whose rows have as many cells as the first. *)
Definition rectangular {F : Type} (df : grid F) : Prop :=
  Forall (fun row => length row = length (default [] (head df))) df.

(** A Segmentation sheet with an empty header cell before the
    segment type: the labels stand in column 2. *)
Definition sample_shifted : workbook Q :=
  {| sheet_grid := fun _ =>
       Some [ [CText "Segmentation"; CEmpty; CText "By Type"];
              [CEmpty; CEmpty; CText "Whole"];
              [CEmpty; CEmpty; CText "Ground"] ];
     sheet_frame := fun _ => None |}.

(** The geography a Master Sheet row is kept under, if it is kept: the
    trimmed text of its Geography cell when that is not empty. *)
Definition row_geography {F : Type} `{PyFloat F} (cols row : list (cell F))
    : option string :=
  match text_field cols row "Geography" with
  | Some geo => if PyStr.truthy geo then Some geo else None
  | None => None
  end.

(** The segment a record is filed under, read off its four levels: the
    deepest level that is not empty. *)
Definition deepest_level (levels : string * string * string * string) : option string :=
  let '(level_1, level_2, level_3, level_4) := levels in
  if PyStr.truthy level_4 then Some level_4
  else if PyStr.truthy level_3 then Some level_3
  else if PyStr.truthy level_2 then Some level_2
  else if PyStr.truthy level_1 then Some level_1
  else None.

(** The records of the sample Master Sheet under a base year that is
    not among its year columns. *)
Definition sample_records_2030 : list (data_record Q) :=
  Eval vm_compute in
    match @extract_data_records Q Exact.sample sample_workbook "Master Sheet-Value"
            [("base_year", MInt 2030)] None with
    | Return records => records
    | Raise _ => []
    end.

(** The six fields the assembler adds to the metadata. *)
Definition year_keys : list string :=
  [ "years"; "start_year"; "base_year"; "forecast_year";
    "historical_years"; "forecast_years" ].

(** The value a distributor record holds for the column [col_idx] of
    a row: the trimmed text of the cell, or nothing for a cell that is
    missing, empty or blank. *)
Definition field_value {F : Type} `{PyFloat F} (row : list (cell F)) (col_idx : nat)
    : dvalue :=
  match (if (col_idx <? length row)%nat then row !! col_idx else None) with
  | Some c =>
      if notna c && negb (bool_decide (PyStr.strip (py_str c) = ""))
      then DStr (PyStr.strip (py_str c))
      else DNone
  | None => DNone
  end.

(** A first cell of a data row on which building the id cannot fail:
    empty, an integer, a flag, blank text or an integer literal, or a
    float that [int()] accepts. *)
Definition safe_row_number {F : Type} `{PyFloat F} (c : cell F) : Prop :=
  match c with
  | CEmpty | CInt _ | CBool _ => True
  | CText s => PyStr.strip s = "" \/ is_Some (PyStr.int_of_str s)
  | CFloat f => exists z, ftrunc f = Return z
  | COther text => PyStr.strip text = ""
  end.

(** The prefix of the ids of a sheet's records. *)
Definition id_prefix (sheet_name : string) : string :=
  PyStr.replace_char " " "_" (PyStr.lower sheet_name).

(** What every distributor record of a sheet carries. *)
Definition distributor_ok (sheet_name : string) (d : list (string * dvalue)) : Prop :=
  PyDict.get d "module" = Some (DStr sheet_name) /\
  (exists n, PyDict.get d "id" = Some (DStr (id_prefix sheet_name +:+ "_" +:+ PyStr.str_of_int n))) /\
  (exists s, PyDict.get d "company_name" = Some (DStr s) /\ s <> "") /\
  (forall col field, PyDict.get (get_module_field_mapping sheet_name) col = Some field ->
                     is_Some (PyDict.get d field)).

(** The five sheets the spices converter reads. *)
Definition has_all_sheets {F : Type} (wb : workbook F) : Prop :=
  is_Some (sheet_grid wb "Parameters") /\ is_Some (sheet_grid wb "Region") /\
  is_Some (sheet_grid wb "Segmentation") /\
  is_Some (sheet_frame wb "Master Sheet-Value") /\
  is_Some (sheet_frame wb "Master Sheet-Volume").

(** A workbook whose sheets have the shape the extractors index into:
    no Parameters row without cells and a rectangular Segmentation
    sheet. *)
Definition well_shaped {F : Type} (wb : workbook F) : Prop :=
  (forall df, sheet_grid wb "Parameters" = Some df -> Forall (fun row => row <> []) df) /\
  (forall df, sheet_grid wb "Segmentation" = Some df -> rectangular df).

(** The document the generator returns for the sample distributor
    workbook. *)
Definition sample_document : distributors_document :=
  Eval vm_compute in
    match (generate_distributors_json sample_distributors "out.json" empty_world).1 with
    | Return doc => doc
    | Raise _ => {| dd_modules := []; dd_data := []; dd_sections := [] |}
    end.

(** * Properties *)

Example ex_strip : PyStr.strip "  a b  " = "a b".
Proof. reflexivity. Qed.
Example ex_str_of_int : PyStr.str_of_int 1204 = "1204" /\ PyStr.str_of_int (-7) = "-7" /\ PyStr.str_of_int 0 = "0".
Proof. repeat split; reflexivity. Qed.
Example ex_int_of_str : PyStr.int_of_str " 12 " = Some 12 /\ PyStr.int_of_str "A12" = None /\ PyStr.int_of_str "-1_0" = Some (-10).
Proof. repeat split; reflexivity. Qed.
Example ex_adv : PyDict.get advance_mapping 10%nat = Some "designation_role".
Proof. reflexivity. Qed.
Example ex_dec : Exact.dec_of_str " 12.50 " = Some (25 # 2)%Q /\ Exact.dec_of_str "abc" = None
  /\ Exact.dec_repr (25 # 2) = "12.5" /\ Exact.dec_repr (-3) = "-3.0"
  /\ Exact.round_ndigits (10625 # 1000) 2 = (531 # 50)%Q.
Proof. repeat split; reflexivity. Qed.

(** ** Dictionaries *)

Section dict_facts.
Context {K V : Type} `{EqDecision K}.
Implicit Types (d : list (K * V)) (k : K) (v : V).

Lemma get_elem_of d k v : PyDict.get d k = Some v -> (k, v) ∈ d.
Proof.
  induction d as [|[k' v'] d IH]; cbn; [done|].
  destruct (decide (k = k')) as [->|Hne].
  - intros [= ->]. left.
  - intros Hg. right. by apply IH.
Qed.

Lemma get_set_eq d k v : PyDict.get (PyDict.set d k v) k = Some v.
Proof.
  induction d as [|[k' v'] d IH]; cbn.
  - by rewrite decide_True.
  - destruct (decide (k = k')) as [->|Hne]; cbn.
    + by rewrite decide_True.
    + by rewrite decide_False.
Qed.

Lemma get_set_ne d k k' v : k <> k' -> PyDict.get (PyDict.set d k v) k' = PyDict.get d k'.
Proof.
  intros Hne. induction d as [|[k0 v0] d IH]; cbn.
  - by rewrite decide_False.
  - destruct (decide (k = k0)) as [->|Hne0]; cbn.
    + by rewrite !decide_False.
    + destruct (decide (k' = k0)); [done|apply IH].
Qed.

Lemma get_None_keys d k : PyDict.get d k = None <-> k ∉ PyDict.keys d.
Proof.
  unfold PyDict.keys. induction d as [|[k' v'] d IH]; cbn.
  - split; [intros _; apply not_elem_of_nil|done].
  - rewrite not_elem_of_cons. destruct (decide (k = k')) as [->|Hne].
    + split; [done|]. intros [? _]. done.
    + rewrite IH. tauto.
Qed.

Lemma get_Some_keys d k : is_Some (PyDict.get d k) <-> k ∈ PyDict.keys d.
Proof.
  rewrite <- not_eq_None_Some, get_None_keys.
  split; [apply dec_stable|auto].
Qed.

Lemma keys_set d k v :
  PyDict.keys (PyDict.set d k v) =
  if bool_decide (k ∈ PyDict.keys d) then PyDict.keys d else PyDict.keys d ++ [k].
Proof.
  unfold PyDict.keys. induction d as [|[k' v'] d IH]; cbn; [done|].
  destruct (decide (k = k')) as [->|Hne]; cbn.
  - rewrite bool_decide_true; [done|left].
  - rewrite IH. destruct (bool_decide (k ∈ d.*1)) eqn:E.
    + rewrite bool_decide_true; [done|]. right. by apply bool_decide_eq_true in E.
    + rewrite bool_decide_false; [done|]. apply bool_decide_eq_false in E.
      rewrite elem_of_cons. tauto.
Qed.
End dict_facts.

(** ** Distributor column mappings (C7) *)

(** Every entry of a concrete mapping satisfies a decidable property. *)
Lemma mapping_forall (P : nat -> string -> Prop) (m : list (nat * string)) :
  Forall (fun kv => P kv.1 kv.2) m ->
  forall i f, PyDict.get m i = Some f -> P i f.
Proof.
  intros HF i f Hg. apply get_elem_of in Hg.
  rewrite Forall_forall in HF. apply (HF (i, f) Hg).
Qed.

(** C7, as stated, fails: Standard and Advance also name column 10
    differently ([email_address] against [designation_role]), although
    10 is neither 8 nor 9. *)
Lemma mapping_additive_counterexample :
  ~ ((forall (i : nat) (f : string),
        PyDict.get advance_columns i = Some f ->
        PyDict.get premium_columns i = Some f) /\
     (forall (i : nat) (f : string),
        PyDict.get standard_columns i = Some f ->
        i <> 8%nat -> i <> 9%nat ->
        PyDict.get advance_columns i = Some f)).
Proof.
  intros [_ Hclaim].
  specialize (Hclaim 10%nat "email_address" eq_refl).
  discriminate Hclaim; lia.
Qed.

(** C7, amended: Premium agrees with Advance on all of Advance's
    columns; Advance agrees with Standard exactly on columns 0..7;
    Advance puts [turnover_scale] at column 8 and moves Standard's
    columns 8..13 one place to the right, so that 8..13 are the columns
    whose field names differ. *)
Theorem mapping_additive_amended :
  (forall (i : nat) (f : string),
     PyDict.get advance_columns i = Some f -> PyDict.get premium_columns i = Some f) /\
  (forall (i : nat) (f : string),
     PyDict.get standard_columns i = Some f ->
     (PyDict.get advance_columns i = Some f <-> (i < 8)%nat)) /\
  (forall (i : nat) (f : string),
     PyDict.get standard_columns i = Some f -> (8 <= i)%nat ->
     PyDict.get advance_columns (S i) = Some f) /\
  PyDict.get advance_columns 8%nat = Some "turnover_scale".
Proof.
  split; [|split; [|split]].
  - apply (mapping_forall (fun i f => PyDict.get premium_columns i = Some f)).
    vm_compute. repeat constructor.
  - intros i f Hi. split; revert i f Hi.
    + apply (mapping_forall
               (fun i f => PyDict.get advance_columns i = Some f -> (i < 8)%nat)).
      vm_compute. repeat constructor; intros; (lia || discriminate).
    + apply (mapping_forall
               (fun i f => (i < 8)%nat -> PyDict.get advance_columns i = Some f)).
      vm_compute. repeat constructor; intros; (reflexivity || lia).
  - apply (mapping_forall
             (fun i f => (8 <= i)%nat -> PyDict.get advance_columns (S i) = Some f)).
    vm_compute. repeat constructor; intros; (reflexivity || lia).
  - reflexivity.
Qed.

Lemma mapping_additive_amended_witness :
  PyDict.get advance_columns 17%nat = Some "price_segment" /\
  PyDict.get premium_columns 17%nat = Some "price_segment" /\
  PyDict.get standard_columns 8%nat = Some "key_contact_person" /\
  PyDict.get advance_columns 9%nat = Some "key_contact_person" /\
  (PyDict.get advance_columns 3%nat = Some "headquarters_emirate" <-> (3 < 8)%nat).
Proof.
  destruct mapping_additive_amended as (Hp & Ha & Hs & _).
  split; [reflexivity|].
  split; [apply (Hp 17%nat); reflexivity|].
  split; [reflexivity|].
  split; [apply (Hs 8%nat); [reflexivity|lia]|].
  apply (Ha 3%nat); reflexivity.
Defined.

(** ** Segment hierarchy (C3) *)

Section segment_facts.
Context {F : Type} `{PyFloat F}.

Ltac read_column :=
  cbn;
  repeat match goal with
  | Hx : ?r !! _ = Some _ |- context [?r !! _] =>
      rewrite Hx; cbn; unfold iloc2, iloc_row, iloc; cbn
  end.

(** The column [h, "A", ">B", ">>C", ">D"] at any position of any
    five-row sheet. *)
Lemma segment_column_example (df : grid F) (col_idx : nat) (h : cell F) :
  Forall2 (fun row x => row !! col_idx = Some x) df
    [h; CText "A"; CText ">B"; CText ">>C"; CText ">D"] ->
  exists info,
    segment_column df col_idx = Return info /\
    seg_hierarchy info = [("A", ["B"; "D"]); ("B", ["C"])] /\
    seg_items info = {[ "A"; "B"; "C"; "D" ]} /\
    seg_type info = "hierarchical".
Proof.
  intros Hc.
  repeat match goal with
  | Hc : Forall2 _ _ (_ :: _) |- _ =>
      apply Forall2_cons_inv_r in Hc as (? & ? & ? & Hc & ->)
  | Hc : Forall2 _ _ [] |- _ => apply Forall2_nil_inv_r in Hc as ->
  end.
  unfold segment_column, range. cbn [length Nat.sub seq for_each].
  unfold segment_row, iloc2, iloc_row, iloc.
  read_column.
  eexists; split; [reflexivity|]. cbn. repeat split.
Qed.

(** C3: on the column "A", ">B", ">>C", ">D" (rows 1..4, under any
    header cell, in any column of the sheet) the hierarchy is
    {A: [B, D], B: [C]}, the items are {A, B, C, D} and the type is
    "hierarchical"; and on a Segmentation sheet holding that column
    under a segment-type name, [extract_segment_hierarchy] stores
    exactly this under that name. *)
Theorem segment_hierarchy_example :
  (forall (df : grid F) (col_idx : nat) (h : cell F),
     Forall2 (fun row x => row !! col_idx = Some x) df
       [h; CText "A"; CText ">B"; CText ">>C"; CText ">D"] ->
     exists info,
       segment_column df col_idx = Return info /\
       seg_hierarchy info = [("A", ["B"; "D"]); ("B", ["C"])] /\
       seg_items info = {[ "A"; "B"; "C"; "D" ]} /\
       seg_type info = "hierarchical") /\
  (forall (wb : workbook F) (name : string) (c0 c1 c2 c3 c4 : cell F),
     sheet_grid wb "Segmentation" =
       Some [ [c0; CText name]; [c1; CText "A"]; [c2; CText ">B"];
              [c3; CText ">>C"]; [c4; CText ">D"] ] ->
     PyStr.truthy (PyStr.strip name) = true ->
     PyStr.strip name <> "Segmentation" ->
     exists info,
       extract_segment_hierarchy wb = Return [(PyStr.strip name, info)] /\
       seg_hierarchy info = [("A", ["B"; "D"]); ("B", ["C"])] /\
       seg_items info = {[ "A"; "B"; "C"; "D" ]} /\
       seg_type info = "hierarchical").
Proof.
  split; [apply segment_column_example|].
  intros wb name c0 c1 c2 c3 c4 Hsheet Hname Hne.
  destruct (segment_column_example
              [ [c0; CText name]; [c1; CText "A"]; [c2; CText ">B"];
                [c3; CText ">>C"]; [c4; CText ">D"] ] 1 (CText name))
    as (info & Hcol & Hinfo).
  { repeat constructor. }
  exists info. split; [|exact Hinfo].
  unfold extract_segment_hierarchy, read_excel_grid. rewrite Hsheet.
  cbn -[PyStr.strip PyStr.truthy segment_column].
  rewrite decide_True by done.
  cbn -[PyStr.strip PyStr.truthy segment_column].
  rewrite Hname, bool_decide_false by done.
  cbn -[PyStr.strip PyStr.truthy segment_column].
  rewrite Hcol. reflexivity.
Qed.
End segment_facts.

Lemma segment_hierarchy_example_witness :
  exists info,
    @extract_segment_hierarchy Q Exact.sample
      {| sheet_grid := fun s =>
           if String.eqb s "Segmentation"
           then Some [ [CText "Segmentation"; CText "By Product"];
                       [CEmpty; CText "A"]; [CEmpty; CText ">B"];
                       [CEmpty; CText ">>C"]; [CEmpty; CText ">D"] ]
           else None;
         sheet_frame := fun _ => None |}
      = Return [("By Product", info)] /\
    seg_hierarchy info = [("A", ["B"; "D"]); ("B", ["C"])] /\
    seg_items info = {[ "A"; "B"; "C"; "D" ]} /\
    seg_type info = "hierarchical".
Proof.
  apply (proj2 (@segment_hierarchy_example Q Exact.sample) _ "By Product"
           (CText "Segmentation") CEmpty CEmpty CEmpty CEmpty);
    [reflexivity | reflexivity | discriminate].
Defined.

(** ** Where the records of [extract_data_records] come from *)

Section record_facts.
Context {F : Type} `{PyFloat F}.

Lemma set_market_share_same (r : data_record F) :
  set_market_share r (market_share r) = r.
Proof. by destruct r. Qed.

Lemma data_rows_inv geographies cols year_columns (rows : list (list (cell F))) acc recs :
  for_each rows
    (fun records row =>
       r ← data_row geographies cols year_columns row;
       Return (match r with Some r => records ++ [r] | None => records end))
    acc = Return recs ->
  exists new,
    recs = acc ++ new /\
    Forall (fun r => exists row,
              row ∈ rows /\ data_row geographies cols year_columns row = Return (Some r))
           new.
Proof.
  revert acc. induction rows as [|row rows IH]; intros acc; cbn.
  - intros [= <-]. exists []. by rewrite app_nil_r.
  - destruct (data_row geographies cols year_columns row) as [e|[r|]] eqn:Hrow;
      cbn; [done| |].
    + intros Hrest. apply IH in Hrest as (new & -> & Hnew).
      exists (r :: new). split; [by rewrite <- app_assoc|].
      constructor.
      * exists row. split; [left|done].
      * eapply Forall_impl; [exact Hnew|].
        intros r' (row' & Hin & Hr'). exists row'. split; [by right|done].
    + intros Hrest. apply IH in Hrest as (new & -> & Hnew).
      exists new. split; [done|].
      eapply Forall_impl; [exact Hnew|].
      intros r' (row' & Hin & Hr'). exists row'. split; [by right|done].
Qed.

Lemma assign_market_share_fields metadata year_columns (recs0 : list (data_record F)) :
  Forall2 (fun r r0 => r = set_market_share r0 (market_share r))
    (assign_market_share metadata year_columns recs0) recs0.
Proof.
  assert (Hsame : Forall2 (fun r r0 : data_record F =>
                             r = set_market_share r0 (market_share r)) recs0 recs0).
  { apply Forall2_same_length_lookup_2; [done|].
    intros i r r0 Hr Hr0. rewrite Hr in Hr0. injection Hr0 as <-.
    by rewrite set_market_share_same. }
  unfold assign_market_share.
  destruct (metadata_base_year metadata) as [b|]; [|done].
  destruct (bool_decide _); [|done].
  destruct (fgtb _ _); [|done].
  clear Hsame. generalize (year_total recs0 b). intros total.
  induction recs0 as [|r0 recs0 IH]; cbn; [constructor|].
  constructor; [done|apply IH].
Qed.

(** Every record of the result was built by [data_row] from a row of
    the sheet; only its market share was assigned afterwards. *)
Lemma extract_data_records_elem (wb : workbook F) sheet_name metadata geographies recs r :
  extract_data_records wb sheet_name metadata geographies = Return recs ->
  r ∈ recs ->
  exists df row r0,
    sheet_frame wb sheet_name = Some df /\
    row ∈ data df /\
    data_row geographies (columns df) (year_columns_of (columns df)) row = Return (Some r0) /\
    r = set_market_share r0 (market_share r).
Proof.
  unfold extract_data_records, read_excel_frame.
  destruct (sheet_frame wb sheet_name) as [df|]; [|done]. cbn.
  destruct (for_each (data df) _ []) as [e|recs0] eqn:Hloop; cbn; [done|].
  intros [= <-] Hin.
  apply data_rows_inv in Hloop as (new & -> & Hnew). cbn in *.
  pose proof (assign_market_share_fields metadata (year_columns_of (columns df)) new) as Hf.
  apply list_elem_of_lookup in Hin as [i Hi].
  destruct (Forall2_lookup_l _ _ _ _ _ Hf Hi) as (r0 & Hr0 & Heq).
  rewrite Forall_forall in Hnew.
  destruct (Hnew r0) as (row & Hrow & Hdata).
  { apply list_elem_of_lookup. by exists i. }
  by exists df, row, r0.
Qed.

(** What [data_row] puts into a record. *)
Lemma data_row_inv geographies cols year_columns (row : list (cell F)) r0 :
  data_row geographies cols year_columns row = Return (Some r0) ->
  exists ts c,
    extract_time_series cols row year_columns = Return ts /\
    compute_cagr year_columns ts = Return c /\
    str_truthy (text_field cols row "Geography") = true /\
    text_field cols row "Geography" = Some (geography r0) /\
    (geography_level r0, parent_geography r0) =
      resolve_geography geographies (geography r0) /\
    time_series r0 = ts /\
    cagr r0 = fround c 2.
Proof.
  unfold data_row.
  destruct (str_truthy (text_field cols row "Geography")) eqn:Hgeo; cbn; [|done].
  destruct (extract_time_series cols row year_columns) as [e|ts] eqn:Hts; cbn; [done|].
  destruct (compute_cagr year_columns ts) as [e|c] eqn:Hc; cbn; [done|].
  destruct (text_field cols row "Geography") as [geo|] eqn:Htext; [|done]. cbn.
  destruct (resolve_geography geographies geo) as [level parent] eqn:Hres.
  intros [= <-]. cbn. exists ts, c. rewrite Hres. repeat split; done.
Qed.
End record_facts.

(** ** Geography resolution (C4) *)

Lemma scan_countries_Some geo items region :
  scan_countries geo items = Some region ->
  exists countries_list before after,
    items = before ++ (region, countries_list) :: after /\
    geo ∈ countries_list /\
    Forall (fun entry => geo ∉ entry.2) before.
Proof.
  induction items as [|[r cl] items IH]; cbn; [done|].
  case_bool_decide as Hin.
  - intros [= ->]. exists cl, [], items. by repeat split.
  - intros Hscan. destruct (IH Hscan) as (cl' & before & after & -> & Hcl & Hbefore).
    exists cl', ((r, cl) :: before), after. repeat split; [done|].
    by constructor.
Qed.

Lemma scan_countries_None geo items :
  scan_countries geo items = None ->
  Forall (fun entry => geo ∉ entry.2) items.
Proof.
  induction items as [|[r cl] items IH]; cbn; [by constructor|].
  case_bool_decide as Hin; [done|].
  intros Hscan. constructor; [done|by apply IH].
Qed.

(** The code's chain of tests against the specification's cases. *)
Lemma resolve_geography_cases (g : geography_hierarchy) (global_name geo : string) :
  geo_global g = [global_name] ->
  geography_cases global_name (geo_regions g) (geo_countries g) geo
    (resolve_geography (Some g) geo).1 (resolve_geography (Some g) geo).2.
Proof.
  intros Hglobal. unfold resolve_geography. rewrite Hglobal.
  case_bool_decide as Hg.
  { apply case_global. by apply list_elem_of_singleton in Hg. }
  assert (geo <> global_name) as Hne.
  { intros ->. apply Hg. apply list_elem_of_singleton. done. }
  case_bool_decide as Hr.
  { by apply case_region. }
  destruct (scan_countries geo (geo_countries g)) as [region|] eqn:Hscan.
  - apply scan_countries_Some in Hscan as (cl & before & after & Hc & Hin & Hbefore).
    by eapply case_country.
  - apply scan_countries_None in Hscan. by apply case_unresolved.
Qed.

(** The hierarchy builder names exactly one global geography. *)
Lemma extract_geography_hierarchy_global {F : Type} `{PyFloat F} (wb : workbook F)
    (g : geography_hierarchy) :
  extract_geography_hierarchy wb = Return g -> geo_global g = ["India"].
Proof.
  unfold extract_geography_hierarchy.
  destruct (read_excel_grid wb "Region") as [e|df]; cbn -[for_each]; [done|].
  destruct (for_each _ _ _) as [e|[countries all_geographies]]; cbn; [done|].
  by intros [= <-].
Qed.

(** C4: every record of [extract_data_records] carries the level and
    parent given by the ordered cases global / region / country of the
    first matching region / unresolved, for every hierarchy with one
    global name, as the builder's hierarchies are; and on the hierarchy
    global = India, regions = North India and South India,
    countries = {North India: [Punjab]} the four sample geographies
    resolve as stated. *)
Theorem geography_resolution :
  (forall (F : Type) (FO : PyFloat F) (wb : workbook F) (g : geography_hierarchy),
     extract_geography_hierarchy wb = Return g -> geo_global g = ["India"]) /\
  (forall (F : Type) (FO : PyFloat F) (wb : workbook F) (sheet_name : string)
          (metadata : list (string * meta_value)) (g : geography_hierarchy)
          (global_name : string) (recs : list (data_record F)) (r : data_record F),
     extract_data_records wb sheet_name metadata (Some g) = Return recs ->
     r ∈ recs ->
     geo_global g = [global_name] ->
     geography_cases global_name (geo_regions g) (geo_countries g)
       (geography r) (geography_level r) (parent_geography r)) /\
  (forall all_names : list string,
     let g := {| geo_global := ["India"];
                 geo_regions := ["North India"; "South India"];
                 geo_countries := [("North India", ["Punjab"])];
                 geo_all_geographies := all_names |} in
     resolve_geography (Some g) "Punjab" = ("country", Some "North India") /\
     resolve_geography (Some g) "North India" = ("region", Some "India") /\
     resolve_geography (Some g) "India" = ("global", None) /\
     resolve_geography (Some g) "Atlantis" = ("country", None)).
Proof.
  split; [intros F FO wb g; apply extract_geography_hierarchy_global|].
  split.
  - intros F FO wb sheet_name metadata g global_name recs r Hrecs Hr Hglobal.
    destruct (extract_data_records_elem _ _ _ _ _ _ Hrecs Hr)
      as (df & row & r0 & _ & _ & Hrow & ->).
    apply data_row_inv in Hrow as (ts & c & _ & _ & _ & _ & Hres & _). cbn.
    pose proof (resolve_geography_cases g global_name (geography r0) Hglobal) as Hcases.
    rewrite <- Hres in Hcases. exact Hcases.
  - intros all_names g. repeat split.
Qed.

Lemma geography_resolution_witness :
  geography_cases "India" ["North India"; "South India"] [("North India", ["Punjab"])]
    "Punjab" "country" (Some "North India").
Proof.
  apply (proj1 (proj2 geography_resolution) Q Exact.sample sample_workbook
           "Master Sheet-Value" []
           sample_geographies "India" sample_records sample_punjab);
    [vm_compute; reflexivity | | reflexivity].
  right. right. left.
Defined.

(** ** The assembler's years (C5) *)

Lemma fold_min_spec (l : list Z) (x : Z) :
  (fold_left Z.min l x = x \/ fold_left Z.min l x ∈ l) /\
  fold_left Z.min l x <= x /\
  (forall y, y ∈ l -> fold_left Z.min l x <= y).
Proof.
  revert x. induction l as [|a l IH]; intros x; cbn.
  - split; [by left|]. split; [lia|]. intros y Hy. by apply elem_of_nil in Hy.
  - destruct (IH (Z.min x a)) as (Hin & Hle & Hall).
    split; [|split].
    + destruct Hin as [Heq|Hin]; [|right; by right].
      rewrite Heq. destruct (Z.min_spec x a) as [[_ ->]|[_ ->]]; [by left|right; left].
    + lia.
    + intros y [->|Hy]%elem_of_cons; [lia|by apply Hall].
Qed.

Lemma fold_max_spec (l : list Z) (x : Z) :
  (fold_left Z.max l x = x \/ fold_left Z.max l x ∈ l) /\
  x <= fold_left Z.max l x /\
  (forall y, y ∈ l -> y <= fold_left Z.max l x).
Proof.
  revert x. induction l as [|a l IH]; intros x; cbn.
  - split; [by left|]. split; [lia|]. intros y Hy. by apply elem_of_nil in Hy.
  - destruct (IH (Z.max x a)) as (Hin & Hle & Hall).
    split; [|split].
    + destruct Hin as [Heq|Hin]; [|right; by right].
      rewrite Heq. destruct (Z.max_spec x a) as [[_ ->]|[_ ->]]; [right; left|by left].
    + lia.
    + intros y [->|Hy]%elem_of_cons; [lia|by apply Hall].
Qed.

Lemma min_or_spec (l : list Z) (d : Z) :
  l <> [] -> min_or l d ∈ l /\ forall y, y ∈ l -> min_or l d <= y.
Proof.
  destruct l as [|x l]; [done|]. intros _. cbn.
  destruct (fold_min_spec l x) as (Hin & Hle & Hall). split.
  - destruct Hin as [->|Hin]; [left|by right].
  - intros y [->|Hy]%elem_of_cons; [done|by apply Hall].
Qed.

Lemma max_or_spec (l : list Z) (d : Z) :
  l <> [] -> max_or l d ∈ l /\ forall y, y ∈ l -> y <= max_or l d.
Proof.
  destruct l as [|x l]; [done|]. intros _. cbn.
  destruct (fold_max_spec l x) as (Hin & Hle & Hall). split.
  - destruct Hin as [->|Hin]; [left|by right].
  - intros y [->|Hy]%elem_of_cons; [done|by apply Hall].
Qed.

Lemma filter_none {A} (P : A -> Prop) `{forall x, Decision (P x)} (l : list A) :
  Forall (fun y => ~ P y) l -> filter P l = [].
Proof.
  induction 1 as [|x l Hx _ IH]; [done|].
  by rewrite filter_cons, decide_False.
Qed.

Lemma filter_all {A} (P : A -> Prop) `{forall x, Decision (P x)} (l : list A) :
  Forall P l -> filter P l = l.
Proof.
  induction 1 as [|x l Hx _ IH]; [done|].
  by rewrite filter_cons, decide_True, IH.
Qed.

(** In an ascending list the years up to a bound come first. *)
Lemma sorted_split (b : Z) (l : list Z) :
  StronglySorted Z.le l ->
  filter (fun y => y <= b) l ++ filter (fun y => y > b) l = l.
Proof.
  induction 1 as [|x l Hsorted IH Hall]; [done|].
  rewrite !filter_cons. destruct (decide (x <= b)) as [Hx|Hx].
  - rewrite decide_False by lia. cbn. by rewrite IH.
  - rewrite decide_True by lia.
    rewrite filter_none, filter_all; [done| |].
    + eapply Forall_impl; [exact Hall|]. cbn. lia.
    + eapply Forall_impl; [exact Hall|]. cbn. lia.
Qed.

Section assembler_facts.
Context {F : Type} `{PyFloat F}.

Lemma fold_union_keys (recs : list (data_record F)) (acc : gset Z) (y : Z) :
  y ∈ fold_left (fun acc r => acc ∪ list_to_set (PyDict.keys (time_series r))) recs acc <->
  y ∈ acc \/ exists r, r ∈ recs /\ y ∈ PyDict.keys (time_series r).
Proof.
  revert acc. induction recs as [|r recs IH]; intros acc; cbn.
  - split; [by left|]. intros [?|(r & Hr & _)]; [done|]. by apply elem_of_nil in Hr.
  - rewrite IH, elem_of_union, elem_of_list_to_set. split.
    + intros [[?|?]|(r' & Hr' & Hy)]; [by left| |].
      * right. exists r. split; [left|done].
      * right. exists r'. split; [by right|done].
    + intros [?|(r' & [->|Hr']%elem_of_cons & Hy)]; [by left; left| |].
      * left. by right.
      * right. by exists r'.
Qed.

Lemma elem_of_collect_years (value_records : list (data_record F)) (y : Z) :
  y ∈ collect_years value_records <->
  exists r, r ∈ value_records /\ y ∈ PyDict.keys (time_series r).
Proof.
  unfold collect_years. rewrite merge_sort_Permutation, elem_of_elements, fold_union_keys.
  split; [|by right]. intros [Hy|?]; [|done]. by apply elem_of_empty in Hy.
Qed.

Lemma collect_years_sorted (value_records : list (data_record F)) :
  StronglySorted Z.le (collect_years value_records).
Proof. apply StronglySorted_merge_sort; apply _. Qed.

Lemma collect_years_NoDup (value_records : list (data_record F)) :
  NoDup (collect_years value_records).
Proof.
  unfold collect_years. rewrite merge_sort_Permutation. apply NoDup_elements.
Qed.
End assembler_facts.

(** C5: the years of the document are the sorted, duplicate-free keys
    of the value records' time series, whatever the volume records
    are; [start_year] and [forecast_year] are their least and greatest
    element; [base_year] is 2024 when present, else the greatest year
    up to 2024, else [start_year]; the historical years are those up
    to [base_year], the forecast years those after it, and the two
    lists put together give the years back. *)
Theorem assembler_years (F : Type) (FO : PyFloat F)
    (metadata : list (string * meta_value)) (geographies : geography_hierarchy)
    (segments : list (string * segment_info))
    (value_records volume_records : list (data_record F)) :
  let doc := assemble metadata geographies segments value_records volume_records in
  let s := summarize_years (collect_years value_records) in
  (forall volume_records' : list (data_record F),
     doc_metadata (assemble metadata geographies segments value_records volume_records')
     = doc_metadata doc) /\
  (PyDict.get (doc_metadata doc) "years" = Some (MYears (years s)) /\
   PyDict.get (doc_metadata doc) "start_year" = Some (MInt (start_year s)) /\
   PyDict.get (doc_metadata doc) "base_year" = Some (MInt (base_year s)) /\
   PyDict.get (doc_metadata doc) "forecast_year" = Some (MInt (forecast_year s)) /\
   PyDict.get (doc_metadata doc) "historical_years" = Some (MYears (historical_years s)) /\
   PyDict.get (doc_metadata doc) "forecast_years" = Some (MYears (forecast_years s))) /\
  (forall y, y ∈ years s <->
             exists r, r ∈ value_records /\ y ∈ PyDict.keys (time_series r)) /\
  (StronglySorted Z.le (years s) /\ NoDup (years s)) /\
  (years s <> [] ->
   (start_year s ∈ years s /\ forall y, y ∈ years s -> start_year s <= y) /\
   (forecast_year s ∈ years s /\ forall y, y ∈ years s -> y <= forecast_year s)) /\
  (2024 ∈ years s -> base_year s = 2024) /\
  (2024 ∉ years s -> (exists y, y ∈ years s /\ y <= 2024) ->
   base_year s ∈ years s /\ base_year s <= 2024 /\
   forall y, y ∈ years s -> y <= 2024 -> y <= base_year s) /\
  ((forall y, y ∈ years s -> 2024 < y) -> base_year s = start_year s) /\
  (forall y, y ∈ historical_years s <-> y ∈ years s /\ y <= base_year s) /\
  (forall y, y ∈ forecast_years s <-> y ∈ years s /\ y > base_year s) /\
  historical_years s ++ forecast_years s = years s.
Proof.
  intros doc s.
  split; [done|].
  split.
  { subst doc. unfold assemble, PyDict.update. cbn [doc_metadata fold_left fst snd].
    repeat split;
      repeat (first [ apply get_set_eq | rewrite get_set_ne by done ]). }
  split; [apply elem_of_collect_years|].
  split; [split; [apply collect_years_sorted|apply collect_years_NoDup]|].
  subst s. cbn [years start_year base_year forecast_year historical_years forecast_years
                summarize_years].
  set (ys := collect_years value_records).
  split; [|split; [|split; [|split; [|split; [|split]]]]].
  - intros Hne. split; [by apply min_or_spec|by apply max_or_spec].
  - intros H2024. by rewrite bool_decide_true.
  - intros H2024 (y0 & Hy0 & Hle0). rewrite bool_decide_false by done.
    assert (filter (fun y => y <= 2024) ys <> []) as Hne.
    { intros Hnil. assert (y0 ∈ filter (fun y => y <= 2024) ys) as Hin.
      { by apply list_elem_of_filter. }
      rewrite Hnil in Hin. by apply elem_of_nil in Hin. }
    destruct (max_or_spec _ (min_or ys 2020) Hne) as (Hin & Hmax).
    apply list_elem_of_filter in Hin as [Hle Hin].
    repeat split; [done|done|].
    intros y Hy Hyle. apply Hmax. by apply list_elem_of_filter.
  - intros Hall. rewrite bool_decide_false.
    + rewrite filter_none; [done|].
      apply Forall_forall. intros y Hy. specialize (Hall y Hy). lia.
    + intros Hin. specialize (Hall _ Hin). lia.
  - intros y. rewrite list_elem_of_filter. tauto.
  - intros y. rewrite list_elem_of_filter. tauto.
  - apply sorted_split, collect_years_sorted.
Qed.

Lemma assembler_years_witness :
  let s := summarize_years (collect_years sample_records) in
  years s = [2023; 2024] /\ start_year s = 2023 /\ base_year s = 2024 /\
  forecast_year s = 2024 /\ historical_years s ++ forecast_years s = [2023; 2024] /\
  (start_year s ∈ years s /\ forall y, y ∈ years s -> start_year s <= y) /\
  (forecast_year s ∈ years s /\ forall y, y ∈ years s -> y <= forecast_year s).
Proof.
  intros s.
  split; [reflexivity|]. split; [reflexivity|]. split; [reflexivity|].
  split; [reflexivity|]. split; [reflexivity|].
  apply (assembler_years Q Exact.sample [] sample_geographies [] sample_records []).
  discriminate.
Defined.

(** ** Time series (C6) *)

Section time_series_facts.
Context {F : Type} `{PyFloat F}.

(** Reading one year never raises. *)
Lemma time_series_entry_returns (cols row : list (cell F)) (year : Z) :
  time_series_entry cols row year = Return (year_value cols row year).
Proof.
  unfold time_series_entry, year_value, year_cell.
  destruct (py_or _ _) as [c|]; cbn; [|done].
  destruct (notna c); [|done].
  by destruct (py_float c).
Qed.

Lemma time_series_loop (cols row : list (cell F)) (year_columns : list Z) acc :
  exists ts,
    for_each year_columns
      (fun ts year => v ← time_series_entry cols row year; Return (PyDict.set ts year v))
      acc = Return ts /\
    forall y, PyDict.get ts y =
              if bool_decide (y ∈ year_columns) then Some (year_value cols row y)
              else PyDict.get acc y.
Proof.
  revert acc. induction year_columns as [|x l IH]; intros acc; cbn.
  - exists acc. split; [done|]. intros y. rewrite bool_decide_false; [done|].
    apply not_elem_of_nil.
  - rewrite time_series_entry_returns. cbn.
    destruct (IH (PyDict.set acc x (year_value cols row x))) as (ts & Hts & Hget).
    exists ts. split; [done|]. intros y. rewrite Hget.
    destruct (decide (y ∈ l)) as [Hl|Hl].
    + rewrite !bool_decide_true; [done|by right|done].
    + rewrite (bool_decide_false (y ∈ l)) by done.
      destruct (decide (y = x)) as [->|Hne].
      * rewrite get_set_eq, bool_decide_true; [done|left].
      * rewrite get_set_ne by done. rewrite bool_decide_false; [done|].
        rewrite elem_of_cons. tauto.
Qed.

(** The time series of a row is defined on every year column. *)
Lemma extract_time_series_total (cols row : list (cell F)) (year_columns : list Z) :
  exists ts,
    extract_time_series cols row year_columns = Return ts /\
    (forall y, y ∈ year_columns -> PyDict.get ts y = Some (year_value cols row y)) /\
    (forall y, y ∉ year_columns -> PyDict.get ts y = None).
Proof.
  destruct (time_series_loop cols row year_columns []) as (ts & Hts & Hget).
  exists ts. split; [exact Hts|]. split; intros y Hy; rewrite Hget.
  - by rewrite bool_decide_true.
  - by rewrite bool_decide_false.
Qed.

(** The series of a record is the series of the row it was built from. *)
Lemma record_time_series (wb : workbook F) (sheet_name : string)
    (metadata : list (string * meta_value)) (geographies : option geography_hierarchy)
    (recs : list (data_record F)) (r : data_record F) :
  extract_data_records wb sheet_name metadata geographies = Return recs ->
  r ∈ recs ->
  exists df row,
    sheet_frame wb sheet_name = Some df /\
    row ∈ data df /\
    extract_time_series (columns df) row (year_columns_of (columns df))
      = Return (time_series r) /\
    forall y, y ∈ year_columns_of (columns df) ->
              PyDict.get (time_series r) y = Some (year_value (columns df) row y).
Proof.
  intros Hrecs Hr.
  destruct (extract_data_records_elem _ _ _ _ _ _ Hrecs Hr)
    as (df & row & r0 & Hdf & Hrow & Hdata & ->).
  apply data_row_inv in Hdata as (ts & c & Hts & _ & _ & _ & _ & Hr0 & _).
  exists df, row. cbn. rewrite Hr0. repeat split; [done|done|done|].
  destruct (extract_time_series_total (columns df) row (year_columns_of (columns df)))
    as (ts' & Hts' & Hget & _).
  rewrite Hts in Hts'. injection Hts' as <-. exact Hget.
Qed.

(** C6: for every row and every year column the time series holds a
    float, and extraction of the series never raises; the float is
    0.0 when the year's cell is missing or empty and when it cannot be
    parsed, and the parsed number otherwise.  The series of every
    record of [extract_data_records] is the series of its row, so it
    is total over the sheet's year columns. *)
Theorem time_series_total :
  (forall (cols row : list (cell F)) (year_columns : list Z),
     exists ts,
       extract_time_series cols row year_columns = Return ts /\
       forall y, y ∈ year_columns ->
         exists v : F,
           PyDict.get ts y = Some v /\
           (notna_opt (year_cell cols row y) = false -> v = fzero) /\
           (forall c e, year_cell cols row y = Some c -> py_float c = Raise e -> v = fzero) /\
           (forall c f, year_cell cols row y = Some c -> notna c = true ->
                        py_float c = Return f -> v = f)) /\
  (forall (wb : workbook F) (sheet_name : string) (metadata : list (string * meta_value))
          (geographies : option geography_hierarchy) (recs : list (data_record F))
          (r : data_record F),
     extract_data_records wb sheet_name metadata geographies = Return recs ->
     r ∈ recs ->
     exists df row,
       sheet_frame wb sheet_name = Some df /\
       row ∈ data df /\
       extract_time_series (columns df) row (year_columns_of (columns df))
         = Return (time_series r) /\
       forall y, y ∈ year_columns_of (columns df) ->
                 PyDict.get (time_series r) y = Some (year_value (columns df) row y)).
Proof.
  split; [|apply record_time_series].
  intros cols row year_columns.
  destruct (extract_time_series_total cols row year_columns) as (ts & Hts & Hget & _).
  exists ts. split; [exact Hts|]. intros y Hy.
  exists (year_value cols row y). split; [by apply Hget|].
  unfold year_value. repeat split.
  - destruct (year_cell cols row y) as [c|]; [|done]. cbn. by intros ->.
  - intros c e -> ->. by destruct (notna c).
  - intros c f -> -> ->. done.
Qed.
End time_series_facts.

Lemma time_series_total_witness :
  exists df row,
    sheet_frame sample_workbook "Master Sheet-Value" = Some df /\
    row ∈ data df /\
    @extract_time_series Q Exact.sample (columns df) row (year_columns_of (columns df))
      = Return [(2023, 0%Q); (2024, 30%Q)] /\
    forall y, y ∈ @year_columns_of Q Exact.sample (columns df) ->
              PyDict.get [(2023, 0%Q); (2024, 30%Q)] y
              = Some (@year_value Q Exact.sample (columns df) row y).
Proof.
  apply (proj2 (@time_series_total Q Exact.sample) sample_workbook "Master Sheet-Value" []
           (Some sample_geographies) sample_records sample_punjab);
    [vm_compute; reflexivity|].
  right. right. left.
Defined.

(** ** CAGR (C1) *)






Section cagr_facts.
Context {F : Type} `{PyFloat F}.



End cagr_facts.


(** ** Market shares and rounding (C2) *)

Section market_share_facts.
Context {F : Type} `{PyFloat F}.

(** The total of a year depends on the time series only. *)
Lemma year_total_values (records : list (data_record F)) (year : Z) :
  year_total records year =
  fold_left fadd (map (fun r => default fzero (PyDict.get (time_series r) year)) records)
    fzero.
Proof.
  unfold year_total.
  assert (forall acc,
            fold_left
              (fun acc r => fadd acc (default fzero (PyDict.get (time_series r) year)))
              records acc =
            fold_left fadd
              (map (fun r => default fzero (PyDict.get (time_series r) year)) records)
              acc) as Hfold; [|apply Hfold].
  induction records as [|r records IH]; intros acc; cbn; [done|apply IH].
Qed.

Lemma year_total_same_series (records records' : list (data_record F)) (year : Z) :
  Forall2 (fun r r' => time_series r = time_series r') records records' ->
  year_total records year = year_total records' year.
Proof.
  intros Hrel. rewrite !year_total_values. f_equal.
  induction Hrel as [|r r' l l' Hr _ IH]; cbn; [done|]. by rewrite Hr, IH.
Qed.


End market_share_facts.








Section rounding_facts.
Context {F : Type} `{PyFloat F}.
Variables (val : F -> Q) (u : Q).
Hypothesis u_nonneg : (0 <= u)%Q.
Hypothesis u_small : (u < 1)%Q.












End rounding_facts.

Section market_share_rounding.
Context {F : Type} `{PyFloat F}.
Variables (val : F -> Q) (u : Q).


End market_share_rounding.

(** With doubles and values of 2^1023 the total is an infinity, which
    passes the test [> 0], and every share is 0.0. *)
Lemma overflow_share_sum :
  @extract_data_records _ Binary64.sample sample_overflow "Master Sheet-Value" [] None
    = Return overflow_records /\
  @fgtb _ Binary64.sample (@year_total _ Binary64.sample overflow_records 2024)
        PrimFloat.zero = true /\
  map (fun r => Binary64.to_Q (market_share r)) overflow_records
    = [Some 0%Q; Some 0%Q].
Proof. repeat split; vm_compute; reflexivity. Qed.

(** With doubles and the values 10^16, -9999999999999998 and 0.5 no
    operation overflows, the total is 2.5, and the shares sum to
    about 1.2. *)
Lemma cancellation_share_sum :
  @extract_data_records _ Binary64.sample sample_cancellation "Master Sheet-Value" []
      None
    = Return cancellation_records /\
  (Binary64.val (@year_total _ Binary64.sample cancellation_records 2024)
     == 5 # 2)%Q /\
  (119 # 100 <= exact_share_sum Binary64.val cancellation_records)%Q.
Proof.
  split; [vm_compute; reflexivity|]. split; [vm_compute; reflexivity|].
  vm_compute. discriminate.
Qed.




(** ** Loops *)

Lemma for_each_app {A S} (xs ys : list A) (body : S -> A -> py S) (acc : S) :
  for_each (xs ++ ys) body acc = (acc' ← for_each xs body acc; for_each ys body acc').
Proof.
  revert acc. induction xs as [|x xs IH]; intros acc; cbn; [done|].
  destruct (body acc x) as [e|acc']; cbn; [done|apply IH].
Qed.

Lemma range_split (a b c : nat) :
  (a <= b)%nat -> (b <= c)%nat -> range a c = range a b ++ range b c.
Proof.
  intros Hab Hbc. unfold range.
  replace (c - a)%nat with ((b - a) + (c - b))%nat by lia.
  rewrite seq_app. do 2 f_equal. lia.
Qed.

(** ** Falsy values in the Parameters sheet (C9) *)

Section metadata_facts.
Context {F : Type} `{PyFloat F}.

Lemma falsy_scalar_truthy (v : cell F) : falsy_scalar v -> notna v = true /\ truthy v = false.
Proof.
  destruct 1; cbn; split; try done. by rewrite feqb_zero.
Qed.

Lemma metadata_row_falsy metadata (k v : cell F) (rest : list (cell F)) :
  falsy_scalar v -> metadata_row metadata (k :: v :: rest) = Return metadata.
Proof.
  intros [Hna Hfalse]%falsy_scalar_truthy. unfold metadata_row. cbn.
  rewrite Hna. destruct (notna k); [|done].
  by rewrite Hfalse, andb_false_r.
Qed.

Lemma metadata_row_empty metadata (k : cell F) (rest : list (cell F)) :
  metadata_row metadata (k :: CEmpty :: rest) = Return metadata.
Proof. unfold metadata_row. cbn. by destruct (notna k). Qed.

(** C9: a Parameters row whose value cell holds 0, 0.0 or False
    leaves the metadata as it was, exactly as the same row with an
    empty value cell does; replacing the cell by an empty one anywhere
    in the sheet does not change the result of [extract_metadata]; and
    a sheet made of such a row alone yields the defaults. *)
Theorem falsy_value_skipped :
  (forall (metadata : list (string * meta_value)) (k v : cell F) (rest : list (cell F)),
     falsy_scalar v ->
     metadata_row metadata (k :: v :: rest) = Return metadata /\
     metadata_row metadata (k :: v :: rest) = metadata_row metadata (k :: CEmpty :: rest)) /\
  (forall (wb wb' : workbook F) (before after : grid F) (k v : cell F)
          (rest : list (cell F)),
     falsy_scalar v ->
     sheet_grid wb "Parameters" = Some (before ++ (k :: v :: rest) :: after) ->
     sheet_grid wb' "Parameters" = Some (before ++ (k :: CEmpty :: rest) :: after) ->
     extract_metadata wb = extract_metadata wb') /\
  (forall (wb : workbook F) (k v : cell F) (rest : list (cell F)),
     falsy_scalar v ->
     sheet_grid wb "Parameters" = Some [k :: v :: rest] ->
     extract_metadata wb = Return (metadata_defaults [])).
Proof.
  split; [|split].
  - intros metadata k v rest Hv.
    by rewrite metadata_row_falsy, metadata_row_empty.
  - intros wb wb' before after k v rest Hv Hwb Hwb'.
    unfold extract_metadata, read_excel_grid. rewrite Hwb, Hwb'.
    cbn -[metadata_row for_each].
    rewrite !for_each_app. destruct (for_each before metadata_row []) as [e|md]; [done|].
    cbn -[metadata_row]. by rewrite metadata_row_falsy, metadata_row_empty.
  - intros wb k v rest Hv Hwb.
    unfold extract_metadata, read_excel_grid. rewrite Hwb.
    cbn -[metadata_row]. by rewrite metadata_row_falsy.
Qed.
End metadata_facts.

Lemma falsy_value_skipped_witness :
  extract_metadata
    {| sheet_grid := fun _ => Some [ [CText "Value Unit"; CInt 0] ];
       sheet_frame := fun _ => None |}
  = Return (metadata_defaults []) /\
  PyDict.get (metadata_defaults []) "value_unit" = Some (MStr "Cr.").
Proof.
  split; [|reflexivity].
  apply (proj2 (proj2 (@falsy_value_skipped Q Exact.sample)) _
           (CText "Value Unit") (CInt 0) []); [constructor|reflexivity].
Defined.

(** ** Row numbers in the distributor sheets (C10) *)

Section distributor_facts.
Context {F : Type} `{PyFloat F}.

(** A row whose first cell is non-blank text that [int()] rejects. *)
Lemma distributor_row_raises (df : grid F) (sheet_name : string)
    (field_mapping : list (nat * string)) acc (idx : nat) (s : string)
    (rest : list (cell F)) :
  df !! idx = Some (CText s :: rest) ->
  PyStr.strip s <> "" ->
  PyStr.int_of_str s = None ->
  distributor_row df sheet_name field_mapping acc idx = Raise ValueError.
Proof.
  intros Hrow Hblank Hint. unfold distributor_row, iloc_row, iloc.
  rewrite Hrow. cbn -[PyStr.strip]. rewrite bool_decide_false by done.
  cbn -[PyStr.strip]. by rewrite Hint.
Qed.

(** C10: a data row whose column 0 holds non-blank text that is not an
    integer literal makes [distributor_row] raise [ValueError] while
    building the id; [extract_distributors_from_sheet] then raises as
    soon as the loop reaches that row, whatever follows it; "A12" is
    such a text, and its failing the [isdigit] test of [s_no] does not
    prevent the error. *)
Theorem row_number_not_guarded :
  (forall (wb : workbook F) (sheet_name : string) (df : grid F) (idx : nat) (s : string)
          (rest : list (cell F)) (acc : list (list (string * dvalue))),
     sheet_grid wb sheet_name = Some df ->
     (5 <= idx)%nat ->
     df !! idx = Some (CText s :: rest) ->
     PyStr.strip s <> "" ->
     PyStr.int_of_str s = None ->
     for_each (range 5 idx)
       (distributor_row df sheet_name (get_module_field_mapping sheet_name)) [] = Return acc ->
     extract_distributors_from_sheet wb sheet_name = Raise ValueError) /\
  (forall (wb : workbook F) (sheet_name : string) (h0 h1 h2 h3 h4 : list (cell F))
          (rest : list (cell F)) (rows : grid F),
     sheet_grid wb sheet_name = Some ([h0; h1; h2; h3; h4] ++ (CText "A12" :: rest) :: rows) ->
     extract_distributors_from_sheet wb sheet_name = Raise ValueError) /\
  (PyStr.isdigit "A12" = false /\ PyStr.int_of_str "A12" = None).
Proof.
  split; [|split; [|done]].
  - intros wb sheet_name df idx s rest acc Hwb Hidx Hrow Hblank Hint Hprefix.
    unfold extract_distributors_from_sheet, read_excel_grid. rewrite Hwb.
    assert (idx < length df)%nat as Hlen by (by eapply lookup_lt_Some).
    assert (exists header, df !! 4%nat = Some header) as [header Hheader].
    { apply lookup_lt_is_Some. lia. }
    unfold iloc_row at 1. cbn -[range for_each]. rewrite Hheader. cbn -[range for_each].
    rewrite (range_split 5 idx (length df)) by lia.
    rewrite for_each_app, Hprefix. cbn -[range for_each].
    unfold range. replace (length df - idx)%nat with (S (length df - S idx)) by lia.
    cbn -[distributor_row].
    by rewrite (distributor_row_raises df sheet_name _ acc idx s rest).
  - intros wb sheet_name h0 h1 h2 h3 h4 rest rows Hwb.
    unfold extract_distributors_from_sheet, read_excel_grid. rewrite Hwb.
    cbn -[distributor_row for_each range].
    unfold range. cbn -[distributor_row].
    replace (length rows - 0)%nat with (length rows) by lia.
    cbn -[distributor_row].
    by rewrite (distributor_row_raises _ sheet_name _ [] 5 "A12" rest).
Qed.
End distributor_facts.

Lemma row_number_not_guarded_witness :
  extract_distributors_from_sheet sample_distributors "Module 1 - Standard"
  = Raise ValueError.
Proof.
  apply (proj1 (@row_number_not_guarded Q Exact.sample) sample_distributors
           "Module 1 - Standard"
           (sample_header ++ [ [CText "A12"; CText "Acme Trading"] ])
           5%nat "A12" [CText "Acme Trading"] []);
    [reflexivity | lia | reflexivity | discriminate | reflexivity | reflexivity].
Defined.

(** ** Failing runs (C8) *)

Section run_facts.
Context {F : Type} `{PyFloat F}.

(** The spices converter writes after the five extraction steps and
    nowhere else. *)
Lemma convert_outcome (wb : workbook F) (output_path : string) (w : world F) :
  match spices_extraction wb with
  | Return doc =>
      exists out,
        convert_india_spices_to_json wb output_path w =
        (Return doc, {| stdout := stdout w ++ out;
                        files := PyDict.set (files w) output_path (SpicesJson doc) |})
  | Raise e =>
      exists out,
        convert_india_spices_to_json wb output_path w =
        (Raise e, {| stdout := stdout w ++ out; files := files w |})
  end.
Proof.
  unfold spices_extraction, convert_india_spices_to_json.
  unfold io_bind, io_lift, io_ret, print, write_json. cbn.
  destruct (extract_metadata wb) as [e|metadata]; cbn.
  { eexists. by rewrite <- !app_assoc. }
  destruct (extract_geography_hierarchy wb) as [e|geographies]; cbn.
  { eexists. by rewrite <- !app_assoc. }
  destruct (extract_segment_hierarchy wb) as [e|segments]; cbn.
  { eexists. by rewrite <- !app_assoc. }
  destruct (extract_data_records wb "Master Sheet-Value" _ _) as [e|value_records]; cbn.
  { eexists. by rewrite <- !app_assoc. }
  destruct (extract_data_records wb "Master Sheet-Volume" _ _) as [e|volume_records]; cbn.
  { eexists. by rewrite <- !app_assoc. }
  eexists. by rewrite <- !app_assoc.
Qed.
(** The distributor generator always writes: a module whose
    extraction raised is stored with no rows and no sections. *)
Lemma generate_outcome (wb : workbook F) (output_path : string) (w : world F) :
  exists out doc,
    generate_distributors_json wb output_path w =
    (Return doc, {| stdout := stdout w ++ out;
                    files := PyDict.set (files w) output_path (DistributorsJson doc) |}) /\
    (forall module, module ∈ modules ->
       PyDict.get (dd_data doc) module = Some (module_data wb module) /\
       PyDict.get (dd_sections doc) module = Some (module_sections wb module)) /\
    (forall module e, module ∈ modules ->
       extract_distributors_from_sheet wb module = Raise e ->
       Error ("  [ERROR] Error extracting " +:+ module) e ∈ out).
Proof.
  unfold generate_distributors_json, module_data, module_sections, modules.
  unfold io_bind, io_lift, io_ret, io_try, print, write_json.
  cbn -[extract_distributors_from_sheet get_module_sections].
  unfold io_bind, io_lift, io_ret, io_try, print, write_json.
  cbn -[extract_distributors_from_sheet get_module_sections].
  destruct (extract_distributors_from_sheet wb "Module 1 - Standard") as [e1|d1] eqn:E1;
    destruct (extract_distributors_from_sheet wb "Module 2 - Advance") as [e2|d2] eqn:E2;
    destruct (extract_distributors_from_sheet wb "Module 3 - Premium") as [e3|d3] eqn:E3;
    cbn -[extract_distributors_from_sheet get_module_sections];
    (eexists; eexists; split; [by rewrite <- !app_assoc|]);
    (split;
     [ intros module Hm;
       repeat (apply elem_of_cons in Hm as [->|Hm];
               [rewrite ?E1, ?E2, ?E3; split; reflexivity|]);
       by apply elem_of_nil in Hm
     | intros module e Hm He;
       repeat (apply elem_of_cons in Hm as [->|Hm];
               [rewrite ?E1, ?E2, ?E3 in He;
                first [discriminate He | injection He as <-; by repeat constructor]|]);
       by apply elem_of_nil in Hm ]).
Qed.

(** C8, amended: the spices converter is all-or-nothing: when an
    extraction step raises, the exception is caught once by the script
    body, an error is printed last and no file is written, and when
    all five steps complete the one file written holds the assembled
    document; a missing input writes nothing either.  The distributor
    generator catches an exception per module, prints an error that
    names the module and the exception, stores that module with no
    rows and no sections, and writes its file in every run. *)
Theorem failing_runs :
  (forall (input : option (workbook F)) (w : world F),
     (spices_main input w).1 = Return tt /\
     match input with
     | None =>
         files (spices_main input w).2 = files w /\
         exists msg, stdout (spices_main input w).2 = stdout w ++ [Info msg]
     | Some wb =>
         match spices_extraction wb with
         | Return doc =>
             files (spices_main input w).2 =
             PyDict.set (files w) "data/india-spices-comparison-data.json" (SpicesJson doc)
         | Raise e =>
             files (spices_main input w).2 = files w /\
             exists out,
               stdout (spices_main input w).2 =
               stdout w ++ out ++ [Error "ERROR: Error converting file" e]
         end
     end) /\
  (forall (wb : workbook F) (w : world F),
     exists out doc,
       distributors_main wb w =
       (Return doc,
        {| stdout := stdout w ++ out;
           files := PyDict.set (files w) "data/distributors-intelligence.json"
                      (DistributorsJson doc) |}) /\
       (forall module, module ∈ modules ->
          PyDict.get (dd_data doc) module = Some (module_data wb module) /\
          PyDict.get (dd_sections doc) module = Some (module_sections wb module)) /\
       (forall module e, module ∈ modules ->
          extract_distributors_from_sheet wb module = Raise e ->
          Error ("  [ERROR] Error extracting " +:+ module) e ∈ out)).
Proof.
  split; [|intros wb w; apply generate_outcome].
  intros [wb|] w; cbn -[convert_india_spices_to_json spices_extraction].
  - pose proof (convert_outcome wb "data/india-spices-comparison-data.json" w) as Hrun.
    unfold io_try, io_bind, io_ret, print.
    destruct (spices_extraction wb) as [e|doc]; destruct Hrun as [out ->]; cbn.
    + split; [done|]. split; [done|]. exists out. by rewrite <- app_assoc.
    + done.
  - split; [done|]. split; [done|]. by eexists.
Qed.
End run_facts.

(** C8, as stated, fails for the distributor pipeline: on the sample
    workbook the Standard sheet raises, and the file is written all
    the same. *)
Lemma all_or_nothing_counterexample :
  ~ @distributors_all_or_nothing Q Exact.sample.
Proof.
  intros Hclaim.
  specialize (Hclaim sample_distributors empty_world "Module 1 - Standard" ValueError).
  assert (files (distributors_main sample_distributors empty_world).2 = files empty_world)
    as Hfiles.
  { apply Hclaim; [left|reflexivity]. }
  vm_compute in Hfiles. discriminate Hfiles.
Qed.

Lemma failing_runs_witness :
  exists out doc,
    distributors_main sample_distributors empty_world =
    (Return doc,
     {| stdout := stdout empty_world ++ out;
        files := PyDict.set (files empty_world) "data/distributors-intelligence.json"
                   (DistributorsJson doc) |}) /\
    PyDict.get (dd_data doc) "Module 1 - Standard" = Some [] /\
    PyDict.get (dd_data doc) "Module 2 - Advance" =
      Some [ [ ("id", DStr "module_2_-_advance_1"); ("module", DStr "Module 2 - Advance");
               ("s_no", DInt 1); ("company_name", DStr "Gulf Beauty");
               ("year_established", DNone); ("headquarters_emirate", DNone);
               ("cities_regions_covered", DNone); ("ownership_type", DNone);
               ("business_type", DNone); ("no_of_employees", DNone);
               ("turnover_scale", DNone); ("key_contact_person", DNone);
               ("designation_role", DNone); ("email_address", DNone);
               ("phone_whatsapp", DNone); ("linkedin_profile", DNone);
               ("website_url", DNone); ("core_product_categories", DNone);
               ("specialty_focus", DNone); ("price_segment", DNone) ] ] /\
    PyDict.get (dd_data doc) "Module 3 - Premium" = Some [] /\
    Error "  [ERROR] Error extracting Module 1 - Standard" ValueError ∈ out /\
    Error "  [ERROR] Error extracting Module 3 - Premium" ValueError ∈ out.
Proof.
  destruct (proj2 (@failing_runs Q Exact.sample) sample_distributors empty_world)
    as (out & doc & Hrun & Hdata & Herrors).
  exists out, doc. split; [exact Hrun|].
  split; [|split; [|split; [|split]]].
  - apply (Hdata "Module 1 - Standard"). left.
  - apply (Hdata "Module 2 - Advance"). right. left.
  - apply (Hdata "Module 3 - Premium"). right. right. left.
  - apply (Herrors "Module 1 - Standard" ValueError); [left|reflexivity].
  - apply (Herrors "Module 3 - Premium" ValueError); [right; right; left|reflexivity].
Defined.

(** * Further properties of the extractors *)

(** ** More on dictionaries *)

Section dict_more.
Context {K V : Type} `{EqDecision K}.
Implicit Types (d : list (K * V)) (k : K) (v : V).

Lemma get_set d k k' v :
  PyDict.get (PyDict.set d k v) k' = if decide (k = k') then Some v else PyDict.get d k'.
Proof.
  destruct (decide (k = k')) as [->|Hne]; [apply get_set_eq|by apply get_set_ne].
Qed.

Lemma get_setdefault d k k' v :
  PyDict.get (PyDict.setdefault d k v) k' =
  match PyDict.get d k' with
  | Some x => Some x
  | None => if decide (k = k') then Some v else None
  end.
Proof.
  unfold PyDict.setdefault. destruct (PyDict.get d k) as [x|] eqn:Hk.
  - destruct (PyDict.get d k') as [x'|] eqn:Hk'; [done|].
    destruct (decide (k = k')) as [->|]; [congruence|done].
  - rewrite get_set. destruct (decide (k = k')) as [->|]; [by rewrite Hk|].
    by destruct (PyDict.get d k').
Qed.

Lemma set_set d k v v' : PyDict.set (PyDict.set d k v) k v' = PyDict.set d k v'.
Proof.
  induction d as [|[k0 v0] d IH]; cbn.
  - by rewrite decide_True.
  - destruct (decide (k = k0)) as [->|Hne]; cbn.
    + by rewrite decide_True.
    + by rewrite decide_False, IH.
Qed.

Lemma elem_of_set d k v k' v' :
  (k', v') ∈ PyDict.set d k v -> (k' = k /\ v' = v) \/ (k', v') ∈ d.
Proof.
  induction d as [|[k0 v0] d IH]; cbn.
  - intros [=]%list_elem_of_singleton. by left.
  - destruct (decide (k = k0)) as [->|Hne].
    + intros [[=]|Hin]%elem_of_cons; [by left|]. right. by right.
    + intros [[=]|Hin]%elem_of_cons.
      * subst. right. left.
      * destruct (IH Hin) as [?|?]; [by left|]. right. by right.
Qed.

Lemma Forall_set (P : K * V -> Prop) d k v :
  Forall P d -> P (k, v) -> Forall P (PyDict.set d k v).
Proof.
  intros Hd Hkv. apply Forall_forall. intros [k' v'] Hin.
  apply elem_of_set in Hin as [[-> ->]|Hin]; [done|].
  rewrite Forall_forall in Hd. by apply Hd.
Qed.

Lemma NoDup_keys_set d k v :
  NoDup (PyDict.keys d) -> NoDup (PyDict.keys (PyDict.set d k v)).
Proof.
  intros Hnd. rewrite keys_set. case_bool_decide as Hin; [done|].
  apply NoDup_app. split; [done|]. split; [|apply NoDup_singleton].
  intros x Hx ->%list_elem_of_singleton. done.
Qed.

Lemma elem_of_get d k v :
  NoDup (PyDict.keys d) -> (k, v) ∈ d -> PyDict.get d k = Some v.
Proof.
  unfold PyDict.keys. induction d as [|[k0 v0] d IH]; cbn.
  - intros _ Hin. by apply elem_of_nil in Hin.
  - intros [Hk0 Hnd]%NoDup_cons [[= -> ->]|Hin]%elem_of_cons.
    + by rewrite decide_True.
    + rewrite decide_False; [by apply IH|].
      intros ->. apply Hk0. apply list_elem_of_fmap. by exists (k0, v).
Qed.
End dict_more.

(** ** The metadata mapping *)

Section metadata_more.
Context {F : Type} `{PyFloat F}.

Lemma metadata_ok_set metadata key v :
  metadata_ok metadata -> metadata_value_ok key v ->
  metadata_ok (PyDict.set metadata key v).
Proof.
  intros Hok Hv key' v'. rewrite get_set.
  destruct (decide (key = key')) as [<-|]; [by intros [= <-]|apply Hok].
Qed.

Lemma metadata_rule_ok metadata key (value : cell F) :
  metadata_ok metadata -> metadata_ok (metadata_rule metadata key value).
Proof.
  intros Hok. unfold metadata_rule.
  repeat (match goal with
          | |- metadata_ok (if ?b then _ else _) => destruct b
          end);
    try done;
    apply metadata_ok_set; try done;
    (split; [by repeat (first [left | right])|]);
    match goal with
    | |- context [bool_decide ?P] =>
        let b := eval vm_compute in (bool_decide P) in
        change (bool_decide P) with b
    end; cbv iota; eexists; reflexivity.
Qed.

Lemma metadata_row_ok metadata (row : list (cell F)) metadata' :
  metadata_ok metadata -> metadata_row metadata row = Return metadata' ->
  metadata_ok metadata'.
Proof.
  intros Hok. unfold metadata_row.
  destruct (iloc row 0) as [e|c0]; cbn -[Nat.ltb]; [intros Hx; discriminate Hx|].
  destruct (1 <? length row)%nat; cbn.
  - destruct (iloc row 1) as [e|c1]; cbn; [intros Hx; discriminate Hx|].
    destruct (notna c0), (notna c1); try (by intros [= <-]).
    destruct (_ && _); intros [= <-]; [by apply metadata_rule_ok|done].
  - destruct (notna c0); by intros [= <-].
Qed.

Lemma metadata_rows_ok (df : grid F) metadata metadata' :
  metadata_ok metadata -> for_each df metadata_row metadata = Return metadata' ->
  metadata_ok metadata'.
Proof.
  revert metadata. induction df as [|row df IH]; intros metadata Hok; cbn -[metadata_row].
  - by intros [= <-].
  - destruct (metadata_row metadata row) as [e|m] eqn:Hrow; cbn -[metadata_row];
      [intros Hx; discriminate Hx|].
    apply IH. by eapply metadata_row_ok.
Qed.

Lemma get_metadata_defaults metadata key :
  PyDict.get (metadata_defaults metadata) key =
  match PyDict.get metadata key with
  | Some v => Some v
  | None => PyDict.get (metadata_defaults []) key
  end.
Proof.
  unfold metadata_defaults. rewrite !get_setdefault.
  destruct (PyDict.get metadata key); [done|]. cbn.
  repeat (destruct (decide _); [done|]). done.
Qed.
Lemma metadata_defaults_empty_ok key v :
  PyDict.get (metadata_defaults []) key = Some v ->
  metadata_value_ok key v.
Proof.
  intros Hget. apply get_elem_of in Hget. revert key v Hget.
  change (forall key v, (key, v) ∈ metadata_defaults [] -> metadata_value_ok key v)
    with (forall key v, (key, v) ∈ metadata_defaults [] ->
                        (fun kv => metadata_value_ok kv.1 kv.2) (key, v)).
  intros key v Hin.
  assert (Forall (fun kv => metadata_value_ok kv.1 kv.2) (metadata_defaults [])) as Hall.
  { vm_compute metadata_defaults.
    repeat constructor; cbn; try (by repeat (first [left | right]));
      match goal with
      | |- context [bool_decide ?P] =>
          let b := eval vm_compute in (bool_decide P) in
          change (bool_decide P) with b
      end; cbv iota; eexists; reflexivity. }
  rewrite Forall_forall in Hall. exact (Hall _ Hin).
Qed.

(** X1: what [extract_metadata] returns has exactly the eight canonical
    fields, text in six of them and a flag in [has_value] and
    [has_volume]; in particular it has no [base_year], so the base year
    of the market-share pass is 2024. *)
Theorem extract_metadata_fields (wb : workbook F) (metadata : list (string * meta_value)) :
  extract_metadata wb = Return metadata ->
  (forall key, key ∈ canonical_keys ->
     exists v, PyDict.get metadata key = Some v /\ metadata_value_ok key v) /\
  (forall key v, PyDict.get metadata key = Some v -> key ∈ canonical_keys) /\
  metadata_base_year metadata = Some 2024.
Proof.
  unfold extract_metadata.
  destruct (read_excel_grid wb "Parameters") as [e|df]; cbn -[metadata_row];
    [intros Hx; discriminate Hx|].
  destruct (for_each df metadata_row []) as [e|md0] eqn:Hrows; cbn -[metadata_row];
    [intros Hx; discriminate Hx|].
  intros [= <-].
  assert (metadata_ok md0) as Hok.
  { eapply metadata_rows_ok; [|exact Hrows]. intros key v Hget. discriminate Hget. }
  assert (forall key v, PyDict.get (metadata_defaults md0) key = Some v ->
                        metadata_value_ok key v) as Hall.
  { intros key v. rewrite get_metadata_defaults.
    destruct (PyDict.get md0 key) as [v0|] eqn:Hget.
    - intros [= <-]. by apply Hok.
    - apply metadata_defaults_empty_ok. }
  split; [|split].
  - intros key Hkey.
    assert (is_Some (PyDict.get (metadata_defaults md0) key)) as [v Hv].
    { rewrite get_metadata_defaults. destruct (PyDict.get md0 key); [by eexists|].
      unfold canonical_keys in Hkey.
      repeat (apply elem_of_cons in Hkey as [->|Hkey]; [by eexists|]).
      by apply elem_of_nil in Hkey. }
    exists v. split; [done|by apply Hall].
  - intros key v Hget. by destruct (Hall key v Hget).
  - unfold metadata_base_year.
    destruct (PyDict.get (metadata_defaults md0) "base_year") as [v|] eqn:Hget; [|done].
    destruct (Hall _ _ Hget) as [Hin _]. exfalso. unfold canonical_keys in Hin.
    repeat (apply elem_of_cons in Hin as [Hin|Hin]; [discriminate Hin|]).
    by apply elem_of_nil in Hin.
Qed.

Lemma metadata_rows_return (df : grid F) metadata :
  Forall (fun row => row <> []) df ->
  exists metadata', for_each df metadata_row metadata = Return metadata'.
Proof.
  revert metadata. induction df as [|row df IH]; intros md Hne; cbn -[metadata_row].
  - by eexists.
  - apply Forall_cons in Hne as [Hrow Hne].
    assert (exists m, metadata_row md row = Return m) as [m Hm].
    { destruct row as [|c0 [|c1 row]]; [done| |]; unfold metadata_row; cbn.
      - destruct (notna c0); by eexists.
      - destruct (notna c0), (notna c1); cbn; try by eexists.
        destruct (_ && _); by eexists. }
    rewrite Hm. cbn -[metadata_row]. by apply IH.
Qed.

Lemma extract_metadata_returns (wb : workbook F) (df : grid F) :
  sheet_grid wb "Parameters" = Some df ->
  Forall (fun row => row <> []) df ->
  exists metadata, extract_metadata wb = Return metadata.
Proof.
  intros Hdf Hne. unfold extract_metadata, read_excel_grid. rewrite Hdf.
  cbn -[metadata_row for_each].
  destruct (metadata_rows_return df [] Hne) as [md ->]. by eexists.
Qed.

(** X2: [extract_metadata] raises [ValueError] when the Parameters
    sheet is absent and [IndexError] at the first row without cells;
    on a sheet whose rows all have a cell it returns. *)
Theorem extract_metadata_errors (wb : workbook F) :
  (sheet_grid wb "Parameters" = None -> extract_metadata wb = Raise ValueError) /\
  (forall df, sheet_grid wb "Parameters" = Some df ->
              Forall (fun row => row <> []) df ->
              exists metadata, extract_metadata wb = Return metadata) /\
  (forall before after, sheet_grid wb "Parameters" = Some (before ++ [] :: after) ->
                        Forall (fun row => row <> []) before ->
                        extract_metadata wb = Raise IndexError).
Proof.
  split; [|split].
  - unfold extract_metadata, read_excel_grid. by intros ->.
  - apply extract_metadata_returns.
  - unfold extract_metadata, read_excel_grid.
    intros before after -> Hne. cbn -[metadata_row for_each].
    rewrite for_each_app. destruct (metadata_rows_return before [] Hne) as [md ->]. done.
Qed.

(** X3: of two rows with the same label, the later one decides the
    field: processing both leaves what processing the later one alone
    leaves, when the later value is present and truthy. *)
Theorem later_row_wins (metadata : list (string * meta_value)) (k v1 v2 : cell F)
    (rest1 rest2 : list (cell F)) :
  notna v2 = true -> truthy v2 = true ->
  (metadata' ← metadata_row metadata (k :: v1 :: rest1);
   metadata_row metadata' (k :: v2 :: rest2))
  = metadata_row metadata (k :: v2 :: rest2).
Proof.
  intros Hna Htrue. unfold metadata_row, iloc.
  cbn -[PyStr.strip PyStr.truthy metadata_rule truthy notna py_str].
  rewrite Hna, Htrue.
  destruct (notna k); [|by destruct (notna v1)].
  destruct (PyStr.truthy (PyStr.strip (py_str k))) eqn:Hk;
    destruct (notna v1); cbn -[PyStr.strip PyStr.truthy metadata_rule truthy py_str];
    rewrite ?Hk; try done.
  destruct (truthy v1); cbn -[PyStr.strip PyStr.truthy metadata_rule truthy py_str];
    [|done].
  f_equal. unfold metadata_rule.
  repeat (match goal with
          | |- context [if ?b then _ else _] => destruct b
          end; try apply set_set); done.
Qed.
End metadata_more.

Lemma extract_metadata_fields_witness :
  exists v, PyDict.get (metadata_defaults [("market_name", MStr "India Spices Market")])
              "has_volume" = Some v /\ metadata_value_ok "has_volume" v.
Proof.
  apply (proj1 (@extract_metadata_fields Q Exact.sample sample_workbook _ eq_refl)).
  unfold canonical_keys. by repeat (first [left | right]).
Defined.

Lemma extract_metadata_errors_witness :
  @extract_metadata Q Exact.sample
    {| sheet_grid := fun _ => Some [ [CText "Report Title"; CText "Spices"]; [] ];
       sheet_frame := fun _ => None |}
  = Raise IndexError.
Proof.
  apply (proj2 (proj2 (@extract_metadata_errors Q Exact.sample _))
           [ [CText "Report Title"; CText "Spices"] ] []);
    [reflexivity|]. repeat constructor. discriminate.
Defined.

Lemma later_row_wins_witness :
  (metadata' ← @metadata_row Q Exact.sample [] [CText "Value Unit"; CText "Mn"];
   metadata_row metadata' [CText "Value Unit"; CText "Cr."])
  = Return [("value_unit", MStr "Cr.")].
Proof.
  rewrite (@later_row_wins Q Exact.sample [] (CText "Value Unit") (CText "Mn")
             (CText "Cr.") [] [] eq_refl eq_refl).
  reflexivity.
Defined.

(** ** Loop invariants *)

Lemma for_each_invariant {A S} (I : S -> Prop) (xs : list A) (body : S -> A -> py S)
    (acc : S) :
  (forall acc x, x ∈ xs -> I acc -> exists acc', body acc x = Return acc' /\ I acc') ->
  I acc ->
  exists acc', for_each xs body acc = Return acc' /\ I acc'.
Proof.
  revert acc. induction xs as [|x xs IH]; intros acc Hbody Hacc; cbn.
  - by exists acc.
  - destruct (Hbody acc x) as (acc1 & -> & Hacc1); [left|done|]. cbn.
    apply IH; [|done]. intros acc2 y Hy. apply Hbody. by right.
Qed.

Lemma elem_of_range (a b i : nat) : i ∈ range a b <-> (a <= i < b)%nat.
Proof. unfold range. rewrite elem_of_seq. lia. Qed.

(** ** The geography hierarchy *)

Section geography_more.
Context {F : Type} `{PyFloat F}.

Lemma geography_cell_ok (first_row row : list (cell F)) (regions : list string) st
    (col_idx : nat) :
  (col_idx < length row)%nat ->
  geography_state_ok regions st ->
  exists st', geography_cell first_row row regions st col_idx = Return st' /\
              geography_state_ok regions st'.
Proof.
  intros Hlen Hst. destruct st as [countries all_geographies].
  unfold geography_cell, iloc.
  destruct (lookup_lt_is_Some_2 row col_idx Hlen) as [val ->].
  cbn -[PyStr.strip PyStr.truthy Nat.ltb]. destruct (notna val); [|by (eexists; split; [reflexivity|])].
  set (val_str := PyStr.strip (py_str val)).
  destruct (PyStr.truthy val_str && _); [|by (eexists; split; [reflexivity|])].
  destruct (col_idx <? length first_row)%nat eqn:Hfirst; [|by (eexists; split; [reflexivity|])].
  apply Nat.ltb_lt in Hfirst.
  destruct (lookup_lt_is_Some_2 first_row col_idx Hfirst) as [hdr ->].
  cbn -[PyStr.strip PyStr.truthy Nat.ltb]. destruct (notna hdr); [|by (eexists; split; [reflexivity|])].
  set (region := PyStr.strip (py_str hdr)).
  destruct (PyStr.truthy region) eqn:Hregion; [|by (eexists; split; [reflexivity|])].
  cbn -[PyStr.strip PyStr.truthy Nat.ltb]. case_bool_decide as Hin; [|by (eexists; split; [reflexivity|])].
  cbn -[PyStr.strip PyStr.truthy Nat.ltb]. eexists. split; [reflexivity|].
  destruct Hst as [Hkeys Hall]. cbn in Hkeys, Hall.
  assert (region <> "") as Hne by (intros Heq; by rewrite Heq in Hregion).
  set (members := default [] (PyDict.get (PyDict.setdefault countries region []) region)).
  assert (members = default [] (PyDict.get countries region)) as Hmembers.
  { unfold members. rewrite get_setdefault, decide_True by done.
    by destruct (PyDict.get countries region). }
  assert (NoDup members) as Hnd.
  { rewrite Hmembers. destruct (PyDict.get countries region) as [l|] eqn:Hl; cbn.
    - by destruct (Hkeys _ _ Hl) as (_ & _ & _ & ?).
    - constructor. }
  case_bool_decide as Hval; split; cbn.
  - intros r l. rewrite get_setdefault.
    destruct (PyDict.get countries r) as [l'|] eqn:Hr; [intros [= <-]; by apply Hkeys|].
    destruct (decide (region = r)) as [<-|]; [|done].
    rewrite Hmembers, Hr in Hval. by apply elem_of_nil in Hval.
  - intros x. rewrite elem_of_union, elem_of_singleton, Hall. split.
    + intros [->|[?|[?|(r & l & Hr & Hx)]]]; [|by left|by right; left|].
      * right. right. exists region, members. split; [|done].
        rewrite get_setdefault. rewrite Hmembers in Hval |- *.
        destruct (PyDict.get countries region); [done|]. by apply elem_of_nil in Hval.
      * right. right. exists r, l. split; [|done]. by rewrite get_setdefault, Hr.
    + intros [?|[?|(r & l & Hr & Hx)]]; [by right; left|by right; right; left|].
      right. right. right. exists r, l. split; [|done].
      rewrite get_setdefault in Hr.
      destruct (PyDict.get countries r) as [l'|] eqn:Hr'; [done|].
      destruct (decide (region = r)); [|done]. injection Hr as <-.
      by apply elem_of_nil in Hx.
  - intros r l. rewrite get_set.
    destruct (decide (region = r)) as [<-|].
    + intros [= <-]. repeat split; [done|done|by destruct members|].
      apply NoDup_app. split; [done|]. split; [|apply NoDup_singleton].
      intros x Hx ->%list_elem_of_singleton. done.
    + rewrite get_setdefault, decide_False by done.
      destruct (PyDict.get countries r) as [l'|] eqn:Hr; [|done].
      intros [= <-]. by apply Hkeys.
  - intros x. rewrite elem_of_union, elem_of_singleton, Hall. split.
    + intros [->|[?|[?|(r & l & Hr & Hx)]]]; [|by left|by right; left|].
      * right. right. exists region, (members ++ [val_str]).
        rewrite get_set_eq. split; [done|]. apply elem_of_app. right. left.
      * right. right. destruct (decide (region = r)) as [<-|Hneq].
        -- exists region, (members ++ [val_str]). rewrite get_set_eq. split; [done|].
           apply elem_of_app. left. by rewrite Hmembers, Hr.
        -- exists r, l. split; [|done].
           by rewrite get_set_ne, get_setdefault, Hr.
    + intros [?|[?|(r & l & Hr & Hx)]]; [by right; left|by right; right; left|].
      rewrite get_set in Hr. destruct (decide (region = r)) as [<-|Hneq].
      * injection Hr as <-. apply elem_of_app in Hx as [Hx|Hx];
          [|apply list_elem_of_singleton in Hx as ->; by left].
        right. right. right. exists region, members. split; [|done].
        rewrite Hmembers in Hx |- *.
        destruct (PyDict.get countries region); [done|]. by apply elem_of_nil in Hx.
      * rewrite get_setdefault, decide_False in Hr by done.
        destruct (PyDict.get countries r) as [l'|] eqn:Hr'; [|done]. injection Hr as <-.
        right. right. right. by exists r, l'.
Qed.

(** The two nested loops return on every sheet and keep the state well formed. *)
Lemma geography_rows_ok (df : grid F) (first_row : list (cell F)) (regions : list string)
    st :
  geography_state_ok regions st ->
  exists st',
    for_each (range 1 (length df))
      (fun st idx =>
         row ← iloc_row df idx;
         for_each (range 1 (length row)) (geography_cell first_row row regions) st)
      st = Return st' /\
    geography_state_ok regions st'.
Proof.
  apply for_each_invariant. intros acc idx [_ Hidx]%elem_of_range Hacc.
  cbn beta. unfold iloc_row, grid in *. destruct (lookup_lt_is_Some_2 df idx Hidx) as [row ->]. cbn.
  apply for_each_invariant; [|done].
  intros acc' col_idx [_ Hcol]%elem_of_range Hacc'. by apply geography_cell_ok.
Qed.
Lemma geography_initial_ok (regions : list string) :
  geography_state_ok regions
    ([], (list_to_set regions ∪ list_to_set ["India"] : gset string)).
Proof.
  split; cbn; [intros r l Hx; discriminate Hx|].
  intros x.
  rewrite elem_of_union, elem_of_list_to_set, elem_of_union, elem_of_singleton. split.
  - intros [?|[?|Hx]]; [by right; left|by left|by apply elem_of_empty in Hx].
  - intros [?|[?|(r & l & Hr & _)]]; [by right; left|by left|discriminate Hr].
Qed.

(** Regions, the keys of [countries] and the members of
    [all_geographies] of an extracted hierarchy. *)
Lemma extract_geography_hierarchy_members (wb : workbook F) (g : geography_hierarchy) :
  extract_geography_hierarchy wb = Return g ->
  ("India" ∉ geo_regions g) /\
  (forall r l, PyDict.get (geo_countries g) r = Some l ->
               r ∈ geo_regions g /\ r <> "" /\ l <> [] /\ NoDup l) /\
  (forall x, x ∈ geo_all_geographies g <->
             x = "India" \/ x ∈ geo_regions g \/
             exists r l, PyDict.get (geo_countries g) r = Some l /\ x ∈ l).
Proof.
  unfold extract_geography_hierarchy.
  destruct (read_excel_grid wb "Region") as [e|df]; cbn -[for_each range Nat.ltb list_to_set];
    [intros Hx; discriminate Hx|].
  set (regions := if (0 <? length df)%nat then _ else _).
  destruct (geography_rows_ok df (default [] (head df)) regions _
              (geography_initial_ok regions)) as ([countries all_geographies] & -> & Hok).
  cbn. intros [= <-]. cbn. destruct Hok as [Hkeys Hall]. cbn in Hkeys, Hall.
  split; [|split; [exact Hkeys|]].
  - subst regions. destruct (0 <? length df)%nat; [|apply not_elem_of_nil].
    intros [Hne _]%list_elem_of_filter. done.
  - intros x. rewrite merge_sort_Permutation, elem_of_elements. apply Hall.
Qed.

(** X4: in the hierarchy [extract_geography_hierarchy] returns, India
    is not a region; every key of [countries] is a non-empty region
    name and its list is non-empty and free of duplicates; and
    [all_geographies] is ascending, free of duplicates, and holds
    exactly India, the regions and the names listed under the
    regions. *)
Theorem geography_invariants (wb : workbook F) (g : geography_hierarchy) :
  extract_geography_hierarchy wb = Return g ->
  ("India" ∉ geo_regions g) /\
  (forall r l, PyDict.get (geo_countries g) r = Some l ->
               r ∈ geo_regions g /\ r <> "" /\ l <> [] /\ NoDup l) /\
  StronglySorted String.le (geo_all_geographies g) /\
  NoDup (geo_all_geographies g) /\
  (forall x, x ∈ geo_all_geographies g <->
             x = "India" \/ x ∈ geo_regions g \/
             exists r l, PyDict.get (geo_countries g) r = Some l /\ x ∈ l).
Proof.
  intros Hg.
  destruct (extract_geography_hierarchy_members wb g Hg) as (Hindia & Hkeys & Hall).
  split; [done|]. split; [done|]. split; [|split; [|done]]; revert Hg;
    unfold extract_geography_hierarchy;
    (destruct (read_excel_grid wb "Region") as [e|df];
     cbn -[for_each range Nat.ltb list_to_set]; [intros Hx; discriminate Hx|]);
    (destruct (for_each _ _ _) as [e|[countries all_geographies]]; cbn;
     [intros Hx; discriminate Hx|]);
    intros [= <-]; cbn.
  - apply StronglySorted_merge_sort; apply _.
  - rewrite merge_sort_Permutation. apply NoDup_elements.
Qed.

Lemma extract_geography_hierarchy_returns (wb : workbook F) (df : grid F) :
  sheet_grid wb "Region" = Some df ->
  exists g, extract_geography_hierarchy wb = Return g.
Proof.
  unfold extract_geography_hierarchy, read_excel_grid.
  intros ->. cbn -[for_each range Nat.ltb list_to_set].
  set (regions := if (0 <? length df)%nat then _ else _).
  destruct (geography_rows_ok df (default [] (head df)) regions _
              (geography_initial_ok regions)) as ([countries all_geographies] & -> & _).
  by eexists.
Qed.

(** X5: [extract_geography_hierarchy] raises [ValueError] when the
    Region sheet is absent and returns on every sheet that is present,
    ragged rows included; a sheet without rows gives India alone. *)
Theorem geography_errors (wb : workbook F) :
  (sheet_grid wb "Region" = None -> extract_geography_hierarchy wb = Raise ValueError) /\
  (forall df, sheet_grid wb "Region" = Some df ->
              exists g, extract_geography_hierarchy wb = Return g) /\
  (sheet_grid wb "Region" = Some [] ->
   extract_geography_hierarchy wb =
   Return {| geo_global := ["India"]; geo_regions := []; geo_countries := [];
             geo_all_geographies := ["India"] |}).
Proof.
  split; [|split].
  - unfold extract_geography_hierarchy, read_excel_grid. by intros ->.
  - apply extract_geography_hierarchy_returns.
  - unfold extract_geography_hierarchy, read_excel_grid. intros ->. reflexivity.
Qed.
End geography_more.

Lemma geography_invariants_witness :
  ("India" ∉ ["North India"; "South India"]) /\
  (forall r l, PyDict.get [("North India", ["Punjab"])] r = Some l ->
               r ∈ ["North India"; "South India"] /\ r <> "" /\ l <> [] /\ NoDup l) /\
  StronglySorted String.le ["India"; "North India"; "Punjab"; "South India"] /\
  NoDup ["India"; "North India"; "Punjab"; "South India"] /\
  (forall x, x ∈ ["India"; "North India"; "Punjab"; "South India"] <->
             x = "India" \/ x ∈ ["North India"; "South India"] \/
             exists r l, PyDict.get [("North India", ["Punjab"])] r = Some l /\ x ∈ l).
Proof.
  apply (@geography_invariants Q Exact.sample sample_workbook sample_geographies).
  vm_compute. reflexivity.
Defined.

Lemma geography_errors_witness :
  exists g, @extract_geography_hierarchy Q Exact.sample sample_workbook = Return g.
Proof.
  apply (proj1 (proj2 (@geography_errors Q Exact.sample sample_workbook))
           [ [CText "India"; CText "North India"; CText "South India"];
             [CEmpty; CText "Punjab"; CEmpty] ]).
  reflexivity.
Defined.

(** ** The segment hierarchy *)

Lemma for_each_preserves {A S} (I : S -> Prop) (xs : list A) (body : S -> A -> py S)
    (acc acc' : S) :
  (forall acc x acc', x ∈ xs -> I acc -> body acc x = Return acc' -> I acc') ->
  I acc -> for_each xs body acc = Return acc' -> I acc'.
Proof.
  revert acc. induction xs as [|x xs IH]; intros acc Hbody Hacc; cbn.
  - by intros [= <-].
  - destruct (body acc x) as [e|acc1] eqn:Hx; cbn; [intros Hr; discriminate Hr|].
    apply IH.
    + intros acc2 y acc3 Hy. apply Hbody. by right.
    + eapply Hbody; [left|done|done].
Qed.

Lemma get_hierarchy_append hierarchy parent clean_item p :
  PyDict.get (hierarchy_append hierarchy parent clean_item) p =
  if decide (parent = p)
  then Some (default [] (PyDict.get hierarchy parent) ++ [clean_item])
  else PyDict.get hierarchy p.
Proof.
  unfold hierarchy_append.
  destruct (PyDict.get hierarchy parent) as [children|] eqn:Hp; by rewrite get_set.
Qed.

Section segment_more.
Context {F : Type} `{PyFloat F}.

Lemma segment_row_ok (df : grid F) (col_idx : nat) st (row_idx : nat) st' :
  segment_state_ok st -> segment_row df col_idx st row_idx = Return st' ->
  segment_state_ok st'.
Proof.
  intros Hst. destruct st as [items hierarchy]. unfold segment_row.
  destruct (iloc2 df row_idx col_idx) as [e|cell_value];
    cbn -[PyStr.strip PyStr.truthy PyStr.startswith PyStr.lstrip_char PyStr.count_char Nat.ltb];
    [intros Hx; discriminate Hx|].
  destruct (notna cell_value); [|by intros [= <-]].
  set (item := PyStr.strip (py_str cell_value)).
  destruct (PyStr.truthy item && _); [|by intros [= <-]].
  set (clean_item := PyStr.strip (PyStr.lstrip_char ">" item)).
  destruct (PyStr.truthy clean_item) eqn:Hclean; [|by intros [= <-]].
  assert (clean_item <> "") as Hne by (intros Heq; by rewrite Heq in Hclean).
  destruct Hst as [Hitems Hh]. cbn in Hitems, Hh.
  assert (segment_state_ok (items ++ [clean_item], hierarchy)) as Hsame.
  { split; cbn.
    - rewrite elem_of_app, list_elem_of_singleton. intros [?|?]; done.
    - intros p cs Hp. destruct (Hh p cs Hp) as (? & ? & Hcs).
      repeat split; [done|done|]. intros c Hc. apply elem_of_app. left. by apply Hcs. }
  destruct (0 <? PyStr.count_char ">" item)%nat; [|by intros [= <-]].
  destruct (find_parent df col_idx _ row_idx) as [e|[p|]];
    cbn -[PyStr.truthy]; [intros Hx; discriminate Hx| |by intros [= <-]].
  destruct (PyStr.truthy p) eqn:Hp; [|by intros [= <-]].
  intros [= <-]. split; cbn.
  - apply Hsame.
  - intros p' cs. rewrite get_hierarchy_append.
    destruct (decide (p = p')) as [<-|].
    + intros [= <-]. split; [intros Heq; by rewrite Heq in Hp|].
      split; [by destruct (default [] _)|].
      intros c [Hc|Hc]%elem_of_app.
      * destruct (PyDict.get hierarchy p) as [l|] eqn:Hl; cbn in Hc.
        -- apply elem_of_app. left. by apply (Hh p l).
        -- by apply elem_of_nil in Hc.
      * apply elem_of_app. by right.
    + intros Hp'. by apply (proj2 Hsame).
Qed.

Lemma segment_column_ok (df : grid F) (col_idx : nat) info :
  segment_column df col_idx = Return info -> segment_info_ok info.
Proof.
  unfold segment_column.
  destruct (for_each _ _ _) as [e|[items hierarchy]] eqn:Hloop; cbn;
    [intros Hx; discriminate Hx|].
  intros [= <-]. cbn.
  assert (segment_state_ok (items, hierarchy)) as [Hitems Hh].
  { eapply (for_each_preserves segment_state_ok); [| |exact Hloop].
    - intros acc x acc' _. apply segment_row_ok.
    - split; cbn; [apply not_elem_of_nil|]. intros p cs Hx. discriminate Hx. }
  cbn in Hitems, Hh. split; [|split; [|split]].
  - destruct hierarchy; cbn; split; done.
  - destruct hierarchy; cbn; split; done.
  - intros Hx. apply Hitems. by apply (elem_of_list_to_set (C:=gset string)).
  - intros p cs Hp. destruct (Hh p cs Hp) as (? & ? & Hcs).
    repeat split; [done|done|]. intros c Hc.
    apply (elem_of_list_to_set (C:=gset string)). by apply Hcs.
Qed.

(** X6: every entry [extract_segment_hierarchy] returns has a
    non-empty name other than "Segmentation"; its type is
    "hierarchical" exactly when its hierarchy is non-empty and "flat"
    otherwise; no item is the empty string; every parent in the
    hierarchy is non-empty and has at least one child, and every
    child is one of the items. *)
Theorem segment_invariants (wb : workbook F) (segments : list (string * segment_info)) :
  extract_segment_hierarchy wb = Return segments ->
  forall name info, PyDict.get segments name = Some info ->
    name <> "" /\ name <> "Segmentation" /\ segment_info_ok info.
Proof.
  unfold extract_segment_hierarchy.
  destruct (read_excel_grid wb "Segmentation") as [e|df];
    cbn -[for_each enumerate Nat.ltb segment_column PyStr.strip PyStr.truthy];
    [intros Hx; discriminate Hx|].
  destruct (0 <? length df)%nat.
  2:{ intros [= <-] name info Hx. discriminate Hx. }
  apply (for_each_preserves
           (fun segments => forall name info, PyDict.get segments name = Some info ->
              name <> "" /\ name <> "Segmentation" /\ segment_info_ok info)).
  - intros acc [idx name] acc' _ Hacc.
    destruct (PyStr.truthy name) eqn:Hname; cbn -[segment_column]; [|by intros [= <-]].
    case_bool_decide as Hseg; [by intros [= <-]|].
    destruct (segment_column df (idx + 1)) as [e|info] eqn:Hcol; cbn;
      [intros Hx; discriminate Hx|].
    intros [= <-] name' info'. rewrite get_set.
    destruct (decide (name = name')) as [<-|]; [|apply Hacc].
    intros [= <-]. split; [intros Heq; by rewrite Heq in Hname|].
    split; [done|]. by eapply segment_column_ok.
  - intros name info Hx. discriminate Hx.
Qed.
(** X7: the upward scan for a parent goes up to row 0, so a marked
    label with no unmarked label above it is attached to the column's
    header cell: on a sheet of a header row and one data row the
    hierarchy maps the header text to the label. *)
Theorem header_becomes_parent (hrow row1 : list (cell F)) (col_idx : nat)
    (name s : string) :
  hrow !! col_idx = Some (CText name) ->
  row1 !! col_idx = Some (CText s) ->
  PyStr.count_char ">" (PyStr.strip name) = 0%nat ->
  PyStr.truthy (PyStr.strip (PyStr.lstrip_char ">" (PyStr.strip name))) = true ->
  (0 < PyStr.count_char ">" (PyStr.strip s))%nat ->
  PyStr.startswith "Segmentation" (PyStr.strip s) = false ->
  PyStr.truthy (PyStr.strip (PyStr.lstrip_char ">" (PyStr.strip s))) = true ->
  segment_column [hrow; row1] col_idx =
  Return {| seg_type := "hierarchical";
            seg_items := list_to_set [PyStr.strip (PyStr.lstrip_char ">" (PyStr.strip s))];
            seg_hierarchy :=
              [ (PyStr.strip (PyStr.lstrip_char ">" (PyStr.strip name)),
                 [PyStr.strip (PyStr.lstrip_char ">" (PyStr.strip s))]) ] |}.
Proof.
  intros Hhdr Hrow Hlevel0 Hparent Hlevel Hseg Hclean.
  assert (PyStr.truthy (PyStr.strip s) = true) as Hitem.
  { destruct (PyStr.strip s); [cbn in Hlevel; lia|done]. }
  unfold segment_column, range. cbn [length Nat.sub seq for_each].
  unfold segment_row, iloc2, iloc_row, iloc.
  cbn -[PyStr.strip PyStr.truthy PyStr.startswith PyStr.lstrip_char PyStr.count_char
        Nat.ltb list_to_set].
  rewrite Hrow.
  cbn -[PyStr.strip PyStr.truthy PyStr.startswith PyStr.lstrip_char PyStr.count_char
        Nat.ltb list_to_set].
  rewrite Hitem, Hseg, Hclean.
  replace (0 <? PyStr.count_char ">" (PyStr.strip s))%nat with true
    by (symmetry; by apply Nat.ltb_lt).
  unfold iloc2, iloc_row, iloc.
  cbn -[PyStr.strip PyStr.truthy PyStr.startswith PyStr.lstrip_char PyStr.count_char
        Nat.ltb list_to_set].
  rewrite Hhdr.
  cbn -[PyStr.strip PyStr.truthy PyStr.startswith PyStr.lstrip_char PyStr.count_char
        Nat.ltb list_to_set].
  rewrite Hlevel0.
  replace (0 <? PyStr.count_char ">" (PyStr.strip s))%nat with true
    by (symmetry; by apply Nat.ltb_lt).
  cbn -[PyStr.strip PyStr.truthy PyStr.startswith PyStr.lstrip_char PyStr.count_char
        Nat.ltb list_to_set].
  rewrite Hparent. reflexivity.
Qed.

Lemma filter_notna_blanks (blanks cells : list (cell F)) :
  Forall (fun c => c = CEmpty) blanks ->
  filter (fun x => notna x = true) (blanks ++ cells) = filter (fun x => notna x = true) cells.
Proof.
  induction 1 as [|c blanks -> _ IH]; [done|].
  cbn [app]. rewrite filter_cons, decide_False by done. exact IH.
Qed.

(** X8: segment types are numbered after the empty header cells have
    been dropped, and the number is used as the column: a type whose
    header follows empty header cells is read from column 1, not from
    the column its header stands in. *)
Theorem blank_header_shifts_columns (wb : workbook F) (c0 : cell F)
    (blanks : list (cell F)) (name : string) (rows : grid F) :
  sheet_grid wb "Segmentation" = Some ((c0 :: blanks ++ [CText name]) :: rows) ->
  Forall (fun c => c = CEmpty) blanks ->
  PyStr.truthy (PyStr.strip name) = true ->
  PyStr.strip name <> "Segmentation" ->
  extract_segment_hierarchy wb =
  (info ← segment_column ((c0 :: blanks ++ [CText name]) :: rows) 1;
   Return [(PyStr.strip name, info)]).
Proof.
  intros Hsheet Hblanks Hname Hne.
  unfold extract_segment_hierarchy, read_excel_grid. rewrite Hsheet.
  cbn -[PyStr.strip PyStr.truthy segment_column filter].
  rewrite drop_0, filter_notna_blanks by done.
  cbn -[PyStr.strip PyStr.truthy segment_column].
  rewrite decide_True by done.
  cbn -[PyStr.strip PyStr.truthy segment_column].
  rewrite Hname, bool_decide_false by done.
  cbn -[PyStr.strip PyStr.truthy segment_column].
  by destruct (segment_column _ 1).
Qed.
Lemma iloc2_returns (df : grid F) (r c : nat) :
  (r < length df)%nat -> Forall (fun row => (c < length row)%nat) df ->
  exists v, iloc2 df r c = Return v.
Proof.
  intros Hr Hc. unfold iloc2, iloc_row, iloc, grid in *.
  destruct (lookup_lt_is_Some_2 df r Hr) as [row Hrow]. rewrite Hrow. cbn.
  rewrite Forall_forall in Hc.
  destruct (lookup_lt_is_Some_2 row c) as [v ->]; [|by eexists].
  apply Hc. apply list_elem_of_lookup. by exists r.
Qed.

Lemma find_parent_returns (df : grid F) (col_idx level row_idx : nat) :
  (row_idx <= length df)%nat -> Forall (fun row => (col_idx < length row)%nat) df ->
  exists p, find_parent df col_idx level row_idx = Return p.
Proof.
  intros Hr Hc. induction row_idx as [|prev_idx IH]; cbn -[PyStr.strip Nat.ltb];
    [by eexists|].
  destruct (iloc2_returns df prev_idx col_idx) as [v ->]; [lia|done|].
  cbn -[PyStr.strip Nat.ltb].
  destruct (notna v); [|apply IH; lia].
  destruct (_ <? _)%nat; [by eexists|apply IH; lia].
Qed.

Lemma segment_column_returns (df : grid F) (col_idx : nat) :
  Forall (fun row => (col_idx < length row)%nat) df ->
  exists info, segment_column df col_idx = Return info.
Proof.
  intros Hc. unfold segment_column.
  destruct (for_each_invariant (fun _ => True) (range 1 (length df))
              (segment_row df col_idx) ([], [])) as ([items hierarchy] & -> & _);
    [|done|by eexists].
  intros [items hierarchy] row_idx [_ Hr]%elem_of_range _. unfold segment_row.
  destruct (iloc2_returns df row_idx col_idx) as [v ->]; [done|done|].
  cbn -[PyStr.strip PyStr.truthy PyStr.startswith Nat.ltb].
  destruct (notna v); [|by eexists].
  destruct (_ && _); [|by eexists].
  destruct (PyStr.truthy _); [|by eexists].
  destruct (_ <? _)%nat; [|by eexists].
  destruct (find_parent_returns df col_idx
              (PyStr.count_char ">" (PyStr.strip (py_str v))) row_idx) as [p ->];
    [lia|done|].
  cbn -[PyStr.truthy]. destruct p as [p|]; [|by eexists].
  destruct (PyStr.truthy p); by eexists.
Qed.

Lemma elem_of_enumerate {A} (l : list A) (i : nat) (x : A) :
  (i, x) ∈ enumerate l -> (i < length l)%nat.
Proof.
  unfold enumerate.
  assert (forall a, (i, x) ∈ combine (seq a (length l)) l -> (i < a + length l)%nat)
    as Hgen; [|apply Hgen].
  induction l as [|y l IH]; intros a; cbn.
  - intros Hin. by apply elem_of_nil in Hin.
  - intros [[= -> ->]|Hin]%elem_of_cons; [lia|]. apply IH in Hin. lia.
Qed.

Lemma extract_segment_hierarchy_returns (wb : workbook F) (df : grid F) :
  sheet_grid wb "Segmentation" = Some df -> rectangular df ->
  exists segments, extract_segment_hierarchy wb = Return segments.
Proof.
  unfold extract_segment_hierarchy, read_excel_grid.
  intros -> Hrect.
  cbn -[for_each enumerate Nat.ltb segment_column PyStr.strip PyStr.truthy filter].
  destruct (0 <? length df)%nat; [|by eexists].
  set (segment_types := map _ _).
  assert (length segment_types < length (default [] (head df)) \/
          length segment_types = 0)%nat as Hlen.
  { subst segment_types. rewrite length_map.
    pose proof (length_filter (fun x : cell F => notna x = true) (first_row_tail df))
      as Hle.
    unfold first_row_tail in *. destruct df as [|row df]; cbn in *; [by right|].
    rewrite length_drop in Hle. destruct row; cbn in *; [right|left]; lia. }
  destruct (for_each_invariant (fun _ => True) (enumerate segment_types)
              (fun (segments : list (string * segment_info)) '(seg_type_idx, seg_type) =>
                 if negb (PyStr.truthy seg_type) || bool_decide (seg_type = "Segmentation")
                 then Return segments
                 else info ← segment_column df (seg_type_idx + 1);
                      Return (PyDict.set segments seg_type info)) [])
    as (segments & -> & _); [|done|by eexists].
  intros acc [idx name] Hin%elem_of_enumerate _.
  destruct (_ || _); [by eexists|].
  destruct (segment_column_returns df (idx + 1)) as [info ->]; [|by eexists].
  eapply Forall_impl; [exact Hrect|]. cbn. intros row ->. lia.
Qed.

(** X9: [extract_segment_hierarchy] raises [ValueError] when the
    Segmentation sheet is absent, returns no entry for a sheet without
    rows, and returns on every sheet whose rows are as long as its
    first row. *)
Theorem segment_errors (wb : workbook F) :
  (sheet_grid wb "Segmentation" = None ->
   extract_segment_hierarchy wb = Raise ValueError) /\
  (sheet_grid wb "Segmentation" = Some [] -> extract_segment_hierarchy wb = Return []) /\
  (forall df, sheet_grid wb "Segmentation" = Some df -> rectangular df ->
              exists segments, extract_segment_hierarchy wb = Return segments).
Proof.
  split; [|split].
  - unfold extract_segment_hierarchy, read_excel_grid. by intros ->.
  - unfold extract_segment_hierarchy, read_excel_grid. by intros ->.
  - apply extract_segment_hierarchy_returns.
Qed.
End segment_more.

Lemma segment_invariants_witness :
  "By Type" <> "" /\ "By Type" <> "Segmentation" /\
  segment_info_ok {| seg_type := "hierarchical";
                     seg_items := list_to_set ["A"; "B"; "C"; "D"];
                     seg_hierarchy := [("A", ["B"; "D"]); ("B", ["C"])] |}.
Proof.
  apply (@segment_invariants Q Exact.sample sample_workbook
           [("By Type",
             {| seg_type := "hierarchical";
                seg_items := list_to_set ["A"; "B"; "C"; "D"];
                seg_hierarchy := [("A", ["B"; "D"]); ("B", ["C"])] |})]).
  - vm_compute. reflexivity.
  - reflexivity.
Defined.

Lemma header_becomes_parent_witness :
  @segment_column Q Exact.sample
    [ [CText "Segmentation"; CText "By Type"]; [CEmpty; CText ">Whole"] ] 1 =
  Return {| seg_type := "hierarchical";
            seg_items := list_to_set ["Whole"];
            seg_hierarchy := [("By Type", ["Whole"])] |}.
Proof.
  apply (@header_becomes_parent Q Exact.sample [CText "Segmentation"; CText "By Type"]
           [CEmpty; CText ">Whole"] 1 "By Type" ">Whole");
    reflexivity || (vm_compute; lia).
Defined.

Lemma blank_header_shifts_columns_witness :
  extract_segment_hierarchy sample_shifted
  = Return [("By Type", {| seg_type := "flat"; seg_items := ∅; seg_hierarchy := [] |})].
Proof.
  rewrite (@blank_header_shifts_columns Q Exact.sample sample_shifted
             (CText "Segmentation") [CEmpty] "By Type"
             [ [CEmpty; CEmpty; CText "Whole"]; [CEmpty; CEmpty; CText "Ground"] ]);
    [reflexivity | reflexivity | by repeat constructor | reflexivity | discriminate].
Defined.

Lemma segment_errors_witness :
  exists segments, extract_segment_hierarchy sample_shifted = Return segments.
Proof.
  apply (proj2 (proj2 (@segment_errors Q Exact.sample sample_shifted))
           [ [CText "Segmentation"; CEmpty; CText "By Type"];
             [CEmpty; CEmpty; CText "Whole"];
             [CEmpty; CEmpty; CText "Ground"] ]);
    [reflexivity|]. by repeat constructor.
Defined.

(** ** Data records *)

Section record_more.
Context {F : Type} `{PyFloat F}.

Lemma compute_cagr_returns (year_columns : list Z) (ts : list (Z * F)) :
  exists c, compute_cagr year_columns ts = Return c.
Proof.
  unfold compute_cagr. destruct year_columns as [|y l]; cbn; [by eexists|].
  destruct (_ && _); cbn; [|by eexists].
  destruct (_ && _); [|by eexists]. destruct (0 <? _); by eexists.
Qed.

Lemma length_omap_le {A B} (f : A -> option B) (l : list A) :
  (length (omap f l) <= length l)%nat.
Proof.
  induction l as [|x l IH]; cbn; [done|]. destruct (f x); cbn; lia.
Qed.

(** A row yields a record exactly when its geography is not empty,
    and never raises. *)
Lemma data_row_returns geographies (cols : list (cell F)) year_columns
    (row : list (cell F)) :
  exists o,
    data_row geographies cols year_columns row = Return o /\
    geography <$> o = row_geography cols row /\
    (forall r, o = Some r -> market_share r = fzero).
Proof.
  unfold data_row, row_geography, str_truthy.
  destruct (text_field cols row "Geography") as [geo|]; cbn -[PyStr.truthy];
    [|by eexists].
  destruct (PyStr.truthy geo); cbn; [|by eexists].
  destruct (extract_time_series_total cols row year_columns) as (ts & -> & _). cbn.
  destruct (compute_cagr_returns year_columns ts) as [c ->]. cbn.
  destruct (resolve_geography geographies geo) as [level parent].
  eexists. split; [reflexivity|]. split; [done|]. by intros r [= <-].
Qed.

Lemma data_rows_return geographies (cols : list (cell F)) year_columns
    (rows : list (list (cell F))) acc :
  exists new,
    for_each rows
      (fun records row =>
         r ← data_row geographies cols year_columns row;
         Return (match r with Some r => records ++ [r] | None => records end))
      acc = Return (acc ++ new) /\
    map geography new = omap (row_geography cols) rows /\
    Forall (fun r => market_share r = fzero) new.
Proof.
  revert acc. induction rows as [|row rows IH]; intros acc; cbn -[data_row].
  - exists []. by rewrite app_nil_r.
  - destruct (data_row_returns geographies cols year_columns row)
      as (o & -> & Hgeo & Hshare).
    cbn -[data_row]. rewrite <- Hgeo. destruct o as [r|]; cbn -[data_row].
    + destruct (IH (acc ++ [r])) as (new & -> & Hnew & Hzero).
      exists (r :: new). rewrite <- app_assoc. cbn. rewrite Hnew.
      split; [done|]. split; [done|]. constructor; [by apply Hshare|done].
    + destruct (IH acc) as (new & -> & Hnew & Hzero). by exists new.
Qed.

Lemma assign_market_share_geography metadata year_columns (records : list (data_record F)) :
  map geography (assign_market_share metadata year_columns records) = map geography records.
Proof.
  pose proof (assign_market_share_fields metadata year_columns records) as Hf.
  induction Hf as [|r r0 l l0 -> _ IH]; cbn; [done|]. by rewrite IH.
Qed.

Lemma extract_data_records_returns (wb : workbook F) (sheet_name : string)
    (metadata : list (string * meta_value)) (geographies : option geography_hierarchy)
    (df : frame F) :
  sheet_frame wb sheet_name = Some df ->
  exists recs, extract_data_records wb sheet_name metadata geographies = Return recs.
Proof.
  unfold extract_data_records, read_excel_frame. intros ->. cbn -[data_row].
  destruct (data_rows_return geographies (columns df) (year_columns_of (columns df))
              (data df) []) as (new & -> & _). by eexists.
Qed.

(** X10: [extract_data_records] raises [ValueError] when its sheet is
    absent and never raises otherwise; its records follow the rows in
    order, one for each row whose Geography cell has non-blank text,
    under that text trimmed. *)
Theorem records_follow_rows (wb : workbook F) (sheet_name : string)
    (metadata : list (string * meta_value)) (geographies : option geography_hierarchy) :
  (sheet_frame wb sheet_name = None ->
   extract_data_records wb sheet_name metadata geographies = Raise ValueError) /\
  (forall df, sheet_frame wb sheet_name = Some df ->
     exists recs,
       extract_data_records wb sheet_name metadata geographies = Return recs /\
       map geography recs = omap (row_geography (columns df)) (data df) /\
       (length recs <= length (data df))%nat).
Proof.
  unfold extract_data_records, read_excel_frame. split; [by intros ->|].
  intros df ->. cbn -[data_row].
  destruct (data_rows_return geographies (columns df) (year_columns_of (columns df))
              (data df) []) as (new & -> & Hgeo & _).
  cbn. eexists. split; [reflexivity|].
  rewrite assign_market_share_geography. split; [done|].
  rewrite <- (length_map geography), assign_market_share_geography, Hgeo.
  apply length_omap_le.
Qed.

(** X11: when the base year is not one of the sheet's year columns
    (or the metadata's [base_year] is not an integer), the second pass
    assigns nothing and every record keeps the market share 0.0. *)
Theorem market_share_untouched (wb : workbook F) (sheet_name : string)
    (metadata : list (string * meta_value)) (geographies : option geography_hierarchy)
    (df : frame F) (recs : list (data_record F)) :
  sheet_frame wb sheet_name = Some df ->
  extract_data_records wb sheet_name metadata geographies = Return recs ->
  (forall base, metadata_base_year metadata = Some base ->
                base ∉ year_columns_of (columns df)) ->
  forall r, r ∈ recs -> market_share r = fzero.
Proof.
  intros Hdf. unfold extract_data_records, read_excel_frame. rewrite Hdf. cbn -[data_row].
  destruct (data_rows_return geographies (columns df) (year_columns_of (columns df))
              (data df) []) as (new & -> & _ & Hzero).
  cbn. intros [= <-] Hbase r. unfold assign_market_share.
  destruct (metadata_base_year metadata) as [base|].
  - rewrite bool_decide_false by (by apply Hbase).
    rewrite Forall_forall in Hzero. apply Hzero.
  - rewrite Forall_forall in Hzero. apply Hzero.
Qed.
End record_more.

Lemma records_follow_rows_witness :
  exists recs,
    extract_data_records sample_workbook "Master Sheet-Value" [] (Some sample_geographies)
      = Return recs /\
    map geography recs = ["India"; "North India"; "Punjab"; "Atlantis"] /\
    (length recs <= 4)%nat.
Proof.
  apply (proj2 (@records_follow_rows Q Exact.sample sample_workbook "Master Sheet-Value" []
                  (Some sample_geographies)) sample_master).
  reflexivity.
Defined.

Lemma market_share_untouched_witness :
  Forall (fun r => market_share r = 0%Q) sample_records_2030.
Proof.
  apply Forall_forall.
  apply (@market_share_untouched Q Exact.sample sample_workbook "Master Sheet-Value"
           [("base_year", MInt 2030)] None sample_master sample_records_2030);
    [reflexivity | vm_compute; reflexivity |].
  intros base [= <-]. vm_compute.
  intros Hin. apply elem_of_cons in Hin as [Hin|Hin]; [discriminate Hin|].
  apply list_elem_of_singleton in Hin. discriminate Hin.
Defined.

Section record_fields.
Context {F : Type} `{PyFloat F}.

Lemma elem_of_year_columns_of (cols : list (cell F)) (y : Z) :
  y ∈ year_columns_of cols <->
  2000 <= y <= 2100 /\ exists c, c ∈ cols /\ py_int c = Return y.
Proof.
  unfold year_columns_of. rewrite merge_sort_Permutation.
  induction cols as [|c cols IH]; cbn.
  - split; [intros Hin; by apply elem_of_nil in Hin|].
    intros (_ & c & Hc & _). by apply elem_of_nil in Hc.
  - rewrite elem_of_app, IH. unfold year_of_column. split.
    + intros [Hy|(Hr & c' & Hc' & Hint)].
      * destruct (py_int c) as [e|year] eqn:Hint; [by apply elem_of_nil in Hy|].
        destruct ((2000 <=? year) && (year <=? 2100)) eqn:Hr;
          [|by apply elem_of_nil in Hy].
        apply list_elem_of_singleton in Hy as ->.
        apply andb_true_iff in Hr as [?%Z.leb_le ?%Z.leb_le].
        split; [lia|]. exists c. split; [left|done].
      * split; [done|]. exists c'. split; [by right|done].
    + intros (Hr & c' & [->|Hc']%elem_of_cons & Hint).
      * left. rewrite Hint.
        replace ((2000 <=? y) && (y <=? 2100)) with true; [left|].
        symmetry. apply andb_true_iff. split; apply Z.leb_le; lia.
      * right. split; [done|]. by exists c'.
Qed.

Lemma extract_time_series_NoDup (cols row : list (cell F)) (year_columns : list Z) ts :
  extract_time_series cols row year_columns = Return ts -> NoDup (PyDict.keys ts).
Proof.
  unfold extract_time_series.
  apply (for_each_preserves (fun ts : list (Z * F) => NoDup (PyDict.keys ts))).
  - intros acc y acc' _ Hacc. rewrite time_series_entry_returns. cbn.
    intros [= <-]. by apply NoDup_keys_set.
  - constructor.
Qed.

(** X12: the keys of a record's time series are, each once, exactly
    the integers from 2000 to 2100 that [int()] makes of some column
    label of the sheet; the list of year columns is ascending. *)
Theorem time_series_keys (wb : workbook F) (sheet_name : string)
    (metadata : list (string * meta_value)) (geographies : option geography_hierarchy)
    (df : frame F) (recs : list (data_record F)) (r : data_record F) :
  sheet_frame wb sheet_name = Some df ->
  extract_data_records wb sheet_name metadata geographies = Return recs ->
  r ∈ recs ->
  StronglySorted Z.le (year_columns_of (columns df)) /\
  NoDup (PyDict.keys (time_series r)) /\
  (forall y, y ∈ PyDict.keys (time_series r) <->
             2000 <= y <= 2100 /\ exists c, c ∈ columns df /\ py_int c = Return y).
Proof.
  intros Hdf Hrecs Hr.
  destruct (record_time_series _ _ _ _ _ _ Hrecs Hr) as (df' & row & Hdf' & _ & Hts & _).
  rewrite Hdf in Hdf'. injection Hdf' as <-.
  split; [apply StronglySorted_merge_sort; apply _|].
  split; [by eapply extract_time_series_NoDup|].
  intros y. rewrite <- elem_of_year_columns_of, <- get_Some_keys.
  destruct (extract_time_series_total (columns df) row (year_columns_of (columns df)))
    as (ts & Hts' & Hin & Hout).
  rewrite Hts in Hts'. injection Hts' as <-.
  destruct (decide (y ∈ year_columns_of (columns df))) as [Hy|Hy].
  - rewrite (Hin y Hy). split; [done|by eexists].
  - rewrite (Hout y Hy). split; [intros [? Hx]; discriminate Hx|done].
Qed.

(** X13: what a record says about its segment is consistent: its
    [segment_type] is level 1 of its [segment_hierarchy]; its
    [segment_level] is "parent" when level 3 or level 4 is not empty
    and "leaf" otherwise; its [segment], when not empty, is the
    deepest non-empty level, and it is empty or absent only when all
    four levels are empty.  Its geography is never empty. *)
Theorem record_segment_fields (wb : workbook F) (sheet_name : string)
    (metadata : list (string * meta_value)) (geographies : option geography_hierarchy)
    (recs : list (data_record F)) (r : data_record F) :
  extract_data_records wb sheet_name metadata geographies = Return recs ->
  r ∈ recs ->
  geography r <> "" /\
  segment_type r = (segment_hierarchy r).1.1.1 /\
  segment_level r =
    (if PyStr.truthy (segment_hierarchy r).1.2 || PyStr.truthy (segment_hierarchy r).2
     then "parent" else "leaf") /\
  deepest_level (segment_hierarchy r) =
    (if str_truthy (segment r) then segment r else None).
Proof.
  intros Hrecs Hr.
  destruct (extract_data_records_elem _ _ _ _ _ _ Hrecs Hr)
    as (df & row & r0 & _ & _ & Hrow & ->).
  cbn. split.
  { apply data_row_inv in Hrow as (_ & _ & _ & _ & Htruthy & Hgeo & _).
    rewrite Hgeo in Htruthy. cbn in Htruthy. intros Heq. by rewrite Heq in Htruthy. }
  revert Hrow. unfold data_row.
  destruct (str_truthy (text_field _ row "Geography")); cbn; [|intros Hx; discriminate Hx].
  destruct (extract_time_series _ _ _) as [e|ts]; cbn; [intros Hx; discriminate Hx|].
  destruct (compute_cagr _ _) as [e|c]; cbn; [intros Hx; discriminate Hx|].
  destruct (resolve_geography _ _) as [level parent].
  intros [= <-]. cbn.
  destruct (text_field _ row "1st level Segment") as [[|a1 s1]|];
    destruct (text_field _ row "2nd level Segment") as [[|a2 s2]|];
    destruct (text_field _ row "3rd level Segment") as [[|a3 s3]|];
    destruct (text_field _ row "4th level Segment") as [[|a4 s4]|];
    repeat split.
Qed.
End record_fields.

Lemma time_series_keys_witness :
  StronglySorted Z.le (year_columns_of (columns sample_master)) /\
  NoDup (PyDict.keys (time_series sample_india)) /\
  (forall y, y ∈ PyDict.keys (time_series sample_india) <->
             2000 <= y <= 2100 /\
             exists c, c ∈ columns sample_master /\ py_int c = Return y).
Proof.
  apply (@time_series_keys Q Exact.sample sample_workbook "Master Sheet-Value" []
           (Some sample_geographies) sample_master sample_records sample_india);
    [reflexivity | vm_compute; reflexivity | left].
Defined.

Lemma record_segment_fields_witness :
  geography sample_punjab <> "" /\
  segment_type sample_punjab = (segment_hierarchy sample_punjab).1.1.1 /\
  segment_level sample_punjab = "leaf" /\
  deepest_level (segment_hierarchy sample_punjab) = Some "By Type".
Proof.
  apply (@record_segment_fields Q Exact.sample sample_workbook "Master Sheet-Value" []
           (Some sample_geographies) sample_records sample_punjab);
    [vm_compute; reflexivity | right; right; left].
Defined.

(** ** Records against the hierarchy they were resolved with *)

Section record_hierarchy.
Context {F : Type} `{PyFloat F}.

(** X14: with a hierarchy built by [extract_geography_hierarchy], a
    record is "global" exactly when its geography is India; a "region"
    record has a region for its geography and India for parent; a
    "country" record has, if any parent, a region; and every parent is
    listed in [all_geographies]. *)
Theorem record_parent_listed (wb wb' : workbook F) (g : geography_hierarchy)
    (sheet_name : string) (metadata : list (string * meta_value))
    (recs : list (data_record F)) (r : data_record F) :
  extract_geography_hierarchy wb = Return g ->
  extract_data_records wb' sheet_name metadata (Some g) = Return recs ->
  r ∈ recs ->
  (geography_level r = "global" <-> geography r = "India") /\
  (geography_level r = "region" ->
   geography r ∈ geo_regions g /\ parent_geography r = Some "India") /\
  (geography_level r = "country" ->
   forall p, parent_geography r = Some p -> p ∈ geo_regions g) /\
  (geography_level r ∈ ["global"; "region"; "country"]) /\
  (forall p, parent_geography r = Some p -> p ∈ geo_all_geographies g).
Proof.
  intros Hg Hrecs Hr.
  pose proof (extract_geography_hierarchy_global wb g Hg) as Hglobal.
  destruct (extract_geography_hierarchy_members wb g Hg) as (Hindia & Hkeys & Hall).
  destruct (extract_data_records_elem _ _ _ _ _ _ Hrecs Hr)
    as (df & row & r0 & _ & _ & Hrow & ->).
  apply data_row_inv in Hrow as (_ & _ & _ & _ & _ & _ & Hres & _). cbn.
  pose proof (resolve_geography_cases g "India" (geography r0) Hglobal) as Hcases.
  rewrite <- Hres in Hcases. cbn in Hcases.
  assert (forall region cl before after,
            geo_countries g = before ++ (region, cl) :: after ->
            region ∈ geo_regions g) as Hregion.
  { intros region cl before after Heq.
    assert (region ∈ PyDict.keys (geo_countries g)) as Hin.
    { unfold PyDict.keys. rewrite Heq, fmap_app, elem_of_app. right. left. }
    apply get_Some_keys in Hin as [l Hl]. by destruct (Hkeys _ _ Hl). }
  inversion Hcases as [Heq Hl Hp|Hne Hin Hl Hp|region cl before after Hne Hnin Hc Hcl Hb Hl Hp
                       |Hne Hnin Hno Hl Hp].
  - split; [done|]. split; [intros Hx; discriminate Hx|].
    split; [intros _ p Hx; discriminate Hx|].
    split; [left|]. intros p Hx. discriminate Hx.
  - split; [split; [intros Hx; discriminate Hx|done]|].
    split; [done|]. split; [intros Hx; discriminate Hx|].
    split; [right; left|]. intros p [= <-]. apply Hall. by left.
  - split; [split; [intros Hx; discriminate Hx|done]|].
    split; [intros Hx; discriminate Hx|].
    split; [intros _ p [= <-]; by eapply Hregion|].
    split; [right; right; left|]. intros p [= <-]. apply Hall. right. left.
    by eapply Hregion.
  - split; [split; [intros Hx; discriminate Hx|done]|].
    split; [intros Hx; discriminate Hx|].
    split; [intros _ p Hx; discriminate Hx|].
    split; [right; right; left|]. intros p Hx. discriminate Hx.
Qed.

(** X15: a second call of [calculate_market_share] replaces the
    shares of the first when its year's total is > 0 and leaves them
    standing otherwise: the shares depend on the time series only,
    never on the shares already there. *)
Theorem calculate_market_share_twice (records : list (data_record F)) (y1 y2 : Z) :
  calculate_market_share (calculate_market_share records y1) y2 =
  if fgtb (year_total records y2) fzero
  then calculate_market_share records y2
  else calculate_market_share records y1.
Proof.
  assert (forall y, Forall2 (fun r r' => time_series r = time_series r')
                      (calculate_market_share records y) records) as Hseries.
  { intros y. unfold calculate_market_share. destruct (fgtb _ _).
    - apply Forall2_fmap_l, Forall_Forall2_diag, Forall_forall. by intros r _.
    - apply Forall_Forall2_diag, Forall_forall. by intros r _. }
  unfold calculate_market_share at 1.
  rewrite (year_total_same_series _ records y2 (Hseries y1)).
  destruct (fgtb (year_total records y2) fzero) eqn:Hpos; [|done].
  unfold calculate_market_share. rewrite Hpos.
  destruct (fgtb (year_total records y1) fzero); [|done].
  rewrite map_map. apply map_ext. by intros r.
Qed.
End record_hierarchy.

Lemma record_parent_listed_witness :
  (geography_level sample_punjab = "global" <-> geography sample_punjab = "India") /\
  (geography_level sample_punjab = "region" ->
   geography sample_punjab ∈ geo_regions sample_geographies /\
   parent_geography sample_punjab = Some "India") /\
  (geography_level sample_punjab = "country" ->
   forall p, parent_geography sample_punjab = Some p -> p ∈ geo_regions sample_geographies) /\
  (geography_level sample_punjab ∈ ["global"; "region"; "country"]) /\
  (forall p, parent_geography sample_punjab = Some p ->
             p ∈ geo_all_geographies sample_geographies).
Proof.
  apply (@record_parent_listed Q Exact.sample sample_workbook sample_workbook
           sample_geographies "Master Sheet-Value" [] sample_records sample_punjab);
    [vm_compute; reflexivity | vm_compute; reflexivity | right; right; left].
Defined.

(** ** Bounds on the shares *)

Section share_bounds.
Context {F : Type} `{PyFloat F}.
Variables (val : F -> Q) (u : Q).

End share_bounds.


(** ** The assembler's year summary *)

Section assembler_more.
Context {F : Type} `{PyFloat F}.

(** X17: when the value records have any year, the base year is one
    of the years, lies between the start and the forecast year, and
    the start year is historical; when they have none (no record, or
    no year column), the start, base and forecast years are 2020, 2020
    and 2032 and both year lists are empty.  The assembler leaves
    every metadata field other than its six year fields as it was. *)
Theorem assembler_bounds (metadata : list (string * meta_value))
    (geographies : geography_hierarchy) (segments : list (string * segment_info))
    (value_records volume_records : list (data_record F)) :
  let s := summarize_years (collect_years value_records) in
  (years s <> [] ->
   base_year s ∈ years s /\
   start_year s <= base_year s <= forecast_year s /\
   start_year s ∈ historical_years s) /\
  (years s = [] ->
   start_year s = 2020 /\ base_year s = 2020 /\ forecast_year s = 2032 /\
   historical_years s = [] /\ forecast_years s = []) /\
  (years s = [] <-> forall r, r ∈ value_records -> time_series r = []) /\
  (forall key, key ∉ year_keys ->
     PyDict.get (doc_metadata (assemble metadata geographies segments
                                 value_records volume_records)) key
     = PyDict.get metadata key).
Proof.
  intros s. subst s.
  cbn [years start_year base_year forecast_year historical_years forecast_years
       summarize_years].
  set (ys := collect_years value_records).
  split; [|split; [|split]].
  - intros Hne.
    destruct (min_or_spec ys 2020 Hne) as [Hmin_in Hmin].
    destruct (max_or_spec ys 2032 Hne) as [Hmax_in Hmax].
    assert ((if bool_decide (2024 ∈ ys) then 2024
             else max_or (filter (fun y => y <= 2024) ys) (min_or ys 2020)) ∈ ys) as Hbase.
    { case_bool_decide as H2024; [done|].
      destruct (filter (fun y => y <= 2024) ys) as [|y l] eqn:Hf; [done|].
      assert (forall z, z ∈ y :: l -> z ∈ ys) as Hsub.
      { intros z Hz. rewrite <- Hf in Hz. by apply list_elem_of_filter in Hz as [_ ?]. }
      apply Hsub. by apply max_or_spec. }
    split; [done|]. split; [split; [by apply Hmin|by apply Hmax]|].
    apply list_elem_of_filter. split; [by apply Hmin|done].
  - intros ->. done.
  - split.
    + intros Hnil r Hr.
      destruct (time_series r) as [|[y v] ts] eqn:Hts; [done|]. exfalso.
      assert (y ∈ ys) as Hy.
      { apply elem_of_collect_years. exists r. split; [done|]. rewrite Hts. left. }
      rewrite Hnil in Hy. by apply elem_of_nil in Hy.
    + intros Hall. destruct ys as [|y l] eqn:Hys; [done|]. exfalso.
      assert (y ∈ ys) as Hy by (rewrite Hys; left).
      apply elem_of_collect_years in Hy as (r & Hr & Hy).
      rewrite (Hall r Hr) in Hy. by apply elem_of_nil in Hy.
  - intros key Hkey. unfold assemble, PyDict.update. cbn [doc_metadata fold_left fst snd].
    unfold year_keys in Hkey.
    rewrite !get_set_ne; [done|..]; intros <-; apply Hkey;
      by repeat (first [left | right]).
Qed.
End assembler_more.

Lemma assembler_bounds_witness :
  let s := summarize_years (collect_years sample_records) in
  base_year s ∈ years s /\
  start_year s <= base_year s <= forecast_year s /\
  start_year s ∈ historical_years s.
Proof.
  apply (@assembler_bounds Q [] sample_geographies [] sample_records []).
  discriminate.
Defined.

(** ** Distributor mappings, sections and records *)

Lemma module_mapping_cases (module_name : string) :
  get_module_field_mapping module_name = base_mapping \/
  get_module_field_mapping module_name = advance_mapping \/
  get_module_field_mapping module_name = premium_mapping.
Proof.
  unfold get_module_field_mapping.
  destruct (PyStr.contains "Standard" module_name); [by left|].
  destruct (PyStr.contains "Advance" module_name); [by right; left|].
  destruct (PyStr.contains "Premium" module_name); [by right; right|by left].
Qed.

(** X18: whatever the module name, the mapping chosen for it numbers
    its columns 0, 1, 2, ... without a gap, names no field twice, has
    14, 18 or 33 columns, and puts [s_no] at column 0 and
    [company_name] at column 1; a name without "Standard", "Advance"
    or "Premium" gets the Standard mapping, and so does a name with
    "Standard" whatever else it contains. *)
Theorem module_mapping_shape (module_name : string) :
  let m := get_module_field_mapping module_name in
  PyDict.keys m = seq 0 (length m) /\
  NoDup m.*2 /\
  (length m = 14 \/ length m = 18 \/ length m = 33)%nat /\
  PyDict.get m 0%nat = Some "s_no" /\
  PyDict.get m 1%nat = Some "company_name" /\
  (PyStr.contains "Standard" module_name = true -> m = base_mapping) /\
  (PyStr.contains "Advance" module_name = false ->
   PyStr.contains "Premium" module_name = false -> m = base_mapping).
Proof.
  intros m. subst m. split; [|split; [|split; [|split; [|split; [|split]]]]].
  - destruct (module_mapping_cases module_name) as [-> | [-> | ->]]; reflexivity.
  - destruct (module_mapping_cases module_name) as [-> | [-> | ->]];
      refine (bool_decide_unpack _ _); vm_compute; exact I.
  - destruct (module_mapping_cases module_name) as [-> | [-> | ->]];
      [left|right; left|right; right]; reflexivity.
  - destruct (module_mapping_cases module_name) as [-> | [-> | ->]]; reflexivity.
  - destruct (module_mapping_cases module_name) as [-> | [-> | ->]]; reflexivity.
  - unfold get_module_field_mapping. by intros ->.
  - unfold get_module_field_mapping. intros -> ->.
    by destruct (PyStr.contains "Standard" module_name).
Qed.

(** X19: for each of the three modules the section manifest and the
    column mapping name the same fields: every mapped field other than
    [s_no] stands in exactly one section, and every field of a section
    is mapped. *)
Theorem sections_cover_mapping (module : string) :
  module ∈ modules ->
  concat (get_module_sections module).*2 ≡ₚ
  filter (fun field => field <> "s_no") (get_module_field_mapping module).*2.
Proof.
  unfold modules. intros Hm.
  repeat (apply elem_of_cons in Hm as [->|Hm];
          [rewrite <- (merge_sort_Permutation String.le (concat _)),
                   <- (merge_sort_Permutation String.le (filter _ _));
           by vm_compute|]).
  by apply elem_of_nil in Hm.
Qed.

Lemma module_mapping_shape_witness :
  get_module_field_mapping "Module 1 - Standard Premium" = base_mapping.
Proof.
  destruct (module_mapping_shape "Module 1 - Standard Premium")
    as (_ & _ & _ & _ & _ & Hstandard & _).
  apply Hstandard. reflexivity.
Defined.

Lemma sections_cover_mapping_witness :
  concat (get_module_sections "Module 3 - Premium").*2 ≡ₚ
  filter (fun field => field <> "s_no") (get_module_field_mapping "Module 3 - Premium").*2.
Proof.
  apply (sections_cover_mapping "Module 3 - Premium"). right. right. left.
Defined.

Section distributor_more.
Context {F : Type} `{PyFloat F}.

Lemma get_distributor_field (row : list (cell F)) d (entry : nat * string) k :
  PyDict.get (distributor_field row d entry) k =
  if (0 <? entry.1)%nat && bool_decide (entry.2 = k)
  then Some (field_value row entry.1)
  else PyDict.get d k.
Proof.
  destruct entry as [col field]. unfold distributor_field, field_value. cbn [fst snd].
  destruct (0 <? col)%nat; cbn [andb]; [|done].
  destruct (if (col <? length row)%nat then row !! col else None) as [c|];
    [destruct (_ && _)|]; rewrite get_set; by case_bool_decide; case_decide.
Qed.

Lemma get_distributor_fields (row : list (cell F)) (m : list (nat * string)) d k :
  (PyDict.get (fold_left (distributor_field row) m d) k = PyDict.get d k \/
   exists col, PyDict.get (fold_left (distributor_field row) m d) k
               = Some (field_value row col)) /\
  (is_Some (PyDict.get d k) -> is_Some (PyDict.get (fold_left (distributor_field row) m d) k)) /\
  (Forall (fun e => e.2 <> k) m ->
   PyDict.get (fold_left (distributor_field row) m d) k = PyDict.get d k) /\
  (forall col, (col, k) ∈ m -> (0 < col)%nat ->
               is_Some (PyDict.get (fold_left (distributor_field row) m d) k)).
Proof.
  revert d. induction m as [|e m IH]; intros d; cbn [fold_left].
  - split; [by left|]. split; [done|]. split; [done|].
    intros col Hin. by apply elem_of_nil in Hin.
  - destruct (IH (distributor_field row d e)) as (Hval & Hkeep & Hother & Hnew).
    rewrite get_distributor_field in Hval, Hkeep, Hother.
    split; [|split; [|split]].
    + destruct Hval as [Hval|?]; [|by right]. rewrite Hval.
      destruct (_ && _); [right; by eexists|by left].
    + intros Hd. apply Hkeep. by destruct (_ && _).
    + intros [He Hm]%Forall_cons. rewrite (Hother Hm). cbn beta in He.
      rewrite (bool_decide_false _ He). by rewrite andb_false_r.
    + intros col [[= <-]|Hin]%elem_of_cons Hcol; [|by eapply Hnew].
      apply Hkeep. cbn [fst snd]. rewrite (proj2 (Nat.ltb_lt 0 col) Hcol).
      rewrite bool_decide_true by done. by eexists.
Qed.

Lemma field_value_truthy (row : list (cell F)) (col : nat) :
  dvalue_truthy (Some (field_value row col)) = true ->
  exists s, field_value row col = DStr s /\ s <> "".
Proof.
  unfold field_value.
  destruct (if (col <? length row)%nat then row !! col else None) as [c|]; [|done].
  destruct (notna c); cbn -[PyStr.strip]; [|done].
  case_bool_decide as Hblank; cbn -[PyStr.strip]; [done|]. by eexists.
Qed.

Lemma mapping_avoids_keys (sheet_name : string) :
  Forall (fun e : nat * string => e.2 <> "id") (get_module_field_mapping sheet_name) /\
  Forall (fun e : nat * string => e.2 <> "module") (get_module_field_mapping sheet_name).
Proof.
  destruct (module_mapping_cases sheet_name) as [-> | [-> | ->]];
    split; vm_compute; repeat constructor; discriminate.
Qed.

Lemma mapping_positive (sheet_name : string) (col : nat) (field : string) :
  PyDict.get (get_module_field_mapping sheet_name) col = Some field ->
  field = "s_no" \/ ((col, field) ∈ get_module_field_mapping sheet_name /\ (0 < col)%nat).
Proof.
  intros Hget. destruct col as [|col].
  - left. destruct (module_mapping_cases sheet_name) as [Hm | [Hm | Hm]];
      rewrite Hm in Hget; by injection Hget as <-.
  - right. split; [by apply get_elem_of|lia].
Qed.

(** What one data row adds to the list of records. *)
Lemma distributor_row_ok (df : grid F) (sheet_name : string) acc (idx : nat) acc' :
  distributor_row df sheet_name (get_module_field_mapping sheet_name) acc idx = Return acc' ->
  acc' = acc \/ exists d, acc' = acc ++ [d] /\ distributor_ok sheet_name d.
Proof.
  unfold distributor_row.
  destruct (iloc_row df idx) as [e|row]; cbn -[PyStr.strip PyStr.isdigit];
    [intros Hx; discriminate Hx|].
  destruct (iloc row 0) as [e|c0]; cbn -[PyStr.strip PyStr.isdigit];
    [intros Hx; discriminate Hx|].
  destruct (_ || _); [intros [= <-]; by left|].
  destruct (if notna c0 then py_int c0 else Return (Z.of_nat idx)) as [e|n];
    cbn -[PyStr.strip PyStr.isdigit]; [intros Hx; discriminate Hx|].
  destruct (if notna c0 && PyStr.isdigit (py_str c0) then _ else _) as [e|s_no];
    cbn -[PyStr.strip PyStr.isdigit]; [intros Hx; discriminate Hx|].
  set (d0 := [("id", _); ("module", _); ("s_no", s_no)]).
  set (d := fold_left _ _ d0).
  destruct (dvalue_truthy (PyDict.get d "company_name")) eqn:Hcompany;
    intros [= <-]; [|by left].
  right. exists d. split; [done|].
  destruct (mapping_avoids_keys sheet_name) as [Hid Hmodule].
  split; [|split; [|split]].
  - subst d. by rewrite (proj1 (proj2 (proj2 (get_distributor_fields row _ d0 "module")))).
  - exists n. subst d.
    by rewrite (proj1 (proj2 (proj2 (get_distributor_fields row _ d0 "id")))).
  - destruct (proj1 (get_distributor_fields row (get_module_field_mapping sheet_name)
                       d0 "company_name")) as [Hsame|[col Hcol]].
    + fold d in Hsame. rewrite Hsame in Hcompany. discriminate Hcompany.
    + fold d in Hcol. rewrite Hcol in Hcompany |- *.
      destruct (field_value_truthy row col Hcompany) as (s & -> & Hs). by exists s.
  - intros col field [->|[Hin Hcol]]%mapping_positive.
    + by apply (proj1 (proj2 (get_distributor_fields row _ d0 "s_no"))).
    + by apply (proj2 (proj2 (proj2 (get_distributor_fields row _ d0 field))) col).
Qed.

Lemma distributor_rows_ok (df : grid F) (sheet_name : string) (idxs : list nat) acc acc' :
  for_each idxs (distributor_row df sheet_name (get_module_field_mapping sheet_name)) acc
    = Return acc' ->
  exists new, acc' = acc ++ new /\
              Forall (distributor_ok sheet_name) new /\
              (length new <= length idxs)%nat.
Proof.
  revert acc. induction idxs as [|idx idxs IH]; intros acc; cbn -[distributor_row].
  - intros [= <-]. exists []. by rewrite app_nil_r.
  - destruct (distributor_row _ _ _ acc idx) as [e|acc1] eqn:Hrow; cbn -[distributor_row];
      [intros Hx; discriminate Hx|].
    intros (new & -> & Hnew & Hlen)%IH.
    apply distributor_row_ok in Hrow as [->|(d & -> & Hd)].
    + exists new. repeat split; [done|lia].
    + exists (d :: new). rewrite <- app_assoc. repeat split; [by constructor|cbn; lia].
Qed.

(** X20: every record [extract_distributors_from_sheet] returns names
    its sheet under [module], has an id made of the sheet's name in
    lower case with underscores, an underscore and a row number, has
    a non-empty [company_name], and has an entry for every field of
    the sheet's mapping; there are at most as many records as data
    rows. *)
Theorem distributor_records (wb : workbook F) (sheet_name : string) (df : grid F)
    (distributors : list (list (string * dvalue))) :
  sheet_grid wb sheet_name = Some df ->
  extract_distributors_from_sheet wb sheet_name = Return distributors ->
  Forall (distributor_ok sheet_name) distributors /\
  (length distributors <= length df - 5)%nat.
Proof.
  unfold extract_distributors_from_sheet, read_excel_grid. intros ->.
  cbn -[for_each range distributor_row].
  destruct (iloc_row df 4) as [e|headers]; cbn -[for_each range distributor_row];
    [intros Hx; discriminate Hx|].
  intros (new & -> & Hnew & Hlen)%distributor_rows_ok.
  split; [done|]. unfold range in Hlen. by rewrite length_seq in Hlen.
Qed.

(** X21: [extract_distributors_from_sheet] raises [ValueError] for an
    absent sheet and [IndexError] for a sheet of fewer than five rows
    (there is no header row to read) or with a data row without cells;
    a sheet of exactly five rows gives no record. *)
Theorem distributor_sheet_errors (wb : workbook F) (sheet_name : string) :
  (sheet_grid wb sheet_name = None ->
   extract_distributors_from_sheet wb sheet_name = Raise ValueError) /\
  (forall df, sheet_grid wb sheet_name = Some df -> (length df < 5)%nat ->
              extract_distributors_from_sheet wb sheet_name = Raise IndexError) /\
  (forall df, sheet_grid wb sheet_name = Some df -> length df = 5%nat ->
              extract_distributors_from_sheet wb sheet_name = Return []) /\
  (forall h0 h1 h2 h3 h4 rows,
     sheet_grid wb sheet_name = Some ([h0; h1; h2; h3; h4] ++ [] :: rows) ->
     extract_distributors_from_sheet wb sheet_name = Raise IndexError).
Proof.
  unfold extract_distributors_from_sheet, read_excel_grid.
  split; [by intros ->|]. split; [|split].
  - intros df -> Hlen. cbn -[for_each range distributor_row]. unfold iloc_row, grid in *.
    by rewrite lookup_ge_None_2 by lia.
  - intros df -> Hlen. cbn -[for_each range distributor_row]. unfold iloc_row, grid in *.
    destruct (lookup_lt_is_Some_2 df 4) as [headers ->]; [lia|].
    cbn -[distributor_row]. unfold range. rewrite Hlen. reflexivity.
  - intros h0 h1 h2 h3 h4 rows ->. cbn -[for_each distributor_row].
    unfold range. cbn -[distributor_row].
    replace (length rows - 0)%nat with (length rows) by lia. reflexivity.
Qed.

Lemma py_int_safe (c0 : cell F) :
  safe_row_number c0 ->
  isna c0 || bool_decide (PyStr.strip (py_str c0) = "") = true \/
  exists z, py_int c0 = Return z.
Proof.
  destruct c0 as [|s|z|f|b|text]; cbn -[PyStr.strip PyStr.int_of_str].
  - by left.
  - intros [Hblank|[z Hz]]; [left; by apply bool_decide_eq_true|].
    right. rewrite Hz. by eexists.
  - right. by eexists.
  - intros [z ->]. right. by eexists.
  - right. by eexists.
  - intros Hblank. left. by apply bool_decide_eq_true.
Qed.

(** X22: when the first cell of every data row is empty, an integer,
    a flag, blank, an integer literal or a float [int()] accepts,
    [extract_distributors_from_sheet] returns: apart from a missing
    sheet, a missing header row and a row without cells, the row
    number is the only thing that can make it fail. *)
Theorem safe_row_numbers_return (wb : workbook F) (sheet_name : string) (df : grid F) :
  sheet_grid wb sheet_name = Some df ->
  (5 <= length df)%nat ->
  Forall (fun row => exists c0 rest, row = c0 :: rest /\ safe_row_number c0) (drop 5 df) ->
  exists distributors, extract_distributors_from_sheet wb sheet_name = Return distributors.
Proof.
  unfold extract_distributors_from_sheet, read_excel_grid. intros -> Hlen Hsafe.
  cbn -[for_each range distributor_row]. unfold iloc_row at 1. unfold grid in *.
  destruct (lookup_lt_is_Some_2 df 4) as [headers ->]; [lia|].
  cbn -[for_each range distributor_row].
  destruct (for_each_invariant (fun _ => True) (range 5 (length df))
              (distributor_row df sheet_name (get_module_field_mapping sheet_name)) [])
    as (ds & -> & _); [|done|by eexists].
  intros acc idx [Hlo Hhi]%elem_of_range _.
  unfold distributor_row, iloc_row, iloc, grid.
  destruct (lookup_lt_is_Some_2 df idx Hhi) as [row Hrow]. rewrite Hrow.
  assert (row ∈ drop 5 df) as Hin.
  { apply list_elem_of_lookup. exists (idx - 5)%nat. rewrite lookup_drop.
    by replace (5 + (idx - 5))%nat with idx by lia. }
  rewrite Forall_forall in Hsafe. destruct (Hsafe row Hin) as (c0 & rest & -> & Hc0).
  cbn -[PyStr.strip PyStr.isdigit].
  destruct (py_int_safe c0 Hc0) as [->|[z Hz]]; [by eexists|].
  destruct (_ || _); [by eexists|].
  rewrite Hz. destruct (notna c0); cbn -[PyStr.strip PyStr.isdigit].
  - destruct (PyStr.isdigit _); cbn -[PyStr.strip];
      destruct (dvalue_truthy _); by eexists.
  - destruct (dvalue_truthy _); by eexists.
Qed.
End distributor_more.

Lemma distributor_records_witness :
  Forall (distributor_ok "Module 2 - Advance")
    [ [ ("id", DStr "module_2_-_advance_1"); ("module", DStr "Module 2 - Advance");
        ("s_no", DInt 1); ("company_name", DStr "Gulf Beauty");
        ("year_established", DNone); ("headquarters_emirate", DNone);
        ("cities_regions_covered", DNone); ("ownership_type", DNone);
        ("business_type", DNone); ("no_of_employees", DNone);
        ("turnover_scale", DNone); ("key_contact_person", DNone);
        ("designation_role", DNone); ("email_address", DNone);
        ("phone_whatsapp", DNone); ("linkedin_profile", DNone);
        ("website_url", DNone); ("core_product_categories", DNone);
        ("specialty_focus", DNone); ("price_segment", DNone) ] ].
Proof.
  apply (@distributor_records Q Exact.sample sample_distributors "Module 2 - Advance"
           (sample_header ++ [ [CInt 1; CText "Gulf Beauty"] ]));
    reflexivity.
Defined.

Lemma distributor_sheet_errors_witness :
  extract_distributors_from_sheet sample_distributors "Module 3 - Premium" = Raise ValueError.
Proof.
  apply (@distributor_sheet_errors Q Exact.sample sample_distributors "Module 3 - Premium").
  reflexivity.
Defined.

Lemma safe_row_numbers_return_witness :
  exists distributors,
    extract_distributors_from_sheet sample_distributors "Module 2 - Advance"
    = Return distributors.
Proof.
  apply (@safe_row_numbers_return Q Exact.sample sample_distributors "Module 2 - Advance"
           (sample_header ++ [ [CInt 1; CText "Gulf Beauty"] ]));
    [reflexivity | cbn; lia |].
  repeat constructor. by exists (CInt 1), [CText "Gulf Beauty"].
Defined.

(** ** The two runs as a whole *)

Section run_more.
Context {F : Type} `{PyFloat F}.

Lemma extract_distributors_ok (wb : workbook F) (sheet_name : string)
    (distributors : list (list (string * dvalue))) :
  extract_distributors_from_sheet wb sheet_name = Return distributors ->
  Forall (distributor_ok sheet_name) distributors.
Proof.
  unfold extract_distributors_from_sheet, read_excel_grid.
  destruct (sheet_grid wb sheet_name) as [df|]; cbn -[for_each range distributor_row];
    [|intros Hx; discriminate Hx].
  destruct (iloc_row df 4) as [e|headers]; cbn -[for_each range distributor_row];
    [intros Hx; discriminate Hx|].
  by intros (new & -> & Hnew & _)%distributor_rows_ok.
Qed.

Lemma spices_extraction_returns (wb : workbook F) :
  has_all_sheets wb -> well_shaped wb ->
  exists doc, spices_extraction wb = Return doc.
Proof.
  intros ([parameters Hp] & [region Hr] & [segmentation Hs] & [value Hv] & [volume Hw])
         [Hrows Hrect].
  unfold spices_extraction.
  destruct (extract_metadata_returns wb parameters Hp (Hrows _ Hp)) as [metadata ->].
  destruct (extract_geography_hierarchy_returns wb region Hr) as [geographies ->].
  destruct (extract_segment_hierarchy_returns wb segmentation Hs (Hrect _ Hs))
    as [segments ->].
  cbn -[extract_data_records assemble].
  destruct (extract_data_records_returns wb "Master Sheet-Value" metadata
              (Some geographies) value Hv) as [value_records ->].
  destruct (extract_data_records_returns wb "Master Sheet-Volume" metadata
              (Some geographies) volume Hw) as [volume_records ->].
  by eexists.
Qed.

Lemma spices_extraction_raises (wb : workbook F) :
  ~ has_all_sheets wb -> exists e, spices_extraction wb = Raise e.
Proof.
  intros Hmissing. destruct (spices_extraction wb) as [e|doc] eqn:Hrun; [by eexists|].
  destruct Hmissing. revert Hrun. unfold spices_extraction, has_all_sheets.
  destruct (extract_metadata wb) as [e|metadata] eqn:Hm;
    cbn -[extract_geography_hierarchy extract_segment_hierarchy extract_data_records assemble];
    [intros Hx; discriminate Hx|].
  destruct (extract_geography_hierarchy wb) as [e|geographies] eqn:Hg;
    cbn -[extract_segment_hierarchy extract_data_records assemble];
    [intros Hx; discriminate Hx|].
  destruct (extract_segment_hierarchy wb) as [e|segments] eqn:Hs;
    cbn -[extract_data_records assemble]; [intros Hx; discriminate Hx|].
  destruct (extract_data_records wb "Master Sheet-Value" _ _) as [e|value_records] eqn:Hv;
    cbn -[extract_data_records assemble]; [intros Hx; discriminate Hx|].
  destruct (extract_data_records wb "Master Sheet-Volume" _ _) as [e|volume_records] eqn:Hw;
    cbn -[assemble]; [intros Hx; discriminate Hx|].
  intros _.
  unfold extract_metadata, read_excel_grid in Hm.
  unfold extract_geography_hierarchy, read_excel_grid in Hg.
  unfold extract_segment_hierarchy, read_excel_grid in Hs.
  unfold extract_data_records, read_excel_frame in Hv, Hw.
  destruct (sheet_grid wb "Parameters"); [|discriminate Hm].
  destruct (sheet_grid wb "Region"); [|discriminate Hg].
  destruct (sheet_grid wb "Segmentation"); [|discriminate Hs].
  destruct (sheet_frame wb "Master Sheet-Value"); [|discriminate Hv].
  destruct (sheet_frame wb "Master Sheet-Volume"); [|discriminate Hw].
  by repeat split.
Qed.

(** The document the distributor generator builds, read off the
    workbook. *)
Lemma generate_document (wb : workbook F) (output_path : string) (w : world F) :
  exists out,
    generate_distributors_json wb output_path w =
    (Return {| dd_modules := modules;
               dd_data := map (fun m => (m, module_data wb m)) modules;
               dd_sections := map (fun m => (m, module_sections wb m)) modules |},
     {| stdout := stdout w ++ out;
        files := PyDict.set (files w) output_path
                   (DistributorsJson
                      {| dd_modules := modules;
                         dd_data := map (fun m => (m, module_data wb m)) modules;
                         dd_sections := map (fun m => (m, module_sections wb m)) modules |})
     |}).
Proof.
  unfold generate_distributors_json, module_data, module_sections, modules.
  unfold io_bind, io_lift, io_ret, io_try, print, write_json.
  cbn -[extract_distributors_from_sheet get_module_sections].
  unfold io_bind, io_lift, io_ret, io_try, print, write_json.
  cbn -[extract_distributors_from_sheet get_module_sections].
  destruct (extract_distributors_from_sheet wb "Module 1 - Standard") as [e1|d1];
    destruct (extract_distributors_from_sheet wb "Module 2 - Advance") as [e2|d2];
    destruct (extract_distributors_from_sheet wb "Module 3 - Premium") as [e3|d3];
    cbn -[get_module_sections];
    eexists; by rewrite <- !app_assoc.
Qed.

(** X23: a run of the spices converter on a workbook that has the
    five sheets, no Parameters row without cells and a rectangular
    Segmentation sheet returns the assembled document and leaves it
    in the output file; on a workbook that lacks one of the five
    sheets it raises and writes nothing. *)
Theorem converter_runs (wb : workbook F) (output_path : string) (w : world F) :
  (has_all_sheets wb -> well_shaped wb ->
   exists doc out,
     spices_extraction wb = Return doc /\
     convert_india_spices_to_json wb output_path w =
     (Return doc, {| stdout := stdout w ++ out;
                     files := PyDict.set (files w) output_path (SpicesJson doc) |}) /\
     PyDict.get (files (convert_india_spices_to_json wb output_path w).2) output_path
     = Some (SpicesJson doc)) /\
  (~ has_all_sheets wb ->
   exists e out,
     convert_india_spices_to_json wb output_path w =
     (Raise e, {| stdout := stdout w ++ out; files := files w |})).
Proof.
  pose proof (convert_outcome wb output_path w) as Hrun. split.
  - intros Hsheets Hshape.
    destruct (spices_extraction_returns wb Hsheets Hshape) as [doc Hdoc].
    rewrite Hdoc in Hrun. destruct Hrun as [out Hrun].
    exists doc, out. split; [done|]. split; [done|].
    rewrite Hrun. cbn. apply get_set_eq.
  - intros Hmissing. destruct (spices_extraction_raises wb Hmissing) as [e He].
    rewrite He in Hrun. destruct Hrun as [out Hrun]. by exists e, out.
Qed.


(** X25: whenever [generate_distributors_json] returns a document,
    the document lists the three modules, in order, under [data] and
    under [sections]; every record under a module is a record of that
    module; a module that has records has its sections; and the
    output file holds the returned document. *)
Theorem generated_document (wb : workbook F) (output_path : string) (w : world F)
    (doc : distributors_document) :
  (generate_distributors_json wb output_path w).1 = Return doc ->
  PyDict.keys (dd_data doc) = modules /\
  PyDict.keys (dd_sections doc) = modules /\
  (forall module distributors,
     PyDict.get (dd_data doc) module = Some distributors ->
     Forall (distributor_ok module) distributors /\
     (distributors <> [] ->
      PyDict.get (dd_sections doc) module = Some (get_module_sections module))) /\
  PyDict.get (files (generate_distributors_json wb output_path w).2) output_path
  = Some (DistributorsJson doc).
Proof.
  destruct (generate_document wb output_path w) as [out ->]. cbn [fst snd files].
  intros [= <-]. cbn [dd_data dd_sections].
  split; [reflexivity|]. split; [reflexivity|]. split; [|apply get_set_eq].
  intros module distributors Hget.
  assert (module ∈ modules /\ distributors = module_data wb module) as [Hm ->].
  { apply get_elem_of in Hget. unfold modules.
    repeat (apply elem_of_cons in Hget as [[= -> ->]|Hget];
            [split; [by repeat constructor|done]|]).
    by apply elem_of_nil in Hget. }
  unfold module_data, module_sections.
  destruct (extract_distributors_from_sheet wb module) as [e|ds] eqn:Hrun.
  - split; [constructor|done].
  - split; [by eapply extract_distributors_ok|]. intros _.
    unfold modules in Hm.
    repeat (apply elem_of_cons in Hm as [->|Hm]; [cbn; by rewrite Hrun|]).
    by apply elem_of_nil in Hm.
Qed.
End run_more.

Lemma converter_runs_witness :
  exists doc out,
    spices_extraction sample_workbook = Return doc /\
    convert_india_spices_to_json sample_workbook "out.json" empty_world =
    (Return doc, {| stdout := stdout empty_world ++ out;
                    files := PyDict.set (files empty_world) "out.json" (SpicesJson doc) |}) /\
    PyDict.get (files (convert_india_spices_to_json sample_workbook "out.json"
                         empty_world).2) "out.json"
    = Some (SpicesJson doc).
Proof.
  apply (proj1 (@converter_runs Q Exact.sample sample_workbook "out.json" empty_world)).
  - repeat split; by eexists.
  - split; intros df [= <-]; repeat constructor; discriminate.
Defined.


Lemma generated_document_witness :
  PyDict.keys (dd_data sample_document) = modules /\
  PyDict.keys (dd_sections sample_document) = modules /\
  (forall module distributors,
     PyDict.get (dd_data sample_document) module = Some distributors ->
     Forall (distributor_ok module) distributors /\
     (distributors <> [] ->
      PyDict.get (dd_sections sample_document) module = Some (get_module_sections module))) /\
  PyDict.get (files (generate_distributors_json sample_distributors "out.json"
                       empty_world).2) "out.json"
  = Some (DistributorsJson sample_document).
Proof.
  apply (@generated_document Q Exact.sample sample_distributors "out.json" empty_world
           sample_document).
  vm_compute. reflexivity.
Defined.
